(** * TOTP service of the authenticator app: a shallow embedding

    The development follows [src/totp-project/src/services/TOTPService.ts]
    and the screens and components that call the service.

    - [JS]           the ECMAScript values and built-ins the service uses
                     (strings, exceptions, [parseInt], [split], URI component
                     coding);
    - [Web]          the [URL] / [URLSearchParams] interface of the host and
                     an instance written after the WHATWG URL Standard;
    - [Otplib]       the interface of the [totp] object of the library, and
                     the state shared with it;
    - [TOTPService]  the methods of the class, line by line;
    - [TOTPItem], [HomeScreen], [QRCodeScanner], [AddAccountForm]  the
                     handlers of the screens that call the service;
    - [Hash], [OtplibModel]  a model of the library after the
                     specification: SHA-1, SHA-256, SHA-512, HMAC, HOTP,
                     keyed as the [totp] object of the package keys it;
    - [ThirtyTwoModel]  a model of the Base32 encoder after the
                     specification;
    - [Spec]         the vocabulary of the specification;
    - the properties of the service. *)

From Stdlib Require Import ZArith List String Ascii Bool Lia.
Import ListNotations.

Open Scope string_scope.
Open Scope Z_scope.

(* ================================================================== *)
(** * ECMAScript values and built-ins *)
(* ================================================================== *)

Module JS.

(** ** Strings

    A JavaScript string is represented by the UTF-8 encoding of its code
    points, held in a Rocq [string] (one [ascii] per byte).  ASCII text is
    its own representation, and every string the service inspects is compared
    with ASCII patterns only.  Strings with unpaired surrogates have no
    representation. *)

Definition code (c : ascii) : Z := Z.of_N (N_of_ascii c).

Definition between (lo hi : Z) (c : ascii) : bool :=
  (lo <=? code c) && (code c <=? hi).

Definition is_upper (c : ascii) : bool := between 65 90 c.
Definition is_lower (c : ascii) : bool := between 97 122 c.
Definition is_digit (c : ascii) : bool := between 48 57 c.
Definition is_alpha (c : ascii) : bool := is_upper c || is_lower c.
Definition is_alnum (c : ascii) : bool := is_alpha c || is_digit c.

Definition byte (z : Z) : ascii := ascii_of_N (Z.to_N (z mod 256)).

Fixpoint forallb_str (p : ascii -> bool) (s : string) : bool :=
  match s with
  | EmptyString => true
  | String c r => p c && forallb_str p r
  end.

Fixpoint existsb_str (p : ascii -> bool) (s : string) : bool :=
  match s with
  | EmptyString => false
  | String c r => p c || existsb_str p r
  end.

(** [s.length] for the strings the service measures; they have passed an
    ASCII pattern by then, so bytes and UTF-16 code units coincide. *)
Definition len (s : string) : Z := Z.of_nat (String.length s).

(** JavaScript truthiness of a string: [!s] holds for the empty string. *)
Definition truthy (s : string) : bool :=
  match s with EmptyString => false | _ => true end.

(** [s.startsWith(p)] *)
Fixpoint starts_with (p s : string) : bool :=
  match p, s with
  | EmptyString, _ => true
  | String a p', String b s' => Ascii.eqb a b && starts_with p' s'
  | String _ _, EmptyString => false
  end.

(** [a || b] on strings. *)
Definition or_else (a b : string) : string := if truthy a then a else b.

(** ** Exceptions

    A thrown value is an [Error] object with its [message], or some other
    value ([error instanceof Error] is false for it). *)

Inductive Exception : Type :=
| JsError (message : string)
| NonError.

Inductive Result (A : Type) : Type :=
| Returned (a : A)
| Thrown (e : Exception).

Arguments Returned {A} a.
Arguments Thrown {A} e.

Definition bindR {A B} (r : Result A) (k : A -> Result B) : Result B :=
  match r with
  | Returned a => k a
  | Thrown e => Thrown e
  end.

(** [error instanceof Error ? error.message : 'Unknown error'] *)
Definition message_of (e : Exception) : string :=
  match e with
  | JsError m => m
  | NonError => "Unknown error"
  end.

(** ** White space: the class [\s]

    [\s] is WhiteSpace and LineTerminator of ECMA-262: TAB, LF, VT, FF, CR,
    SP, U+00A0, U+1680, U+2000..U+200A, U+2028, U+2029, U+202F, U+205F,
    U+3000 and U+FEFF.  [ws_len s] is the number of bytes of the white-space
    character [s] starts with, [0] when it starts with none. *)

Definition ws_len (s : string) : nat :=
  match s with
  | EmptyString => 0%nat
  | String c1 r1 =>
      if between 9 13 c1 || (code c1 =? 32) then 1%nat
      else match r1 with
      | EmptyString => 0%nat
      | String c2 r2 =>
          if (code c1 =? 194) && (code c2 =? 160) then 2%nat
          else match r2 with
          | EmptyString => 0%nat
          | String c3 _ =>
              let k1 := code c1 in
              let k2 := code c2 in
              let k3 := code c3 in
              if (k1 =? 225) && (k2 =? 154) && (k3 =? 128) then 3%nat
              else if (k1 =? 226) && (k2 =? 128)
                      && (between 128 138 c3 || between 168 169 c3
                          || (k3 =? 175)) then 3%nat
              else if (k1 =? 226) && (k2 =? 129) && (k3 =? 159) then 3%nat
              else if (k1 =? 227) && (k2 =? 128) && (k3 =? 128) then 3%nat
              else if (k1 =? 239) && (k2 =? 187) && (k3 =? 191) then 3%nat
              else 0%nat
          end
      end
  end.

(** [s.replace(/\s/g, '')]; [skip] counts the bytes of a white-space
    character still to be dropped. *)
Fixpoint remove_ws_from (skip : nat) (s : string) : string :=
  match s with
  | EmptyString => EmptyString
  | String c r =>
      match skip with
      | S k => remove_ws_from k r
      | O =>
          match ws_len s with
          | O => String c (remove_ws_from 0 r)
          | S k => remove_ws_from k r
          end
      end
  end.

Definition removeWhitespace (s : string) : string := remove_ws_from 0 s.

(** ** Case conversion

    [toUpperCase] maps a..z to A..Z, and the characters whose Unicode upper
    case is made of ASCII letters alone: U+00DF to SS, U+0131 to I, U+017F to
    S and the ligatures U+FB00..U+FB06 to FF, FI, FL, FFI, FFL, ST, ST.  Any
    other character is kept as it is: its upper case holds a non-ASCII
    character, and the service only compares upper-cased text with ASCII
    patterns, under which both forms fail alike. *)

Definition upper_at (s : string) : option (nat * string) :=
  match s with
  | String c1 (String c2 r2) =>
      let k1 := code c1 in
      let k2 := code c2 in
      if (k1 =? 195) && (k2 =? 159) then Some (1%nat, "SS")
      else if (k1 =? 196) && (k2 =? 177) then Some (1%nat, "I")
      else if (k1 =? 197) && (k2 =? 191) then Some (1%nat, "S")
      else match r2 with
      | String c3 _ =>
          if (k1 =? 239) && (k2 =? 172) then
            match code c3 with
            | 128 => Some (2%nat, "FF")
            | 129 => Some (2%nat, "FI")
            | 130 => Some (2%nat, "FL")
            | 131 => Some (2%nat, "FFI")
            | 132 => Some (2%nat, "FFL")
            | 133 => Some (2%nat, "ST")
            | 134 => Some (2%nat, "ST")
            | _ => None
            end
          else None
      | EmptyString => None
      end
  | _ => None
  end.

Definition upper_ascii (c : ascii) : ascii :=
  if is_lower c then byte (code c - 32) else c.

Definition lower_ascii (c : ascii) : ascii :=
  if is_upper c then byte (code c + 32) else c.

Fixpoint upper_from (skip : nat) (s : string) : string :=
  match s with
  | EmptyString => EmptyString
  | String c r =>
      match skip with
      | S k => upper_from k r
      | O =>
          match upper_at s with
          | Some (k, u) => u ++ upper_from k r
          | None => String (upper_ascii c) (upper_from 0 r)
          end
      end
  end.

Definition toUpperCase (s : string) : string := upper_from 0 s.

(** [toLowerCase] maps A..Z to a..z, and U+212A (the Kelvin sign) to k, the
    one other character whose lower case is ASCII; the service compares the
    result with ["totp"] and ["hotp"] only. *)
Fixpoint lower_from (skip : nat) (s : string) : string :=
  match s with
  | EmptyString => EmptyString
  | String c r =>
      match skip with
      | S k => lower_from k r
      | O =>
          match s with
          | String c1 (String c2 (String c3 _)) =>
              if (code c1 =? 226) && (code c2 =? 132) && (code c3 =? 170)
              then String "k" (lower_from 2 r)
              else String (lower_ascii c) (lower_from 0 r)
          | _ => String (lower_ascii c) (lower_from 0 r)
          end
      end
  end.

Definition toLowerCase (s : string) : string := lower_from 0 s.

(** ** The pattern [/^[A-Z2-7]+=*$/] and [replace(/=+$/, '')] *)

Definition is_base32_char (c : ascii) : bool :=
  between 65 90 c || between 50 55 c.

Definition is_pad (c : ascii) : bool := code c =? 61.

(** [[A-Z2-7]*=*$] *)
Fixpoint base32_tail (s : string) : bool :=
  match s with
  | EmptyString => true
  | String c r =>
      if is_base32_char c then base32_tail r else forallb_str is_pad s
  end.

(** [/^[A-Z2-7]+=*$/.test(s)] *)
Definition test_base32 (s : string) : bool :=
  match s with
  | EmptyString => false
  | String c r => is_base32_char c && base32_tail r
  end.

(** The longest run of characters satisfying [p] that reaches the end of
    [s] is removed. *)
Fixpoint strip_trailing (p : ascii -> bool) (s : string) : string :=
  match s with
  | EmptyString => EmptyString
  | String c r =>
      match strip_trailing p r with
      | EmptyString => if p c then EmptyString else String c EmptyString
      | r' => String c r'
      end
  end.

(** [s.replace(/=+$/, '')] *)
Definition strip_padding (s : string) : string := strip_trailing is_pad s.

(** ** Numbers

    The numbers the service handles are the results of [parseInt] and the
    option fields: [NaN] or an integer.  [Num z] stands for the double
    nearest to [z]; the service compares numbers with 6, 7, 8, 1 and 300
    only, where rounding plays no part. *)

Inductive Number : Type :=
| NaN
| Num (z : Z).

(** [n || d] for a possibly missing number: [undefined], [NaN] and [0] are
    falsy. *)
Definition num_or (o : option Number) (d : Z) : Z :=
  match o with
  | Some (Num z) => if z =? 0 then d else z
  | _ => d
  end.

(** [x < y] and [x > y]: any comparison with [NaN] is false. *)
Definition num_lt (x : Number) (y : Z) : bool :=
  match x with Num z => z <? y | NaN => false end.

Definition num_gt (x : Number) (y : Z) : bool :=
  match x with Num z => z >? y | NaN => false end.

(** [l.includes(x)]: SameValueZero never relates an integer to [NaN]. *)
Definition num_includes (l : list Z) (x : Number) : bool :=
  match x with Num z => existsb (Z.eqb z) l | NaN => false end.

(** [parseInt(s, 10)]: leading white space is skipped, then an optional
    sign, then the longest run of decimal digits; no digit gives [NaN]. *)

Fixpoint trim_start_from (skip : nat) (s : string) : string :=
  match s with
  | EmptyString => EmptyString
  | String c r =>
      match skip with
      | S k => trim_start_from k r
      | O =>
          match ws_len s with
          | O => s
          | S k => trim_start_from k r
          end
      end
  end.

Fixpoint digits_value (acc : option Z) (s : string) : option Z :=
  match s with
  | EmptyString => acc
  | String c r =>
      if is_digit c then
        digits_value
          (Some (10 * match acc with Some a => a | None => 0 end
                 + (code c - 48))) r
      else acc
  end.

Definition parseInt (s : string) : Number :=
  let t := trim_start_from 0 s in
  let '(sign, body) :=
    match t with
    | String c r =>
        if code c =? 45 then (-1, r)
        else if code c =? 43 then (1, r)
        else (1, t)
    | EmptyString => (1, t)
    end in
  match digits_value None body with
  | Some v => Num (sign * v)
  | None => NaN
  end.

(** [n.toString()] of an integer (below 10^21, where JavaScript still
    prints every digit). *)

Fixpoint decimal_rev (fuel : nat) (n : Z) : list Z :=
  match fuel with
  | O => []
  | S f => if n <? 10 then [n] else (n mod 10) :: decimal_rev f (n / 10)
  end.

Definition digit_char (d : Z) : ascii := byte (48 + d).

Definition string_of_digits (l : list Z) : string :=
  fold_right (fun d s => String (digit_char d) s) EmptyString l.

Definition decimal (n : Z) : string :=
  string_of_digits (rev (decimal_rev (S (Z.to_nat (Z.log2 n))) n)).

Definition toString (n : Z) : string :=
  if n <? 0 then String "-" (decimal (- n)) else decimal n.

(** [s.padStart(width, '0')] *)
Definition padStart0 (width : Z) (s : string) : string :=
  string_of_digits (repeat 0 (Z.to_nat width - String.length s)) ++ s.

(** ** [includes], [split] and [substring(1)] *)

Definition includes (sep : ascii) (s : string) : bool :=
  existsb_str (Ascii.eqb sep) s.

(** [s.split(sep)]: the pieces between the separators, [cur] being the
    piece under way (reversed). *)
Fixpoint split_from (sep : ascii) (cur : string) (s : string) : list string :=
  match s with
  | EmptyString => [cur]
  | String c r =>
      if Ascii.eqb c sep then cur :: split_from sep EmptyString r
      else split_from sep (cur ++ String c EmptyString) r
  end.

(** [s.split(sep, limit)]: the first [limit] pieces of [s.split(sep)]; what
    follows them is dropped. *)
Definition split (sep : ascii) (limit : nat) (s : string) : list string :=
  firstn limit (split_from sep EmptyString s).

Definition substring1 (s : string) : string :=
  match s with
  | EmptyString => EmptyString
  | String _ r => r
  end.

(** ** URI component coding *)

Definition hex_digit (d : Z) : ascii :=
  if d <? 10 then byte (48 + d) else byte (55 + d).

Definition hex_value (c : ascii) : option Z :=
  if is_digit c then Some (code c - 48)
  else if between 65 70 c then Some (code c - 55)
  else if between 97 102 c then Some (code c - 87)
  else None.

Definition percent (c : ascii) : string :=
  String "%" (String (hex_digit (code c / 16))
             (String (hex_digit (code c mod 16)) EmptyString)).

Fixpoint percent_encode (keep : ascii -> bool) (s : string) : string :=
  match s with
  | EmptyString => EmptyString
  | String c r =>
      if keep c then String c (percent_encode keep r)
      else percent c ++ percent_encode keep r
  end.

(** The characters [encodeURIComponent] leaves alone: letters, digits and
    [- _ . ! ~ * ' ( )]. *)
Definition uri_unreserved (c : ascii) : bool :=
  is_alnum c || existsb (Z.eqb (code c)) [45; 95; 46; 33; 126; 42; 39; 40; 41].

(** [encodeURIComponent(s)]: every other byte of the UTF-8 form becomes
    [%XX].  (It throws on unpaired surrogates only, which the representation
    leaves out.) *)
Definition encodeURIComponent (s : string) : string :=
  percent_encode uri_unreserved s.

(** A URI component in pieces: a character standing for itself, or the
    byte of an escape [%XX]. *)
Inductive Piece : Type :=
| Raw (c : ascii)
| Esc (b : Z).

(** [None] when [%] is not followed by two hexadecimal digits. *)
Fixpoint pieces_from (skip : nat) (s : string) : option (list Piece) :=
  match s with
  | EmptyString => Some []
  | String c r =>
      match skip with
      | S k => pieces_from k r
      | O =>
          if code c =? 37 then
            match r with
            | String h (String l _) =>
                match hex_value h, hex_value l, pieces_from 2 r with
                | Some x, Some y, Some ps => Some (Esc (16 * x + y) :: ps)
                | _, _, _ => None
                end
            | _ => None
            end
          else option_map (cons (Raw c)) (pieces_from 0 r)
      end
  end.

(** The bounds of the continuation byte that may follow lead byte [b], and
    the number of continuation bytes; [None] when [b] leads no UTF-8
    sequence. *)
Definition utf8_lead (b : Z) : option (nat * Z * Z) :=
  if (194 <=? b) && (b <=? 223) then Some (1%nat, 128, 191)
  else if (224 <=? b) && (b <=? 239) then
    Some (2%nat, if b =? 224 then 160 else 128, if b =? 237 then 159 else 191)
  else if (240 <=? b) && (b <=? 244) then
    Some (3%nat, if b =? 240 then 144 else 128, if b =? 244 then 143 else 191)
  else None.

(** The escaped bytes must spell whole UTF-8 sequences; [need] continuation
    bytes within [lo..hi] are awaited. *)
Fixpoint decode_pieces (need : nat) (lo hi : Z) (ps : list Piece)
  : option string :=
  match ps with
  | [] => match need with O => Some EmptyString | S _ => None end
  | Raw c :: r =>
      match need with
      | O => option_map (String c) (decode_pieces 0 128 191 r)
      | S _ => None
      end
  | Esc b :: r =>
      match need with
      | O =>
          if b <? 128 then option_map (String (byte b)) (decode_pieces 0 128 191 r)
          else match utf8_lead b with
               | Some (n, lo', hi') =>
                   option_map (String (byte b)) (decode_pieces n lo' hi' r)
               | None => None
               end
      | S k =>
          if (lo <=? b) && (b <=? hi)
          then option_map (String (byte b)) (decode_pieces k 128 191 r)
          else None
      end
  end.

(** A Rocq string that stands for a JavaScript string: its bytes spell
    whole UTF-8 sequences ([need] continuation bytes within [lo..hi] being
    awaited). *)
Fixpoint utf8_from (need : nat) (lo hi : Z) (s : string) : bool :=
  match s with
  | EmptyString => match need with O => true | S _ => false end
  | String c r =>
      let b := code c in
      match need with
      | O =>
          if b <? 128 then utf8_from 0 128 191 r
          else match utf8_lead b with
               | Some (n, lo', hi') => utf8_from n lo' hi' r
               | None => false
               end
      | S k => (lo <=? b) && (b <=? hi) && utf8_from k 128 191 r
      end
  end.

Definition well_formed (s : string) : bool := utf8_from 0 128 191 s.

(** [decodeURIComponent(s)] *)
Definition decodeURIComponent (s : string) : Result string :=
  match pieces_from 0 s with
  | Some ps =>
      match decode_pieces 0 128 191 ps with
      | Some t => Returned t
      | None => Thrown (JsError "URI malformed")
      end
  | None => Thrown (JsError "URI malformed")
  end.

(** ** More of [String.prototype] and of the numbers, for the screens *)

(** Whether [s] is white space throughout; [skip] counts the bytes of a
    white-space character still to be passed. *)
Fixpoint all_ws_from (skip : nat) (s : string) : bool :=
  match s with
  | EmptyString => match skip with O => true | S _ => false end
  | String c r =>
      match skip with
      | S k => all_ws_from k r
      | O =>
          match ws_len s with
          | O => false
          | S k => all_ws_from k r
          end
      end
  end.

Fixpoint trim_end (s : string) : string :=
  match s with
  | EmptyString => EmptyString
  | String c r => if all_ws_from 0 s then EmptyString else String c (trim_end r)
  end.

(** [s.trim()]: the white space of [\s] is dropped at both ends. *)
Definition trim (s : string) : string := trim_end (trim_start_from 0 s).

Fixpoint hex_run_value (acc : option Z) (s : string) : option Z :=
  match s with
  | EmptyString => acc
  | String c r =>
      match hex_value c with
      | Some d =>
          hex_run_value
            (Some (16 * match acc with Some a => a | None => 0 end + d)) r
      | None => acc
      end
  end.

(** [parseInt(s)] with no radix: as [parseInt(s, 10)], except that [0x] or
    [0X] after the sign selects radix 16. *)
Definition parseInt_auto (s : string) : Number :=
  let t := trim_start_from 0 s in
  let '(sign, body) :=
    match t with
    | String c r =>
        if code c =? 45 then (-1, r)
        else if code c =? 43 then (1, r)
        else (1, t)
    | EmptyString => (1, t)
    end in
  let decimal_run :=
    match digits_value None body with
    | Some v => Num (sign * v)
    | None => NaN
    end in
  match body with
  | String c0 (String x r) =>
      if (code c0 =? 48) && ((code x =? 120) || (code x =? 88)) then
        match hex_run_value None r with
        | Some v => Num (sign * v)
        | None => NaN
        end
      else decimal_run
  | _ => decimal_run
  end.

(** [a % b] with an integer [a]: the remainder has the sign of [a]; it is
    [NaN] when [b] is [0] or [NaN]. *)
Definition num_rem (a : Z) (b : Number) : Number :=
  match b with
  | Num z => if z =? 0 then NaN else Num (Z.rem a z)
  | NaN => NaN
  end.

(** [a - b] *)
Definition num_sub (a b : Number) : Number :=
  match a, b with
  | Num x, Num y => Num (x - y)
  | _, _ => NaN
  end.

(** [n || d] for a number that is there. *)
Definition num_or_else (n : Number) (d : Z) : Number :=
  match n with
  | Num z => if z =? 0 then Num d else Num z
  | NaN => Num d
  end.

(** [s.substring(from, to)] and [s.substring(from)] for [from <= to] within
    an ASCII text (one byte for each code unit). *)
Definition substring (from to : nat) (s : string) : string :=
  String.substring from (to - from) s.

Definition substring_from (from : nat) (s : string) : string :=
  String.substring from (String.length s - from) s.

(** [s.replace(/=/g, '')] *)
Fixpoint remove_pad (s : string) : string :=
  match s with
  | EmptyString => EmptyString
  | String c r => if is_pad c then remove_pad r else String c (remove_pad r)
  end.

End JS.

(* ================================================================== *)
(** * The URL interface of the host *)
(* ================================================================== *)

Module Web.
Import JS.

(** The parts of a [URL] object the service reads; [searchParams] is the
    list of name-value pairs, in order. *)
Record URL : Type := mkURL {
  protocol : string;
  hostname : string;
  pathname : string;
  searchParams : list (string * string)
}.

(** [params.get(name)]: the value of the first pair named [name], or
    [null]. *)
Fixpoint get (params : list (string * string)) (name : string)
  : option string :=
  match params with
  | [] => None
  | (n, v) :: r => if String.eqb n name then Some v else get r name
  end.

(** What the service asks of the host: the constructor [new URL(s)], which
    throws on a string it cannot parse, and the serialiser behind
    [new URLSearchParams(record).toString()]. *)
Class WebAPI : Type := {
  URL_new : string -> Result URL;
  URLSearchParams_toString : list (string * string) -> string
}.

(** ** An instance after the WHATWG URL Standard

    The parser is written for URLs without a base.  For the special schemes
    (ftp, file, http, https, ws, wss) only the protocol is produced: their
    host rules are left out, and the service refuses every protocol but
    [otpauth:].  An IPv6 literal in brackets is kept as written, neither
    checked nor compressed. *)

Fixpoint filter_str (p : ascii -> bool) (s : string) : string :=
  match s with
  | EmptyString => EmptyString
  | String c r => if p c then String c (filter_str p r) else filter_str p r
  end.

Fixpoint strip_leading (p : ascii -> bool) (s : string) : string :=
  match s with
  | EmptyString => EmptyString
  | String c r => if p c then strip_leading p r else s
  end.

Definition is_c0_or_space (c : ascii) : bool := code c <=? 32.

Definition is_tab_or_newline (c : ascii) : bool :=
  existsb (Z.eqb (code c)) [9; 10; 13].

Definition preprocess (s : string) : string :=
  filter_str (fun c => negb (is_tab_or_newline c))
    (strip_trailing is_c0_or_space (strip_leading is_c0_or_space s)).

(** [span_until stop s]: the text before the first character satisfying
    [stop], and the rest from that character on. *)
Fixpoint span_until (stop : ascii -> bool) (s : string) : string * string :=
  match s with
  | EmptyString => (EmptyString, EmptyString)
  | String c r =>
      if stop c then (EmptyString, s)
      else let '(a, b) := span_until stop r in (String c a, b)
  end.

Definition one_of (l : list Z) (c : ascii) : bool := existsb (Z.eqb (code c)) l.

(** Scheme state: letters, digits, [+], [-] and [.] up to the colon, in
    lower case. *)
Fixpoint scheme_rest (acc : string) (s : string) : option (string * string) :=
  match s with
  | EmptyString => None
  | String c r =>
      if code c =? 58 then Some (acc, r)
      else if is_alnum c || one_of [43; 45; 46] c
      then scheme_rest (acc ++ String (lower_ascii c) EmptyString) r
      else None
  end.

Definition parse_scheme (s : string) : option (string * string) :=
  match s with
  | String c r =>
      if is_alpha c then scheme_rest (String (lower_ascii c) EmptyString) r
      else None
  | EmptyString => None
  end.

Definition is_special (scheme : string) : bool :=
  existsb (String.eqb scheme) ["ftp"; "file"; "http"; "https"; "ws"; "wss"].

(** The percent-encode sets, given by the characters they keep. *)
Definition c0_keep (c : ascii) : bool := between 32 126 c.

Definition query_keep (c : ascii) : bool :=
  c0_keep c && negb (one_of [32; 34; 35; 60; 62] c).

Definition path_keep (c : ascii) : bool :=
  query_keep c && negb (one_of [63; 94; 96; 123; 125] c).

Definition forbidden_host (c : ascii) : bool :=
  one_of [0; 9; 10; 13; 32; 35; 47; 58; 60; 62; 63; 64; 91; 92; 93; 94; 124] c.

(** Host state: the host runs up to a colon outside brackets. *)
Fixpoint host_split (inside : bool) (acc : string) (s : string)
  : string * option string :=
  match s with
  | EmptyString => (acc, None)
  | String c r =>
      if (code c =? 58) && negb inside then (acc, Some r)
      else host_split
             (if code c =? 91 then true
              else if code c =? 93 then false else inside)
             (acc ++ String c EmptyString) r
  end.

Fixpoint last_char (s : string) : option ascii :=
  match s with
  | EmptyString => None
  | String c EmptyString => Some c
  | String _ r => last_char r
  end.

(** The host parser for a scheme that is not special (an opaque host). *)
Definition parse_host (h : string) : option string :=
  match h with
  | String c _ =>
      if code c =? 91 then
        match last_char h with
        | Some l => if code l =? 93 then Some h else None
        | None => None
        end
      else if existsb_str forbidden_host h then None
      else Some (percent_encode c0_keep h)
  | EmptyString => Some EmptyString
  end.

(** Port state: decimal digits only, at most 65535. *)
Definition port_ok (p : string) : bool :=
  forallb_str is_digit p
  && match digits_value None p with
     | Some v => v <=? 65535
     | None => true
     end.

(** Authority state: the credentials end at the last [@]. *)
Definition parse_authority (auth : string) : option string :=
  let at_seen := includes "@" auth in
  let hostport := last (split_from "@" EmptyString auth) EmptyString in
  if at_seen && negb (truthy hostport) then None
  else
    match host_split false EmptyString hostport with
    | (h, None) => parse_host h
    | (h, Some p) =>
        if negb (truthy h) then None
        else match parse_host h with
             | Some host => if port_ok p then Some host else None
             | None => None
             end
    end.

Definition is_single_dot (b : string) : bool :=
  existsb (String.eqb b) ["."; "%2e"; "%2E"].

Definition is_double_dot (b : string) : bool :=
  existsb (String.eqb b)
    [".."; ".%2e"; ".%2E"; "%2e."; "%2E."; "%2e%2e"; "%2e%2E"; "%2E%2e";
     "%2E%2E"].

(** Path state: [segs] are the texts between slashes, the last one ending
    at [?], [#] or the end of the input. *)
Fixpoint path_segments (path : list string) (segs : list string)
  : list string :=
  match segs with
  | [] => path
  | seg :: more =>
      let at_end := match more with [] => true | _ => false end in
      let b := percent_encode path_keep seg in
      let path' :=
        if is_double_dot b then
          (if at_end then (removelast path ++ [EmptyString])%list
           else removelast path)
        else if is_single_dot b then
          (if at_end then (path ++ [EmptyString])%list else path)
        else (path ++ [b])%list in
      path_segments path' more
  end.

Definition serialize_path (path : list string) : string :=
  fold_right (fun seg s => String "/" (seg ++ s)) EmptyString path.

(** ** [application/x-www-form-urlencoded] *)

Definition replacement : string :=
  String (byte 239) (String (byte 191) (String (byte 189) EmptyString)).

(** UTF-8 decode without BOM: a byte that cannot continue or start a
    sequence yields U+FFFD.  [pending] holds the bytes of the sequence under
    way. *)
Fixpoint utf8_lossy (need : nat) (lo hi : Z) (pending : string) (s : string)
  : string :=
  match s with
  | EmptyString =>
      match need with O => EmptyString | S _ => replacement end
  | String c r =>
      let b := code c in
      let start :=
        if b <? 128 then String c (utf8_lossy 0 128 191 EmptyString r)
        else match utf8_lead b with
             | Some (n, lo', hi') =>
                 utf8_lossy n lo' hi' (String c EmptyString) r
             | None => replacement ++ utf8_lossy 0 128 191 EmptyString r
             end in
      match need with
      | O => start
      | S k =>
          if (lo <=? b) && (b <=? hi) then
            match k with
            | O => pending ++ String c (utf8_lossy 0 128 191 EmptyString r)
            | S _ => utf8_lossy k 128 191 (pending ++ String c EmptyString) r
            end
          else replacement ++ start
      end
  end.

(** Percent-decode: [%XX] becomes a byte, any other [%] stays. *)
Fixpoint percent_decode_from (skip : nat) (s : string) : string :=
  match s with
  | EmptyString => EmptyString
  | String c r =>
      match skip with
      | S k => percent_decode_from k r
      | O =>
          match r with
          | String h (String l _) =>
              match hex_value h, hex_value l with
              | Some x, Some y =>
                  if code c =? 37
                  then String (byte (16 * x + y)) (percent_decode_from 2 r)
                  else String c (percent_decode_from 0 r)
              | _, _ => String c (percent_decode_from 0 r)
              end
          | _ => String c (percent_decode_from 0 r)
          end
      end
  end.

Definition plus_to_space (c : ascii) : ascii :=
  if code c =? 43 then " "%char else c.

Fixpoint map_str (f : ascii -> ascii) (s : string) : string :=
  match s with
  | EmptyString => EmptyString
  | String c r => String (f c) (map_str f r)
  end.

Definition form_decode (s : string) : string :=
  utf8_lossy 0 128 191 EmptyString
    (percent_decode_from 0 (map_str plus_to_space s)).

(** The urlencoded parser: the query is cut at [&], each non-empty piece
    at its first [=]. *)
Definition parse_pair (piece : string) : list (string * string) :=
  if truthy piece then
    let '(n, v) := span_until (fun c => code c =? 61) piece in
    [(form_decode n, form_decode (substring1 v))]
  else [].

Definition parse_form (query : string) : list (string * string) :=
  flat_map parse_pair (split_from "&" EmptyString query).

(** The urlencoded serialiser: letters, digits and [* - . _] stay, a space
    becomes [+]. *)
Definition form_keep (c : ascii) : bool :=
  is_alnum c || one_of [42; 45; 46; 95] c.

Fixpoint form_encode (s : string) : string :=
  match s with
  | EmptyString => EmptyString
  | String c r =>
      if code c =? 32 then String "+" (form_encode r)
      else if form_keep c then String c (form_encode r)
      else percent c ++ form_encode r
  end.

Fixpoint serialize_form (pairs : list (string * string)) : string :=
  match pairs with
  | [] => EmptyString
  | (n, v) :: r =>
      let item := form_encode n ++ String "=" (form_encode v) in
      match r with
      | [] => item
      | _ => item ++ String "&" (serialize_form r)
      end
  end.

(** ** The parser *)

Definition is_path_end (c : ascii) : bool := one_of [63; 35] c.
Definition is_authority_end (c : ascii) : bool := one_of [47; 63; 35] c.

(** Query state, entered at a [?]; a fragment is dropped. *)
Definition parse_query (tail : string) : list (string * string) :=
  match tail with
  | String c r =>
      if code c =? 63
      then parse_form
             (percent_encode query_keep
                (fst (span_until (fun c => code c =? 35) r)))
      else []
  | EmptyString => []
  end.

(** Path state on the text that follows the first slash of the path. *)
Definition parse_path (s : string) : string * list (string * string) :=
  let '(text, tail) := span_until is_path_end s in
  (serialize_path (path_segments [] (split_from "/" EmptyString text)),
   parse_query tail).

Definition parse_url (input : string) : Result URL :=
  let failure := Thrown (JsError "Invalid URL") in
  match parse_scheme (preprocess input) with
  | None => failure
  | Some (scheme, rest) =>
      let proto := scheme ++ ":" in
      if is_special scheme then Returned (mkURL proto "" "" [])
      else
        match rest with
        | String s1 (String s2 after) =>
            if (code s1 =? 47) && (code s2 =? 47) then
              (* authority state *)
              let '(auth, rest') := span_until is_authority_end after in
              match parse_authority auth with
              | None => failure
              | Some host =>
                  (* path start state *)
                  match rest' with
                  | String c r =>
                      if code c =? 47 then
                        let '(path, params) := parse_path r in
                        Returned (mkURL proto host path params)
                      else Returned (mkURL proto host "" (parse_query rest'))
                  | EmptyString => Returned (mkURL proto host "" [])
                  end
              end
            else if code s1 =? 47 then
              let '(path, params) := parse_path (String s2 after) in
              Returned (mkURL proto "" path params)
            else
              (* opaque path state *)
              let '(text, tail) := span_until is_path_end rest in
              Returned (mkURL proto "" (percent_encode c0_keep text)
                          (parse_query tail))
        | String s1 EmptyString =>
            if code s1 =? 47 then
              let '(path, params) := parse_path EmptyString in
              Returned (mkURL proto "" path params)
            else
              let '(text, tail) := span_until is_path_end rest in
              Returned (mkURL proto "" (percent_encode c0_keep text)
                          (parse_query tail))
        | EmptyString => Returned (mkURL proto "" "" [])
        end
  end.

#[export] Instance whatwg : WebAPI := {
  URL_new := parse_url;
  URLSearchParams_toString := serialize_form
}.

End Web.

(* ================================================================== *)
(** * The [totp] object of @otplib/preset-browser: its interface *)
(* ================================================================== *)

Module Otplib.
Import JS.

(** [HashAlgorithms]: the values ['sha1'], ['sha256'], ['sha512']. *)
Inductive HashAlgorithm : Type := sha1 | sha256 | sha512.

(** The options object the service assigns to [totp.options]. *)
Record Options : Type := mkOptions {
  digits : Z;
  step : Z;
  algorithm : HashAlgorithm;
  window : Z
}.

(** The state a call can read or change: the clock behind [Date.now()]
    (milliseconds since the epoch) and the [options] property of the one
    [totp] object. *)
Record World : Type := mkWorld {
  Date_now : Z;
  totp_options : Options
}.

(** A computation runs in a world, returns or throws, and leaves a world. *)
Definition M (A : Type) : Type := World -> Result A * World.

Definition ret {A} (a : A) : M A := fun w => (Returned a, w).

Definition throw {A} (e : Exception) : M A := fun w => (Thrown e, w).

Definition bind {A B} (m : M A) (k : A -> M B) : M B :=
  fun w =>
    match m w with
    | (Returned a, w') => k a w'
    | (Thrown e, w') => (Thrown e, w')
    end.

Definition lift {A} (r : Result A) : M A := fun w => (r, w).

(** [try { body } catch (error) { handler }] *)
Definition try_catch {A} (body : M A) (handler : Exception -> M A) : M A :=
  fun w =>
    match body w with
    | (Returned a, w') => (Returned a, w')
    | (Thrown e, w') => handler e w'
    end.

(** [totp.options = o] *)
Definition set_options (o : Options) : M unit :=
  fun w => (Returned tt, mkWorld (Date_now w) o).

(** [Date.now()] *)
Definition now : M Z := fun w => (Returned (Date_now w), w).

(** [Date.now = f]: from here on the clock reads what [f] returns.  No time
    passes within a call, so a function kept aside ([const originalNow =
    Date.now]) is known by its reading. *)
Definition set_Date_now (ms : Z) : M unit :=
  fun w => (Returned tt, mkWorld ms (totp_options w)).

(** [try { body } finally { final }] *)
Definition try_finally {A} (body : M A) (final : M unit) : M A :=
  fun w =>
    match body w with
    | (r, w') =>
        match final w' with
        | (Returned _, w'') => (r, w'')
        | (Thrown e, w'') => (Thrown e, w'')
        end
    end.

(** The two methods the service calls, as declared for the module
    @otplib/preset-browser. *)
Class Totp : Type := {
  generate : string -> M string;
  check : string -> string -> M bool
}.

End Otplib.

Declare Scope js_scope.
Delimit Scope js_scope with js.
Notation "x <- m ;; k" := (Otplib.bind m (fun x => k))
  (at level 61, m at next level, right associativity) : js_scope.
Notation "m ;;; k" := (Otplib.bind m (fun _ => k))
  (at level 61, right associativity) : js_scope.
Notation "'let?' x := r 'in' k" := (JS.bindR r (fun x => k))
  (at level 61, x name, r at next level, right associativity) : js_scope.

(* ================================================================== *)
(** * The service: [TOTPService.ts] *)
(* ================================================================== *)

Module TOTPOptions.
(** [interface TOTPOptions]: every field may be missing.  [algorithm] is
    kept a string: [mapAlgorithm] has a default branch for any other
    value. *)
Record t : Type := mk {
  algorithm : option string;
  digits : option JS.Number;
  period : option JS.Number;
  window : option JS.Number
}.
End TOTPOptions.

Module QRCodeResult.
(** [interface QRCodeResult]; [parseOTPAuthURL] always sets [algorithm],
    [digits] and [period]. *)
Record t : Type := mk {
  type : string;
  label : string;
  secret : string;
  issuer : option string;
  algorithm : string;
  digits : JS.Number;
  period : JS.Number;
  counter : option JS.Number
}.

Definition set_counter (r : t) (c : JS.Number) : t :=
  mk (type r) (label r) (secret r) (issuer r) (algorithm r) (digits r)
     (period r) (Some c).

Definition set_digits (r : t) (d : JS.Number) : t :=
  mk (type r) (label r) (secret r) (issuer r) (algorithm r) d (period r)
     (counter r).

Definition set_algorithm (r : t) (a : string) : t :=
  mk (type r) (label r) (secret r) (issuer r) a (digits r) (period r)
     (counter r).

Definition set_period (r : t) (p : JS.Number) : t :=
  mk (type r) (label r) (secret r) (issuer r) (algorithm r) (digits r) p
     (counter r).
End QRCodeResult.

(** The module thirty-two, as [thirty-two.d.ts] declares it; the text is
    [encode(buffer).toString()]. *)
Module ThirtyTwo.
Class Codec : Type := {
  encode : list Z -> string
}.
End ThirtyTwo.

Module TOTPRange.
(** An item of the array [generateTOTPRange] returns; a [Date] is held by
    its time value in milliseconds. *)
Record t : Type := mk {
  code : string;
  timeSlot : Z;
  validFrom : Z;
  validTo : Z
}.
End TOTPRange.

Module TOTPService.
Import JS Web Otplib.
Local Open Scope js_scope.

(** [options?.field] *)
Definition field {A} (f : TOTPOptions.t -> option A)
  (options : option TOTPOptions.t) : option A :=
  match options with
  | Some o => f o
  | None => None
  end.

(** [s || d] for a string that may be [null] or [undefined]. *)
Definition str_or (o : option string) (d : string) : string :=
  match o with
  | Some s => or_else s d
  | None => d
  end.

(** [validateAndCleanSecret] *)
Definition validateAndCleanSecret (secret : string) : Result string :=
  if negb (truthy secret) then
    Thrown (JsError "Secret must be a non-empty string")
  else
    (* Remove spaces and convert to uppercase *)
    let cleaned := toUpperCase (removeWhitespace secret) in
    (* Validate Base32 format *)
    if negb (test_base32 cleaned) then
      Thrown (JsError "Secret must be valid Base32 encoded string")
    else
      (* Remove padding if present and validate length *)
      let withoutPadding := strip_padding cleaned in
      if len withoutPadding <? 8 then
        Thrown (JsError
          "Secret is too short (minimum 8 characters without padding)")
      else Returned cleaned.

(** [validateSecret] *)
Definition validateSecret (secret : string) : bool :=
  match validateAndCleanSecret secret with
  | Returned cleaned => len cleaned >? 0
  | Thrown _ => false
  end.

(** [mapAlgorithm] *)
Definition mapAlgorithm (algorithm : option string) : HashAlgorithm :=
  match algorithm with
  | Some a =>
      if String.eqb a "SHA1" then sha1
      else if String.eqb a "SHA256" then sha256
      else if String.eqb a "SHA512" then sha512
      else sha1
  | None => sha1
  end.

(** The object built under the comment "Configure TOTP options", the same
    in [generateTOTP] and [validateTOTP]. *)
Definition totpOptions (options : option TOTPOptions.t) : Options :=
  let algorithm := mapAlgorithm (field TOTPOptions.algorithm options) in
  {| digits := num_or (field TOTPOptions.digits options) 6;
     step := num_or (field TOTPOptions.period options) 30;
     algorithm := algorithm;
     window := num_or (field TOTPOptions.window options) 1 |}.

Section WithLibrary.
Context {lib : Totp}.

(** [generateTOTP]; [console.error] leaves no trace in the model. *)
Definition generateTOTP (secret : string) (options : option TOTPOptions.t)
  : M string :=
  try_catch
    (cleanSecret <- lift (validateAndCleanSecret secret) ;;
     set_options (totpOptions options) ;;;
     code <- generate cleanSecret ;;
     ret code)
    (fun error =>
       throw (JsError ("Failed to generate TOTP: " ++ message_of error))).

(** [validateTOTP] *)
Definition validateTOTP (code : string) (secret : string)
  (options : option TOTPOptions.t) : M bool :=
  try_catch
    (cleanSecret <- lift (validateAndCleanSecret secret) ;;
     set_options (totpOptions options) ;;;
     check code cleanSecret)
    (fun error => ret false).

End WithLibrary.

(** [getCurrentTimeSlot]: the quotient [Date.now() / 1000 / period] is a
    fraction, rounded down once by [Math.floor] ([period] is not [0]). *)
Definition getCurrentTimeSlot (period : Z) : M Z :=
  fun w => (Returned (Date_now w / (1000 * period)), w).

(** [getTimeRemaining] ([period] is not [0]) *)
Definition getTimeRemaining (period : Z) : M Z :=
  fun w =>
    let now := Date_now w / 1000 in
    let currentSlot := now / period in
    let nextSlotStart := (currentSlot + 1) * period in
    (Returned (nextSlotStart - now), w).

Section WithLibraryAndClock.
Context {lib : Totp}.

(** The values [i] takes in the loop
    [for (let i = -Math.floor(periods / 2); i <= Math.floor(periods / 2);
    i++)]. *)
Definition range_indices (periods : Z) : list Z :=
  let first := - (periods / 2) in
  let last := periods / 2 in
  map (fun k => first + Z.of_nat k) (seq 0 (Z.to_nat (last - first + 1))).

(** The body of the loop of [generateTOTPRange]. *)
Definition generateTOTPRange_body (secret : string)
  (options : option TOTPOptions.t) (period currentTimeSlot : Z)
  (results : list TOTPRange.t) (i : Z) : M (list TOTPRange.t) :=
  let timeSlot := currentTimeSlot + i in
  let timestamp := timeSlot * period in
  (* Temporarily set time for generation *)
  originalNow <- now ;;
  set_Date_now (timestamp * 1000) ;;;
  try_finally
    (code <- generateTOTP secret options ;;
     ret (results ++ [TOTPRange.mk code timeSlot (timestamp * 1000)
                        ((timestamp + period) * 1000)])%list)
    (set_Date_now originalNow).

Fixpoint generateTOTPRange_loop (secret : string)
  (options : option TOTPOptions.t) (period currentTimeSlot : Z)
  (indices : list Z) (results : list TOTPRange.t) : M (list TOTPRange.t) :=
  match indices with
  | [] => ret results
  | i :: rest =>
      results <- generateTOTPRange_body secret options period currentTimeSlot
                   results i ;;
      generateTOTPRange_loop secret options period currentTimeSlot rest
        results
  end.

(** [generateTOTPRange] *)
Definition generateTOTPRange (secret : string) (periods : Z)
  (options : option TOTPOptions.t) : M (list TOTPRange.t) :=
  let period := num_or (field TOTPOptions.period options) 30 in
  currentTimeSlot <- getCurrentTimeSlot period ;;
  generateTOTPRange_loop secret options period currentTimeSlot
    (range_indices periods) [].

End WithLibraryAndClock.

Section WithCodec.
Context {codec : ThirtyTwo.Codec}.

(** [generateTestSecret]; [randomBytes] is what [Crypto.getRandomBytes(20)]
    returned. *)
Definition generateTestSecret (randomBytes : list Z) : string :=
  remove_pad (ThirtyTwo.encode randomBytes).

End WithCodec.

(** The statements of [parseOTPAuthURL] under the comments "Parse the
    label" and "Handle issuer:account format in label": from the decoded
    label and [params.get('issuer') || ''] to the locals [issuer] and
    [accountName].  [nth i parts ""] is [parts[i]]; both items exist once
    [includes(':')] held. *)
Definition labelParts (pathLabel : string) (issuer : string)
  : string * string :=
  let accountName := pathLabel in
  if includes ":" pathLabel && negb (truthy issuer) then
    let parts := split ":" 2 pathLabel in
    (nth 0 parts "", nth 1 parts "")
  else if includes ":" pathLabel && truthy issuer then
    (* If issuer is in params and label has colon, use the part after colon *)
    let parts := split ":" 2 pathLabel in
    (issuer, or_else (nth 1 parts "") (nth 0 parts ""))
  else (issuer, accountName).

(** The statements under "Validate parsed values". *)
Definition validateParsed (result : QRCodeResult.t) : QRCodeResult.t :=
  let result :=
    if negb (num_includes [6; 7; 8] (QRCodeResult.digits result))
    then QRCodeResult.set_digits result (Num 6) else result in
  let result :=
    if negb (existsb (String.eqb (QRCodeResult.algorithm result))
               ["SHA1"; "SHA256"; "SHA512"])
    then QRCodeResult.set_algorithm result "SHA1" else result in
  let result :=
    if num_lt (QRCodeResult.period result) 1
       || num_gt (QRCodeResult.period result) 300
    then QRCodeResult.set_period result (Num 30) else result in
  result.

Section WithHost.
Context {web : WebAPI}.

(** The body of the [try] block of [parseOTPAuthURL]. *)
Definition parseOTPAuthURL_body (url : string) : Result QRCodeResult.t :=
  let? urlObj := URL_new url in
  if negb (String.eqb (protocol urlObj) "otpauth:") then
    Thrown (JsError "Invalid OTPAuth URL protocol")
  else
    let type := toLowerCase (hostname urlObj) in
    if negb (String.eqb type "totp") && negb (String.eqb type "hotp") then
      Thrown (JsError "Unsupported OTP type. Only TOTP and HOTP are supported")
    else
      let params := searchParams urlObj in
      let secret := str_or (get params "secret") "" in
      if negb (truthy secret) then
        Thrown (JsError "Secret parameter is required")
      else if negb (validateSecret secret) then
        Thrown (JsError "Invalid secret format")
      else
        (* Parse the label (path without leading slash) *)
        let? pathLabel := decodeURIComponent (substring1 (pathname urlObj)) in
        let '(issuer, accountName) :=
          labelParts pathLabel (str_or (get params "issuer") "") in
        let result :=
          QRCodeResult.mk type pathLabel secret
            (if truthy issuer then Some issuer else None)
            (str_or (option_map toUpperCase (get params "algorithm")) "SHA1")
            (parseInt (str_or (get params "digits") "6"))
            (parseInt (str_or (get params "period") "30"))
            None in
        (* Add counter for HOTP *)
        let result :=
          if String.eqb type "hotp" then
            let counter := str_or (get params "counter") "" in
            if truthy counter
            then QRCodeResult.set_counter result (parseInt counter)
            else result
          else result in
        Returned (validateParsed result).

(** [parseOTPAuthURL] *)
Definition parseOTPAuthURL (url : string) : Result QRCodeResult.t :=
  match parseOTPAuthURL_body url with
  | Returned result => Returned result
  | Thrown error =>
      Thrown (JsError ("Invalid OTPAuth URL: " ++ message_of error))
  end.

(** [createOTPAuthURL] *)
Definition createOTPAuthURL (issuer accountName secret : string)
  (options : option TOTPOptions.t) : Result string :=
  let? cleanSecret := validateAndCleanSecret secret in
  let label :=
    if truthy issuer then issuer ++ ":" ++ accountName else accountName in
  let params :=
    [ ("secret", cleanSecret);
      ("issuer", issuer);
      ("algorithm", str_or (field TOTPOptions.algorithm options) "SHA1");
      ("digits", toString (num_or (field TOTPOptions.digits options) 6));
      ("period", toString (num_or (field TOTPOptions.period options) 30)) ] in
  Returned ("otpauth://totp/" ++ encodeURIComponent label ++ "?"
            ++ URLSearchParams_toString params).

End WithHost.

End TOTPService.

(* ================================================================== *)
(** * The screens that call the service *)
(* ================================================================== *)

Module LocalTOTPAccount.
Import JS.

Inductive SyncStatus : Type := synced | pending | error.

(** [Omit<LocalTOTPAccount, 'id' | 'lastModified' | 'syncStatus'>]: what a
    form or a scan hands over. *)
Record Data : Type := mkData {
  serviceName : string;
  accountName : string;
  secret : string;
  algorithm : string;
  digits : Number;
  period : Number;
  iconUrl : option string
}.

(** [interface LocalTOTPAccount]: [{ ...accountData, id, lastModified,
    syncStatus }]. *)
Record t : Type := mk {
  data : Data;
  id : string;
  lastModified : Z;
  syncStatus : SyncStatus
}.

End LocalTOTPAccount.

(** [TOTPItem.tsx] *)
Module TOTPItem.
Import JS Otplib TOTPService.
Local Open Scope js_scope.

(** The state [updateTOTP] sets: [totpCode] and [timeRemaining]. *)
Record State : Type := mkState {
  totpCode : string;
  timeRemaining : Number
}.

Section WithLibrary.
Context {lib : Totp}.

(** [updateTOTP] *)
Definition updateTOTP (account : LocalTOTPAccount.t) : M State :=
  let account := LocalTOTPAccount.data account in
  try_catch
    (code <- generateTOTP (LocalTOTPAccount.secret account)
               (Some (TOTPOptions.mk
                        (Some (LocalTOTPAccount.algorithm account))
                        (Some (LocalTOTPAccount.digits account))
                        (Some (LocalTOTPAccount.period account))
                        None)) ;;
     (* Calculate time remaining in current period *)
     ms <- now ;;
     let now := ms / 1000 in
     let timeInPeriod := num_rem now (LocalTOTPAccount.period account) in
     let remaining := num_sub (LocalTOTPAccount.period account) timeInPeriod in
     ret (mkState code remaining))
    (fun error => ret (mkState "ERROR" (Num 0))).

End WithLibrary.

(** [formatTOTPCode]; a code is ASCII text, one byte for each code unit. *)
Definition formatTOTPCode (code : string) : string :=
  if len code =? 6 then substring 0 3 code ++ " " ++ substring_from 3 code
  else code.

End TOTPItem.

(** [HomeScreen.tsx] *)
Module HomeScreen.
Import JS Otplib.
Local Open Scope js_scope.

(** The state of the screen that the handlers below read or set. *)
Record State : Type := mkState {
  accounts : list LocalTOTPAccount.t;
  showAddForm : bool;
  showQRScanner : bool;
  editingAccount : option LocalTOTPAccount.t
}.

(** [handleAddAccount]; the alerts leave no trace in the model. *)
Definition handleAddAccount (accountData : LocalTOTPAccount.Data)
  (s : State) : M State :=
  id <- now ;;
  lastModified <- now ;;
  let newAccount :=
    LocalTOTPAccount.mk accountData (toString id) lastModified
      LocalTOTPAccount.pending in
  ret (mkState (accounts s ++ [newAccount]) false (showQRScanner s)
         (editingAccount s)).

(** [handleEditAccount] *)
Definition handleEditAccount (accountData : LocalTOTPAccount.Data)
  (s : State) : M State :=
  match editingAccount s with
  | Some editing =>
      lastModified <- now ;;
      let updatedAccount :=
        LocalTOTPAccount.mk accountData (LocalTOTPAccount.id editing)
          lastModified LocalTOTPAccount.pending in
      ret (mkState
             (map (fun account =>
                     if String.eqb (LocalTOTPAccount.id account)
                          (LocalTOTPAccount.id editing)
                     then updatedAccount else account)
                (accounts s))
             (showAddForm s) (showQRScanner s) None)
  | None => ret s
  end.

(** The [onPress] of the button 'Delete' that [handleDeleteAccount] shows. *)
Definition handleDeleteAccount_onPress (accountId : string) (s : State)
  : State :=
  mkState
    (filter (fun account =>
               negb (String.eqb (LocalTOTPAccount.id account) accountId))
       (accounts s))
    (showAddForm s) (showQRScanner s) (editingAccount s).

(** [handleQRScanSuccess]; [nth i parts ""] is [parts[i] || ...] with a
    missing item falling to the default as an empty one does. *)
Definition handleQRScanSuccess (result : QRCodeResult.t) (s : State)
  : M State :=
  let s := mkState (accounts s) (showAddForm s) false (editingAccount s) in
  let parts := split_from ":" EmptyString (QRCodeResult.label result) in
  let accountData :=
    LocalTOTPAccount.mkData
      (or_else (nth 0 parts "") "Unknown Service")
      (or_else (nth 1 parts "") (QRCodeResult.label result))
      (QRCodeResult.secret result)
      (or_else (QRCodeResult.algorithm result) "SHA1")
      (num_or_else (QRCodeResult.digits result) 6)
      (num_or_else (QRCodeResult.period result) 30)
      None in
  handleAddAccount accountData s.

End HomeScreen.

(** [QRCodeScanner.tsx] *)
Module QRCodeScanner.
Import JS Web Otplib TOTPService.
Local Open Scope js_scope.

(** What a scan event led to: nothing, the call of [onScanSuccess] (with
    what it returned), or the alert 'Invalid QR Code'. *)
Inductive Outcome (A : Type) : Type :=
| Ignored
| Delivered (a : A)
| InvalidQRCode.

Arguments Ignored {A}.
Arguments Delivered {A} a.
Arguments InvalidQRCode {A}.

Section WithHost.
Context {web : WebAPI}.

(** [handleBarCodeScanned]: the new value of [isScanning] and the outcome.
    The parsed result is an object, so the [else] of [if (result)] is never
    taken. *)
Definition handleBarCodeScanned {A} (onScanSuccess : QRCodeResult.t -> M A)
  (isScanning : bool) (data : string) : M (bool * Outcome A) :=
  if negb isScanning then ret (isScanning, Ignored)
  else
    let isScanning := false in
    try_catch
      (* Parse OTPAuth URL *)
      (result <- lift (parseOTPAuthURL data) ;;
       a <- onScanSuccess result ;;
       ret (isScanning, Delivered a))
      (fun error => ret (isScanning, InvalidQRCode)).

(** The scanner as [HomeScreen] mounts it:
    [<QRCodeScanner onScanSuccess={handleQRScanSuccess} />]. *)
Definition scan_in_HomeScreen (isScanning : bool) (data : string)
  (s : HomeScreen.State) : M (bool * Outcome HomeScreen.State) :=
  handleBarCodeScanned (fun result => HomeScreen.handleQRScanSuccess result s)
    isScanning data.

End WithHost.

End QRCodeScanner.

(** [AddAccountForm.tsx] *)
Module AddAccountForm.
Import JS Otplib TOTPService.
Local Open Scope js_scope.

(** The fields of the form; [period] is the text typed. *)
Record Form : Type := mkForm {
  serviceName : string;
  accountName : string;
  secret : string;
  algorithm : string;
  digits : Number;
  period : string
}.

(** [validateForm]: [None] for [true]; [Some message] for [false], with the
    message of the alert shown. *)
Definition validateForm (f : Form) : option string :=
  if negb (truthy (trim (serviceName f))) then
    Some "Service name is required"
  else if negb (truthy (trim (accountName f))) then
    Some "Account name is required"
  else if negb (truthy (trim (secret f))) then
    Some "Secret key is required"
  else if negb (validateSecret (trim (secret f))) then
    Some "Invalid secret key. Please check the key format."
  else
    let periodNum := parseInt_auto (period f) in
    if match periodNum with NaN => true | Num _ => false end
       || num_lt periodNum 1 || num_gt periodNum 300
    then Some "Period must be between 1 and 300 seconds"
    else None.

(** What [handleSave] led to: an alert, or the call of [onSave] (with what
    it returned). *)
Inductive Outcome (A : Type) : Type :=
| Alerted (message : string)
| Saved (a : A).

Arguments Alerted {A} message.
Arguments Saved {A} a.

Section WithLibrary.
Context {lib : Totp}.

(** [handleSave]; [isValidatingSecret] only drives a spinner. *)
Definition handleSave {A} (onSave : LocalTOTPAccount.Data -> M A) (f : Form)
  : M (Outcome A) :=
  match validateForm f with
  | Some message => ret (Alerted message)
  | None =>
      try_catch
        (* Test TOTP generation to ensure the secret works *)
        (testCode <- generateTOTP (trim (secret f))
                       (Some (TOTPOptions.mk (Some (algorithm f))
                                (Some (digits f))
                                (Some (parseInt_auto (period f))) None)) ;;
         if negb (truthy testCode) then
           throw (JsError "Failed to generate TOTP code")
         else
           let accountData :=
             LocalTOTPAccount.mkData (trim (serviceName f))
               (trim (accountName f)) (trim (secret f)) (algorithm f)
               (digits f) (parseInt_auto (period f)) None in
           a <- onSave accountData ;;
           ret (Saved a))
        (fun error =>
           ret (Alerted
                  "Failed to validate TOTP settings. Please check your inputs."))
  end.

End WithLibrary.

End AddAccountForm.

(* ================================================================== *)
(** * Hash functions and HMAC *)
(* ================================================================== *)

Module Hash.

(** Bytes and words are integers; a [w]-bit word wraps modulo [2^w]. *)

Definition wrap (w x : Z) : Z := x mod 2 ^ w.

Definition rotl (w n x : Z) : Z :=
  Z.lor (wrap w (Z.shiftl x n)) (Z.shiftr x (w - n)).

Definition rotr (w n x : Z) : Z :=
  Z.lor (Z.shiftr x n) (wrap w (Z.shiftl x (w - n))).

Definition complement (w x : Z) : Z := Z.lxor x (2 ^ w - 1).

(** [x] as [n] bytes, most significant first. *)
Definition be_bytes (n : nat) (x : Z) : list Z :=
  map (fun i => Z.shiftr x (8 * Z.of_nat i) mod 256) (rev (seq 0 n)).

Definition word_of_bytes (l : list Z) : Z :=
  fold_left (fun acc b => acc * 256 + b) l 0.

Fixpoint chunks (fuel size : nat) (l : list Z) : list (list Z) :=
  match fuel with
  | O => []
  | S f =>
      match l with
      | [] => []
      | _ => firstn size l :: chunks f size (skipn size l)
      end
  end.

(** The padding of FIPS 180-4: a 1 bit, zeros, and the bit length in
    [lenbytes] bytes, up to a multiple of [block] bytes. *)
Definition pad (block lenbytes : nat) (msg : list Z) : list Z :=
  let n := List.length msg in
  let zeros := ((block - (n + 1 + lenbytes) mod block) mod block)%nat in
  (msg ++ [128] ++ repeat 0 zeros ++ be_bytes lenbytes (8 * Z.of_nat n))%list.

(** The message schedule: [n] more words, each computed from the words so
    far (latest first). *)
Fixpoint extend (n : nat) (next : list Z -> Z) (latest_first : list Z)
  : list Z :=
  match n with
  | O => latest_first
  | S k => extend k next (next latest_first :: latest_first)
  end.

Definition schedule (wbytes : nat) (more : nat) (next : list Z -> Z)
  (block : list Z) : list Z :=
  rev (extend more next
         (rev (map word_of_bytes (chunks 16 wbytes block)))).

Definition word (l : list Z) (i : nat) : Z := nth i l 0.

(** ** SHA-1 *)

Definition sha1_f (t : nat) (b c d : Z) : Z :=
  if (t <? 20)%nat then Z.lor (Z.land b c) (Z.land (complement 32 b) d)
  else if (t <? 40)%nat then Z.lxor (Z.lxor b c) d
  else if (t <? 60)%nat
  then Z.lor (Z.lor (Z.land b c) (Z.land b d)) (Z.land c d)
  else Z.lxor (Z.lxor b c) d.

Definition sha1_k (t : nat) : Z :=
  if (t <? 20)%nat then 1518500249
  else if (t <? 40)%nat then 1859775393
  else if (t <? 60)%nat then 2400959708
  else 3395469782.

Definition sha1_init : list Z :=
  [1732584193; 4023233417; 2562383102; 271733878; 3285377520].

Definition sha1_next (ws : list Z) : Z :=
  rotl 32 1
    (Z.lxor (Z.lxor (word ws 2) (word ws 7))
            (Z.lxor (word ws 13) (word ws 15))).

Definition sha1_round (st : list Z) (tw : nat * Z) : list Z :=
  let '(t, w) := tw in
  let a := word st 0 in
  let b := word st 1 in
  let c := word st 2 in
  let d := word st 3 in
  let e := word st 4 in
  let temp := wrap 32 (rotl 32 5 a + sha1_f t b c d + e + sha1_k t + w) in
  [temp; a; rotl 32 30 b; c; d].

Definition sha1_block (h : list Z) (block : list Z) : list Z :=
  let ws := schedule 4 64 sha1_next block in
  let st := fold_left sha1_round (combine (seq 0 80) ws) h in
  map (fun '(x, y) => wrap 32 (x + y)) (combine h st).

Definition sha1_digest (msg : list Z) : list Z :=
  let padded := pad 64 8 msg in
  flat_map (be_bytes 4)
    (fold_left sha1_block (chunks (List.length padded) 64 padded) sha1_init).

(** ** SHA-256 and SHA-512: one algorithm, two sets of parameters *)

Record Sha2 : Type := mkSha2 {
  bits : Z;             (* word size *)
  wbytes : nat;         (* bytes per word *)
  rounds : nat;
  konst : list Z;
  init : list Z;
  big0 : Z * Z * Z;     (* rotations of the upper-case Sigma 0 *)
  big1 : Z * Z * Z;
  small0 : Z * Z * Z;   (* two rotations and a shift *)
  small1 : Z * Z * Z
}.

Definition sha256_params : Sha2 :=
  mkSha2 32 4 64
  [
   1116352408; 1899447441; 3049323471; 3921009573; 961987163; 1508970993;
   2453635748; 2870763221; 3624381080; 310598401; 607225278; 1426881987;
   1925078388; 2162078206; 2614888103; 3248222580; 3835390401; 4022224774;
   264347078; 604807628; 770255983; 1249150122; 1555081692; 1996064986;
   2554220882; 2821834349; 2952996808; 3210313671; 3336571891; 3584528711;
   113926993; 338241895; 666307205; 773529912; 1294757372; 1396182291;
   1695183700; 1986661051; 2177026350; 2456956037; 2730485921; 2820302411;
   3259730800; 3345764771; 3516065817; 3600352804; 4094571909; 275423344;
   430227734; 506948616; 659060556; 883997877; 958139571; 1322822218;
   1537002063; 1747873779; 1955562222; 2024104815; 2227730452; 2361852424;
   2428436474; 2756734187; 3204031479; 3329325298
  ]
  [
   1779033703; 3144134277; 1013904242; 2773480762;
   1359893119; 2600822924; 528734635; 1541459225
  ]
  (2, 13, 22) (6, 11, 25) (7, 18, 3) (17, 19, 10).

Definition sha512_params : Sha2 :=
  mkSha2 64 8 80
  [
   4794697086780616226; 8158064640168781261; 13096744586834688815;
   16840607885511220156; 4131703408338449720; 6480981068601479193;
   10538285296894168987; 12329834152419229976; 15566598209576043074;
   1334009975649890238; 2608012711638119052; 6128411473006802146;
   8268148722764581231; 9286055187155687089; 11230858885718282805;
   13951009754708518548; 16472876342353939154; 17275323862435702243;
   1135362057144423861; 2597628984639134821; 3308224258029322869;
   5365058923640841347; 6679025012923562964; 8573033837759648693;
   10970295158949994411; 12119686244451234320; 12683024718118986047;
   13788192230050041572; 14330467153632333762; 15395433587784984357;
   489312712824947311; 1452737877330783856; 2861767655752347644;
   3322285676063803686; 5560940570517711597; 5996557281743188959;
   7280758554555802590; 8532644243296465576; 9350256976987008742;
   10552545826968843579; 11727347734174303076; 12113106623233404929;
   14000437183269869457; 14369950271660146224; 15101387698204529176;
   15463397548674623760; 17586052441742319658; 1182934255886127544;
   1847814050463011016; 2177327727835720531; 2830643537854262169;
   3796741975233480872; 4115178125766777443; 5681478168544905931;
   6601373596472566643; 7507060721942968483; 8399075790359081724;
   8693463985226723168; 9568029438360202098; 10144078919501101548;
   10430055236837252648; 11840083180663258601; 13761210420658862357;
   14299343276471374635; 14566680578165727644; 15097957966210449927;
   16922976911328602910; 17689382322260857208; 500013540394364858;
   748580250866718886; 1242879168328830382; 1977374033974150939;
   2944078676154940804; 3659926193048069267; 4368137639120453308;
   4836135668995329356; 5532061633213252278; 6448918945643986474;
   6902733635092675308; 7801388544844847127
  ]
  [
   7640891576956012808; 13503953896175478587; 4354685564936845355;
   11912009170470909681; 5840696475078001361; 11170449401992604703;
   2270897969802886507; 6620516959819538809
  ]
  (28, 34, 39) (14, 18, 41) (1, 8, 7) (19, 61, 6).

Section Sha2.
Variable P : Sha2.

Definition Sigma (r : Z * Z * Z) (x : Z) : Z :=
  let '(r1, r2, r3) := r in
  Z.lxor (Z.lxor (rotr (bits P) r1 x) (rotr (bits P) r2 x))
         (rotr (bits P) r3 x).

Definition sigma (r : Z * Z * Z) (x : Z) : Z :=
  let '(r1, r2, sh) := r in
  Z.lxor (Z.lxor (rotr (bits P) r1 x) (rotr (bits P) r2 x)) (Z.shiftr x sh).

Definition sha2_next (ws : list Z) : Z :=
  wrap (bits P)
    (sigma (small1 P) (word ws 1) + word ws 6
     + sigma (small0 P) (word ws 14) + word ws 15).

Definition sha2_round (st : list Z) (kw : Z * Z) : list Z :=
  let '(k, w) := kw in
  let a := word st 0 in
  let b := word st 1 in
  let c := word st 2 in
  let d := word st 3 in
  let e := word st 4 in
  let f := word st 5 in
  let g := word st 6 in
  let h := word st 7 in
  let ch := Z.lxor (Z.land e f) (Z.land (complement (bits P) e) g) in
  let maj := Z.lxor (Z.lxor (Z.land a b) (Z.land a c)) (Z.land b c) in
  let t1 := h + Sigma (big1 P) e + ch + k + w in
  let t2 := Sigma (big0 P) a + maj in
  [wrap (bits P) (t1 + t2); a; b; c; wrap (bits P) (d + t1); e; f; g].

Definition sha2_block (h : list Z) (block : list Z) : list Z :=
  let ws := schedule (wbytes P) (rounds P - 16) sha2_next block in
  let st := fold_left sha2_round (combine (konst P) ws) h in
  map (fun '(x, y) => wrap (bits P) (x + y)) (combine h st).

Definition sha2_digest (msg : list Z) : list Z :=
  let size := (16 * wbytes P)%nat in
  let padded := pad size (2 * wbytes P) msg in
  flat_map (be_bytes (wbytes P))
    (fold_left sha2_block (chunks (List.length padded) size padded) (init P)).

End Sha2.

(** ** HMAC (RFC 2104) *)

Definition digest (a : Otplib.HashAlgorithm) (msg : list Z) : list Z :=
  match a with
  | Otplib.sha1 => sha1_digest msg
  | Otplib.sha256 => sha2_digest sha256_params msg
  | Otplib.sha512 => sha2_digest sha512_params msg
  end.

Definition block_size (a : Otplib.HashAlgorithm) : nat :=
  match a with
  | Otplib.sha512 => 128
  | _ => 64
  end.

(** Modelled from the spec: the HMAC named in section 4.2, computed inside
    the otplib package, which the sources only declare.  The hash functions
    follow FIPS 180-4 and the keyed construction RFC 2104. *)
Definition hmac (a : Otplib.HashAlgorithm) (key msg : list Z) : list Z :=
  let b := block_size a in
  let key0 := if (b <? List.length key)%nat then digest a key else key in
  let keyb := (key0 ++ repeat 0 (b - List.length key0))%list in
  let inner := digest a (map (Z.lxor 54) keyb ++ msg)%list in
  digest a (map (Z.lxor 92) keyb ++ inner)%list.

End Hash.

(* ================================================================== *)
(** * The [totp] object: a model after the specification *)
(* ================================================================== *)

Module OtplibModel.
Import JS Otplib.
Local Open Scope js_scope.

(** ** The key

    The service hands [totp.generate] and [totp.check] the cleaned text of
    the secret; nothing in the sources turns that text into the bytes it
    encodes.  Neither does the [totp] object of the package: it takes the
    characters of the secret as the bytes of the key (decoding Base32 is
    what its [authenticator] object does, which the service configures in
    its constructor and never calls), and it repeats a key that is shorter
    than the digest of the algorithm up to that size.  This part follows the
    package itself ([totpCreateHmacKey] and [totpPadSecret] of @otplib/core);
    the sources only declare its interface. *)

Definition digest_size (a : HashAlgorithm) : nat :=
  match a with
  | sha1 => 20%nat
  | sha256 => 32%nat
  | sha512 => 64%nat
  end.

(** [totpPadSecret]: [minLength - length] copies of a key that is too
    short, cut at [minLength] bytes. *)
Definition totpPadSecret (secret : list Z) (minLength : nat) : list Z :=
  let currentLength := List.length secret in
  if (currentLength <? minLength)%nat then
    firstn minLength
      (List.concat (repeat secret (minLength - currentLength)))
  else secret.

(** [totpCreateHmacKey] with the key encoding of the [totp] object: one
    byte for each character of an ASCII secret. *)
Definition createHmacKey (algorithm : HashAlgorithm) (secret : string)
  : list Z :=
  totpPadSecret (map code (list_ascii_of_string secret))
    (digest_size algorithm).

(** Dynamic truncation (RFC 4226): four bytes at the offset given by the
    low nibble of the last byte, the top bit masked. *)
Definition truncate (mac : list Z) : Z :=
  let offset := Z.land (last mac 0) 15 in
  Z.land (Hash.word_of_bytes (firstn 4 (skipn (Z.to_nat offset) mac)))
         2147483647.

(** The code as text: the decimal digits, zero-padded on the left. *)
Definition format (digits value : Z) : string :=
  padStart0 digits (toString (value mod 10 ^ digits)).

(** Modelled from the spec: [computeHOTP] of section 4.2, part of the
    otplib package, absent from the sources.  The counter is taken as an
    unsigned 64-bit number. *)
Definition computeHOTP (secretBytes : list Z) (counter : Z)
  (algorithm : HashAlgorithm) (digits : Z) : Result string :=
  match secretBytes with
  | [] => Thrown (JsError "Secret must be a non-empty string")
  | _ =>
      let mac :=
        Hash.hmac algorithm secretBytes
          (Hash.be_bytes 8 (counter mod 2 ^ 64)) in
      Returned (format digits (truncate mac))
  end.

(** Modelled from the spec: [timeStepCounter] of section 4.3 (otplib
    package, absent from the sources). *)
Definition timeStepCounter (unixSeconds period : Z) : Z :=
  unixSeconds / period.

(** The counter of the current world: the clock in whole seconds over the
    step. *)
Definition counter_of (w : World) : Z :=
  timeStepCounter (Date_now w / 1000) (step (totp_options w)).

(** The code of a counter: HOTP under the key made of the secret. *)
Definition code_at (secret : string) (o : Options) (counter : Z)
  : Result string :=
  computeHOTP (createHmacKey (algorithm o) secret) counter (algorithm o)
    (digits o).

(** Modelled from the spec: the generation step of [generateTOTP] in
    section 4.3, which the service delegates to [totp.generate] of the
    otplib package (absent from the sources): take the counter of the
    current time and compute the HOTP code, under the key above. *)
Definition generate (secret : string) : M string :=
  fun w => (code_at secret (totp_options w) (counter_of w), w).

(** The offsets [-|window| .. +|window|]: the package takes a numeric
    window by its absolute value, so that a negative window is as wide as
    the positive one. *)
Definition offsets (window : Z) : list Z :=
  map (fun k => Z.of_nat k - Z.abs window)
    (seq 0 (Z.to_nat (2 * Z.abs window + 1))).

Definition matches (token secret : string) (o : Options) (counter : Z)
  : bool :=
  match code_at secret o counter with
  | Returned c => String.eqb token c
  | Thrown _ => false
  end.

(** Modelled from the spec: the comparison step of [validateTOTP] in
    section 4.3, which the service delegates to [totp.check] of the otplib
    package (absent from the sources): true when the code of some counter
    [base + i], [i] in [-|window| .. +|window|], equals the token; false
    when none does. *)
Definition check (token secret : string) : M bool :=
  fun w =>
    let o := totp_options w in
    (Returned
       (existsb (fun i => matches token secret o (counter_of w + i))
          (offsets (window o))),
     w).

#[export] Instance model : Totp := {
  generate := generate;
  check := check
}.

End OtplibModel.

(* ================================================================== *)
(** * The Base32 encoder: a model after the specification *)
(* ================================================================== *)

Module ThirtyTwoModel.
Import JS.

(** The character of a 5-bit group: [A..Z], then [2..7]. *)
Definition base32_char (v : Z) : ascii :=
  let v := v mod 32 in
  if v <? 26 then byte (65 + v) else byte (24 + v).

(** Eight bits in per byte, a character out for every five at hand; bits
    left at the end are filled up with zeros. *)
Fixpoint encode_from (acc nbits : Z) (bytes : list Z) : string :=
  match bytes with
  | [] =>
      if nbits =? 0 then EmptyString
      else String (base32_char (acc * 2 ^ (5 - nbits))) EmptyString
  | b :: r =>
      let acc' := acc * 256 + b mod 256 in
      let n := nbits + 8 in
      if 10 <=? n then
        String (base32_char (acc' / 2 ^ (n - 5)))
          (String (base32_char (acc' / 2 ^ (n - 10)))
             (encode_from (acc' mod 2 ^ (n - 10)) (n - 10) r))
      else
        String (base32_char (acc' / 2 ^ (n - 5)))
          (encode_from (acc' mod 2 ^ (n - 5)) (n - 5) r)
  end.

Fixpoint padding (n : nat) : string :=
  match n with
  | O => EmptyString
  | S k => String "=" (padding k)
  end.

(** Modelled from the spec: [encodeSecret] of section 4.1, the Base32
    encoding that the service takes from the package thirty-two (the
    sources only declare its interface): upper-case Base32 after RFC 4648,
    padded with [=] to a multiple of eight characters. *)
Definition encode (bytes : list Z) : string :=
  let body := encode_from 0 0 bytes in
  body ++ padding ((8 - String.length body mod 8) mod 8).

#[export] Instance model : ThirtyTwo.Codec := {
  encode := encode
}.

End ThirtyTwoModel.

(* ================================================================== *)
(** * The vocabulary of the specification *)
(* ================================================================== *)

Module Spec.
Import JS Web Otplib TOTPService.
Local Open Scope js_scope.

(** The error kinds of the specification, read off the messages of the
    [Error] objects the service throws. *)

Definition InvalidSecretFormat (e : Exception) : bool :=
  match e with
  | JsError m =>
      existsb (String.eqb m)
        [ "Secret must be a non-empty string";
          "Secret must be valid Base32 encoded string";
          "Secret is too short (minimum 8 characters without padding)" ]
  | NonError => false
  end.

Definition InvalidURIFormat (e : Exception) : bool :=
  match e with
  | JsError m => starts_with "Invalid OTPAuth URL: " m
  | NonError => false
  end.

(** The language of [^[A-Z2-7]+=*$]: a non-empty body of Base32 characters
    followed by padding. *)
Definition Base32Pattern (s : string) : Prop :=
  exists body pad,
    s = body ++ pad /\ body <> EmptyString
    /\ forallb_str is_base32_char body = true
    /\ forallb_str is_pad pad = true.

(** RFC 6238, Appendix B: the seeds in Base32 and the published codes. *)
Definition seed_sha1 : string := "GEZDGNBVGY3TQOJQGEZDGNBVGY3TQOJQ".
Definition seed_sha256 : string :=
  "GEZDGNBVGY3TQOJQGEZDGNBVGY3TQOJQGEZDGNBVGY3TQOJQGEZA====".
Definition seed_sha512 : string :=
  "GEZDGNBVGY3TQOJQGEZDGNBVGY3TQOJQGEZDGNBVGY3TQOJQGEZDGNBVGY3TQOJQGEZDGNBVGY3TQOJQGEZDGNBVGY3TQOJQGEZDGNA=".

Definition ascii_bytes (s : string) : list Z :=
  map code (list_ascii_of_string s).

(** [period=30], [digits=8] and the given algorithm. *)
Definition rfc_options (algorithm : string) : option TOTPOptions.t :=
  Some (TOTPOptions.mk (Some algorithm) (Some (Num 8)) (Some (Num 30)) None).

(** The world whose clock shows [t] seconds since the epoch. *)
Definition at_time (t : Z) (o : Otplib.Options) : Otplib.World :=
  Otplib.mkWorld (1000 * t) o.

(** The characters of a cleaned secret. *)
Definition is_secret_char (c : ascii) : bool := is_base32_char c || is_pad c.

(** The options of the claim: [window = 1], [period = 30]; the other fields
    are free. *)
Definition window_options (algorithm : option string)
  (digits : option Number) : option TOTPOptions.t :=
  Some (TOTPOptions.mk algorithm digits (Some (Num 30)) (Some (Num 1))).

(** The code generated at [t] seconds, whatever options the [totp] object
    held before. *)
Definition rfc_code (seed algorithm : string) (t : Z) (o : Options)
  : Result string :=
  fst (generateTOTP (lib := OtplibModel.model) seed (rfc_options algorithm)
         (at_time t o)).

Definition base32_value (c : ascii) : Z :=
  if is_upper c then code c - 65 else code c - 24.

(** Five bits per character, a byte out whenever eight are at hand; bits
    left at the end are dropped. *)
Fixpoint base32_bytes (acc nbits : Z) (s : string) : list Z :=
  match s with
  | EmptyString => []
  | String c r =>
      let acc' := acc * 32 + base32_value c in
      let n := nbits + 5 in
      if 8 <=? n
      then acc' / 2 ^ (n - 8) :: base32_bytes (acc' mod 2 ^ (n - 8)) (n - 8) r
      else base32_bytes acc' n r
  end.

(** Modelled from the spec: [decodeSecret] of section 4.1, the Base32
    decoding from text to bytes.  The checks are those of
    [validateAndCleanSecret]; the bytes follow RFC 4648 on the text without
    its padding.  No statement of the sources performs this step. *)
Definition decodeSecret (input : string) : Result (list Z) :=
  let? cleaned := validateAndCleanSecret input in
  Returned (base32_bytes 0 0 (strip_padding cleaned)).

(** The code the specification describes for a seed in Base32 at [t]
    seconds, with [period = 30] and [digits = 8]: HOTP under the decoded
    seed. *)
Definition spec_code (seed : string) (algorithm : HashAlgorithm) (t : Z)
  : Result string :=
  let? key := decodeSecret seed in
  OtplibModel.computeHOTP key (OtplibModel.timeStepCounter t 30) algorithm 8.

(** RFC 6238, Appendix B: time, and the codes for SHA1, SHA256, SHA512. *)
Definition rfc_vectors : list (Z * (string * string * string)) :=
  [ (59, ("94287082", "46119246", "90693936"));
    (1111111109, ("07081804", "68084774", "25091201"));
    (1111111111, ("14050471", "67062674", "99943326"));
    (1234567890, ("89005924", "91819424", "93441116"));
    (2000000000, ("69279037", "90698825", "38618901"));
    (20000000000, ("65353130", "77737706", "47863826")) ].

(** Every character, for properties checked character by character. *)
Definition all_ascii : list ascii := map ascii_of_nat (seq 0 256).

(** The characters [encodeURIComponent] produces, and those of the
    urlencoded serialiser. *)
Definition is_percent (c : ascii) : bool := code c =? 37.
Definition enc_char (c : ascii) : bool := uri_unreserved c || is_percent c.
Definition form_char (c : ascii) : bool :=
  form_keep c || is_percent c || (code c =? 43).
Definition query_char (c : ascii) : bool :=
  form_char c || (code c =? 61) || (code c =? 38).

(** Neither a C0 control or space, nor (so) a tab or newline. *)
Definition is_visible (c : ascii) : bool := negb (is_c0_or_space c).

(** The label [createOTPAuthURL] builds. *)
Definition label_of (issuer accountName : string) : string :=
  if truthy issuer then issuer ++ ":" ++ accountName else accountName.

(** The item [generateTOTPRange] pushes for the slot [timeSlot]. *)
Definition range_item (period timeSlot : Z) (code : string) : TOTPRange.t :=
  TOTPRange.mk code timeSlot (timeSlot * period * 1000)
    ((timeSlot * period + period) * 1000).

(** The options [handleSave] tries the secret with. *)
Definition form_options (f : AddAccountForm.Form) : option TOTPOptions.t :=
  Some (TOTPOptions.mk (Some (AddAccountForm.algorithm f))
          (Some (AddAccountForm.digits f))
          (Some (parseInt_auto (AddAccountForm.period f))) None).

(** The account data [handleSave] hands to [onSave]. *)
Definition form_data (f : AddAccountForm.Form) : LocalTOTPAccount.Data :=
  LocalTOTPAccount.mkData (trim (AddAccountForm.serviceName f))
    (trim (AddAccountForm.accountName f)) (trim (AddAccountForm.secret f))
    (AddAccountForm.algorithm f) (AddAccountForm.digits f)
    (parseInt_auto (AddAccountForm.period f)) None.

(** The options [updateTOTP] passes for an account. *)
Definition account_options (account : LocalTOTPAccount.t)
  : option TOTPOptions.t :=
  Some (TOTPOptions.mk
          (Some (LocalTOTPAccount.algorithm (LocalTOTPAccount.data account)))
          (Some (LocalTOTPAccount.digits (LocalTOTPAccount.data account)))
          (Some (LocalTOTPAccount.period (LocalTOTPAccount.data account)))
          None).

(** A printable ASCII character other than the blank. *)
Definition is_printable (c : ascii) : bool :=
  (33 <=? code c) && (code c <=? 126).

End Spec.

(* ================================================================== *)
(** * Properties *)
(* ================================================================== *)

Import JS Web Otplib TOTPService Spec.

(** ** Strings *)

Lemma append_length (a b : string) :
  String.length (a ++ b) = (String.length a + String.length b)%nat.
Proof. induction a; simpl; auto. Qed.

Lemma append_nil_r (a : string) : a ++ EmptyString = a.
Proof. induction a; simpl; congruence. Qed.

Lemma append_assoc (a b c : string) : (a ++ b) ++ c = a ++ (b ++ c).
Proof. induction a; simpl; congruence. Qed.

Lemma forallb_str_append (p : ascii -> bool) (a b : string) :
  forallb_str p (a ++ b) = forallb_str p a && forallb_str p b.
Proof. induction a; simpl; [reflexivity|]. now rewrite IHa, andb_assoc. Qed.

Lemma forallb_str_impl (p q : ascii -> bool) (s : string) :
  (forall c, p c = true -> q c = true) ->
  forallb_str p s = true -> forallb_str q s = true.
Proof.
  intros Hpq. induction s as [|c r IH]; simpl; [auto|].
  intros H. apply andb_true_iff in H as [Hc Hr].
  now rewrite (Hpq c Hc), IH.
Qed.

(** ** Characters *)

Lemma pad_not_base32 (c : ascii) :
  is_pad c = true -> is_base32_char c = false.
Proof.
  unfold is_pad, is_base32_char, between. intros H.
  apply Z.eqb_eq in H. rewrite H. reflexivity.
Qed.

(** ** The Base32 pattern *)

Lemma base32_tail_sound (s : string) :
  base32_tail s = true ->
  exists body pad,
    s = body ++ pad /\ forallb_str is_base32_char body = true
    /\ forallb_str is_pad pad = true.
Proof.
  induction s as [|c r IH]; simpl.
  - intros _. exists EmptyString, EmptyString. auto.
  - destruct (is_base32_char c) eqn:Hc.
    + intros H. destruct (IH H) as (b & p & -> & Hb & Hp).
      exists (String c b), p. simpl. rewrite Hc. auto.
    + intros H. exists EmptyString, (String c r). auto.
Qed.

Lemma base32_tail_complete (body pad : string) :
  forallb_str is_base32_char body = true ->
  forallb_str is_pad pad = true ->
  base32_tail (body ++ pad) = true.
Proof.
  induction body as [|c r IH]; simpl; intros Hb Hp.
  - destruct pad as [|c r]; [reflexivity|]. simpl in *.
    apply andb_true_iff in Hp as [Hc Hr].
    rewrite (pad_not_base32 c Hc), Hc. exact Hr.
  - apply andb_true_iff in Hb as [Hc Hr]. rewrite Hc. auto.
Qed.

Lemma test_base32_spec (s : string) :
  test_base32 s = true <-> Base32Pattern s.
Proof.
  split.
  - destruct s as [|c r]; simpl; [discriminate|].
    intros H. apply andb_true_iff in H as [Hc Hr].
    destruct (base32_tail_sound r Hr) as (b & p & -> & Hb & Hp).
    exists (String c b), p. simpl. rewrite Hc. repeat split; auto.
    discriminate.
  - intros (b & p & -> & Hne & Hb & Hp).
    destruct b as [|c r]; [congruence|]. simpl in *.
    apply andb_true_iff in Hb as [Hc Hr]. rewrite Hc. simpl.
    now apply base32_tail_complete.
Qed.

Lemma test_base32_nonempty (s : string) :
  test_base32 s = true -> s <> EmptyString.
Proof. destruct s; simpl; congruence. Qed.

(** ** Secret validation *)

Lemma validateAndCleanSecret_thrown (secret : string) (e : Exception) :
  validateAndCleanSecret secret = Thrown e ->
  InvalidSecretFormat e = true
  /\ (test_base32 (toUpperCase (removeWhitespace secret)) = false
      \/ len (strip_padding (toUpperCase (removeWhitespace secret))) < 8).
Proof.
  unfold validateAndCleanSecret.
  destruct secret as [|c r].
  - cbn. intros [= <-]. split; [reflexivity | now left].
  - cbn [truthy negb].
    destruct (test_base32 _) eqn:Ht; cbn [negb].
    + destruct (_ <? 8) eqn:Hl; [|discriminate].
      intros [= <-]. split; [reflexivity|]. right. now apply Z.ltb_lt.
    + intros [= <-]. split; [reflexivity | now left].
Qed.

Lemma validateAndCleanSecret_returned (secret cleaned : string) :
  validateAndCleanSecret secret = Returned cleaned ->
  cleaned = toUpperCase (removeWhitespace secret)
  /\ test_base32 cleaned = true
  /\ 8 <= len (strip_padding cleaned).
Proof.
  unfold validateAndCleanSecret.
  destruct secret as [|c r]; [discriminate|].
  cbn [truthy negb].
  destruct (test_base32 _) eqn:Ht; cbn [negb]; [|discriminate].
  destruct (_ <? 8) eqn:Hl; [discriminate|].
  intros [= <-]. apply Z.ltb_ge in Hl. auto.
Qed.

(** C2.  Secret decoding removes white space and upper-cases its input; it
    fails, always with InvalidSecretFormat, exactly when the cleaned text is
    empty, does not match [^[A-Z2-7]+=*$], or keeps fewer than 8 characters
    once the trailing padding is stripped, and returns the cleaned text
    otherwise.  "not valid base32!!!" and "AAAA" fail, "JBSWY3DPEHPK3PXP"
    succeeds. *)
Theorem secret_decoding_fails_exactly (secret : string) :
  (forall e, validateAndCleanSecret secret = Thrown e ->
             InvalidSecretFormat e = true)
  /\ ((exists e, validateAndCleanSecret secret = Thrown e) <->
      (toUpperCase (removeWhitespace secret) = EmptyString
       \/ ~ Base32Pattern (toUpperCase (removeWhitespace secret))
       \/ len (strip_padding (toUpperCase (removeWhitespace secret))) < 8))
  /\ (forall cleaned, validateAndCleanSecret secret = Returned cleaned ->
                      cleaned = toUpperCase (removeWhitespace secret))
  /\ (exists e, validateAndCleanSecret "not valid base32!!!" = Thrown e
                /\ InvalidSecretFormat e = true)
  /\ (exists e, validateAndCleanSecret "AAAA" = Thrown e
                /\ InvalidSecretFormat e = true)
  /\ validateAndCleanSecret "JBSWY3DPEHPK3PXP" = Returned "JBSWY3DPEHPK3PXP".
Proof.
  split; [|split; [|split; [|split; [|split]]]].
  - intros e H. now apply validateAndCleanSecret_thrown in H.
  - split.
    + intros [e H]. apply validateAndCleanSecret_thrown in H as [_ [H|H]].
      * right; left. intros P. apply test_base32_spec in P. congruence.
      * right; right. exact H.
    + intros H.
      destruct (validateAndCleanSecret secret) as [c|e] eqn:Hv; [|eauto].
      exfalso.
      apply validateAndCleanSecret_returned in Hv as (-> & Ht & Hl).
      destruct H as [H|[H|H]].
      * apply test_base32_nonempty in Ht. contradiction.
      * apply H. now apply test_base32_spec.
      * lia.
  - intros c H. now apply validateAndCleanSecret_returned in H.
  - eexists. split; reflexivity.
  - eexists. split; reflexivity.
  - reflexivity.
Qed.

(** A cleaned secret is made of Base32 characters and padding, on which
    cleaning changes nothing. *)


Lemma secret_char_code (c : ascii) :
  is_secret_char c = true ->
  65 <= code c <= 90 \/ 50 <= code c <= 55 \/ code c = 61.
Proof.
  unfold is_secret_char, is_base32_char, is_pad, between. intros H.
  repeat (apply orb_true_iff in H as [H|H]);
    repeat (apply andb_true_iff in H as [? H]); lia.
Qed.

Ltac decide_tests :=
  repeat match goal with
    | |- context [?a =? ?b] => destruct (Z.eqb_spec a b); try lia
    | |- context [?a <=? ?b] => destruct (Z.leb_spec a b); try lia
    | |- context [?a <? ?b] => destruct (Z.ltb_spec a b); try lia
    end; cbn [andb orb negb].

Lemma ws_len_plain (c : ascii) (r : string) :
  33 <= code c <= 127 -> ws_len (String c r) = 0%nat.
Proof.
  intros Hc. unfold ws_len, between.
  destruct r as [|c2 [|c3 r3]]; decide_tests; reflexivity.
Qed.

Lemma upper_at_plain (c : ascii) (r : string) :
  code c <= 127 -> upper_at (String c r) = None.
Proof.
  intros Hc. unfold upper_at.
  destruct r as [|c2 [|c3 r3]]; decide_tests; reflexivity.
Qed.

Lemma upper_ascii_id (c : ascii) : is_lower c = false -> upper_ascii c = c.
Proof. unfold upper_ascii. now intros ->. Qed.

Lemma secret_chars_clean (s : string) :
  forallb_str is_secret_char s = true ->
  removeWhitespace s = s /\ toUpperCase s = s.
Proof.
  unfold removeWhitespace, toUpperCase.
  induction s as [|c r IH]; [auto|]. cbn [forallb_str].
  intros H. apply andb_true_iff in H as [Hc Hr].
  destruct (IH Hr) as [IH1 IH2].
  pose proof (secret_char_code c Hc) as Hk.
  cbn [remove_ws_from upper_from].
  rewrite ws_len_plain, upper_at_plain by lia.
  rewrite IH1, IH2, upper_ascii_id; [auto|].
  unfold is_lower, between. decide_tests; reflexivity.
Qed.

Lemma base32_tail_chars (s : string) :
  base32_tail s = true -> forallb_str is_secret_char s = true.
Proof.
  induction s as [|c r IH]; [auto|]. cbn [base32_tail].
  destruct (is_base32_char c) eqn:Hc.
  - intros H. cbn [forallb_str]. unfold is_secret_char at 1.
    rewrite Hc. now apply IH.
  - apply forallb_str_impl. intros x Hx. unfold is_secret_char.
    rewrite Hx. apply orb_true_r.
Qed.

Lemma test_base32_chars (s : string) :
  test_base32 s = true -> forallb_str is_secret_char s = true.
Proof.
  destruct s as [|c r]; [discriminate|]. cbn [test_base32 forallb_str].
  intros H. apply andb_true_iff in H as [Hc Hr].
  unfold is_secret_char at 1. rewrite Hc. now apply base32_tail_chars.
Qed.

(** Cleaning a cleaned secret returns it. *)
Lemma validateAndCleanSecret_idempotent (secret cleaned : string) :
  validateAndCleanSecret secret = Returned cleaned ->
  validateAndCleanSecret cleaned = Returned cleaned.
Proof.
  intros H. apply validateAndCleanSecret_returned in H as (_ & Ht & Hl).
  destruct (secret_chars_clean cleaned (test_base32_chars _ Ht)) as [H1 H2].
  unfold validateAndCleanSecret.
  destruct cleaned as [|c r]; [discriminate|]. cbn [truthy negb].
  rewrite H1, H2, Ht. cbn [negb].
  destruct (Z.ltb_spec (len (strip_padding (String c r))) 8); [lia|reflexivity].
Qed.

Lemma validateSecret_true (secret : string) :
  validateSecret secret = true ->
  exists cleaned, validateAndCleanSecret secret = Returned cleaned.
Proof.
  unfold validateSecret.
  destruct (validateAndCleanSecret secret); [eauto|discriminate].
Qed.

Lemma validateSecret_of_returned (secret cleaned : string) :
  validateAndCleanSecret secret = Returned cleaned ->
  validateSecret secret = true.
Proof.
  intros H. unfold validateSecret. rewrite H.
  apply validateAndCleanSecret_returned in H as (_ & Ht & _).
  destruct cleaned; [discriminate|]. reflexivity.
Qed.

(** ** Validation never throws *)


(** C10.  Whatever the library behind [totp] does, and for every code,
    secret, options value and world, [validateTOTP] ends with a boolean and
    throws nothing: a secret that fails cleaning gives [false], and so does
    an exception raised by the library's check. *)
Theorem validateTOTP_total (lib : Totp) (code secret : string)
  (options : option TOTPOptions.t) (w : World) :
  (exists b w', validateTOTP code secret options w = (Returned b, w'))
  /\ (forall e, validateAndCleanSecret secret = Thrown e ->
        validateTOTP code secret options w = (Returned false, w))
  /\ (forall cleaned e w',
        validateAndCleanSecret secret = Returned cleaned ->
        check code cleaned (mkWorld (Date_now w) (totpOptions options))
          = (Thrown e, w') ->
        validateTOTP code secret options w = (Returned false, w')).
Proof.
  unfold validateTOTP, try_catch, bind, lift, set_options, ret.
  destruct (validateAndCleanSecret secret) as [cleaned|e0].
  - destruct (check code cleaned _) as [[b|e1] w1] eqn:Hc.
    + split; [eauto|]. split; [discriminate|].
      intros c e w' [= <-]. rewrite Hc. discriminate.
    + split; [eauto|]. split; [discriminate|].
      intros c e w' [= <-]. rewrite Hc. now intros [= _ <-].
  - split; [eauto|]. split; [auto|discriminate].
Qed.

(** ** The model of the library *)

Lemma in_offsets (window i : Z) :
  In i (OtplibModel.offsets window)
  <-> - Z.abs window <= i <= Z.abs window.
Proof.
  unfold OtplibModel.offsets. rewrite in_map_iff. split.
  - intros (k & <- & Hk). apply in_seq in Hk. lia.
  - intros H. exists (Z.to_nat (i + Z.abs window)). split; [lia|].
    apply in_seq. lia.
Qed.

Lemma matches_iff (token secret : string) (o : Options) (counter : Z) :
  OtplibModel.matches token secret o counter = true
  <-> OtplibModel.code_at secret o counter = Returned token.
Proof.
  unfold OtplibModel.matches.
  destruct (OtplibModel.code_at secret o counter) as [c|e].
  - rewrite String.eqb_eq. split; congruence.
  - split; discriminate.
Qed.

Lemma model_check_true (token secret : string) (w : World) (b : bool) :
  fst (OtplibModel.check token secret w) = Returned b ->
  (b = true <->
   exists i,
     - Z.abs (window (totp_options w)) <= i <= Z.abs (window (totp_options w))
     /\ OtplibModel.code_at secret (totp_options w)
          (OtplibModel.counter_of w + i) = Returned token).
Proof.
  unfold OtplibModel.check. cbn [fst]. intros [= <-].
  rewrite existsb_exists. split.
  - intros (i & Hi & Hm). exists i. split; [now apply in_offsets|].
    now apply matches_iff.
  - intros (i & Hi & Hm). exists i. split; [now apply in_offsets|].
    now apply matches_iff.
Qed.

Lemma validateTOTP_model (code secret cleaned : string)
  (options : option TOTPOptions.t) (w : World) :
  validateAndCleanSecret secret = Returned cleaned ->
  validateTOTP (lib := OtplibModel.model) code secret options w
  = OtplibModel.check code cleaned
      (mkWorld (Date_now w) (totpOptions options)).
Proof.
  intros H.
  unfold validateTOTP, try_catch, bind, lift, set_options, check.
  rewrite H. reflexivity.
Qed.

(** For a secret that passes cleaning, the model accepts exactly the codes
    of the counters in the window. *)
Lemma validateTOTP_accepts_iff (code secret cleaned : string)
  (options : option TOTPOptions.t) (w : World) :
  validateAndCleanSecret secret = Returned cleaned ->
  (exists b,
     fst (validateTOTP (lib := OtplibModel.model) code secret options w)
     = Returned b)
  /\ (fst (validateTOTP (lib := OtplibModel.model) code secret options w)
      = Returned true
      <-> exists i,
            - Z.abs (window (totpOptions options)) <= i
              <= Z.abs (window (totpOptions options))
            /\ OtplibModel.code_at cleaned (totpOptions options)
                 (Date_now w / 1000 / step (totpOptions options) + i)
               = Returned code).
Proof.
  intros Hs. rewrite (validateTOTP_model code secret cleaned options w Hs).
  set (w1 := mkWorld (Date_now w) (totpOptions options)).
  destruct (fst (OtplibModel.check code cleaned w1)) as [b|e] eqn:Hb;
    [|discriminate].
  split; [eauto|].
  pose proof (model_check_true code cleaned w1 b Hb) as Hiff.
  unfold OtplibModel.counter_of, OtplibModel.timeStepCounter in Hiff.
  cbn [totp_options Date_now w1] in Hiff.
  rewrite <- Hiff. split; congruence.
Qed.



(** ** Decimal text *)

Lemma digit_char_is_digit (d : Z) :
  0 <= d <= 9 -> is_digit (digit_char d) = true.
Proof.
  intros H.
  assert (d = 0 \/ d = 1 \/ d = 2 \/ d = 3 \/ d = 4 \/ d = 5 \/ d = 6
          \/ d = 7 \/ d = 8 \/ d = 9) as Hd by lia.
  repeat (destruct Hd as [->|Hd]; [reflexivity|]). now subst.
Qed.

Lemma decimal_rev_digits (fuel : nat) (n : Z) :
  0 <= n -> Forall (fun d => 0 <= d <= 9) (decimal_rev fuel n).
Proof.
  revert n. induction fuel as [|f IH]; intros n Hn; cbn [decimal_rev].
  - constructor.
  - destruct (Z.ltb_spec n 10).
    + constructor; [lia|constructor].
    + constructor.
      * pose proof (Z.mod_pos_bound n 10). lia.
      * apply IH. apply Z.div_pos; lia.
Qed.

Lemma decimal_rev_length (fuel : nat) (n : Z) (k : nat) :
  0 <= n < 10 ^ Z.of_nat (S k) ->
  (List.length (decimal_rev fuel n) <= S k)%nat.
Proof.
  revert n k. induction fuel as [|f IH]; intros n k Hn; cbn [decimal_rev].
  - cbn. lia.
  - destruct (Z.ltb_spec n 10); [cbn; lia|].
    cbn [List.length]. apply le_n_S.
    destruct k as [|k].
    + change (10 ^ Z.of_nat 1) with 10 in Hn. lia.
    + apply IH. split; [apply Z.div_pos; lia|].
      apply Z.div_lt_upper_bound; [lia|].
      replace (Z.of_nat (S (S k))) with (Z.of_nat (S k) + 1) in Hn by lia.
      rewrite Z.pow_add_r in Hn by lia. lia.
Qed.

Lemma string_of_digits_length (l : list Z) :
  String.length (string_of_digits l) = List.length l.
Proof. induction l; simpl; auto. Qed.

Lemma string_of_digits_is_digit (l : list Z) :
  Forall (fun d => 0 <= d <= 9) l ->
  forallb_str is_digit (string_of_digits l) = true.
Proof.
  induction 1 as [|d l Hd _ IH]; [reflexivity|]. simpl.
  now rewrite digit_char_is_digit.
Qed.

Lemma decimal_length (n : Z) (k : nat) :
  0 <= n < 10 ^ Z.of_nat (S k) -> (String.length (decimal n) <= S k)%nat.
Proof.
  intros H. unfold decimal.
  rewrite string_of_digits_length, length_rev.
  now apply decimal_rev_length.
Qed.

Lemma decimal_is_digit (n : Z) :
  0 <= n -> forallb_str is_digit (decimal n) = true.
Proof.
  intros H. unfold decimal. apply string_of_digits_is_digit.
  apply Forall_rev. now apply decimal_rev_digits.
Qed.

(** A value below [10^width] printed and padded fills [width] digits. *)
Lemma padStart0_width (width v : Z) :
  1 <= width -> 0 <= v < 10 ^ width ->
  String.length (padStart0 width (toString v)) = Z.to_nat width
  /\ forallb_str is_digit (padStart0 width (toString v)) = true.
Proof.
  intros Hw Hv. unfold padStart0, toString.
  destruct (Z.ltb_spec v 0); [lia|].
  assert (String.length (decimal v) <= Z.to_nat width)%nat as Hl.
  { replace (Z.to_nat width) with (S (Z.to_nat (width - 1))) by lia.
    apply decimal_length.
    replace (Z.of_nat (S (Z.to_nat (width - 1)))) with width by lia.
    exact Hv. }
  split.
  - rewrite append_length, string_of_digits_length, repeat_length. lia.
  - rewrite forallb_str_append, decimal_is_digit by lia.
    rewrite string_of_digits_is_digit; [reflexivity|].
    apply Forall_forall. intros x Hx. apply repeat_spec in Hx. lia.
Qed.

(** ** Generation *)

Lemma totpPadSecret_nonempty (secret : list Z) (minLength : nat) :
  secret <> [] -> OtplibModel.totpPadSecret secret minLength <> [].
Proof.
  intros H. unfold OtplibModel.totpPadSecret. cbv zeta.
  destruct (Nat.ltb_spec (List.length secret) minLength) as [Hlt|Hge];
    [|exact H].
  destruct secret as [|b r]; [congruence|].
  destruct minLength as [|n]; [lia|].
  destruct (S n - List.length (b :: r))%nat as [|k] eqn:Hk; [lia|].
  cbn [repeat concat app firstn]. discriminate.
Qed.

Lemma generateTOTP_model (secret cleaned : string)
  (options : option TOTPOptions.t) (w : World) :
  validateAndCleanSecret secret = Returned cleaned ->
  fst (generateTOTP (lib := OtplibModel.model) secret options w)
  = match OtplibModel.code_at cleaned (totpOptions options)
            (Date_now w / 1000 / step (totpOptions options)) with
    | Returned c => Returned c
    | Thrown e => Thrown (JsError ("Failed to generate TOTP: " ++ message_of e))
    end.
Proof.
  intros H.
  unfold generateTOTP, try_catch, bind, lift, set_options, ret, throw, generate.
  rewrite H. cbn.
  unfold OtplibModel.generate, OtplibModel.counter_of,
    OtplibModel.timeStepCounter. cbn [totp_options Date_now].
  destruct (OtplibModel.code_at _ _ _); reflexivity.
Qed.

(** The code of a cleaned secret is the formatted truncation of a MAC. *)
Lemma code_at_cleaned (secret cleaned : string) (o : Options) (counter : Z) :
  validateAndCleanSecret secret = Returned cleaned ->
  exists mac,
    OtplibModel.code_at cleaned o counter
    = Returned (OtplibModel.format (digits o) (OtplibModel.truncate mac)).
Proof.
  intros H. unfold OtplibModel.code_at.
  apply validateAndCleanSecret_returned in H as (_ & Ht & _).
  apply test_base32_nonempty in Ht.
  unfold OtplibModel.computeHOTP.
  destruct (OtplibModel.createHmacKey (algorithm o) cleaned) eqn:Hk.
  - exfalso. revert Hk. apply totpPadSecret_nonempty.
    destruct cleaned; [congruence|discriminate].
  - eexists. reflexivity.
Qed.

(** C9.  For a valid secret, any algorithm option and a digits value of 6,
    7 or 8 (given or defaulted), [generateTOTP] returns, at every time, a
    text of exactly that many characters, all decimal digits: the decimal
    form of a value below [10^digits], padded with zeros on the left.  The
    value 42 with [digits = 6] is printed "000042". *)
Theorem generateTOTP_fixed_width (secret : string)
  (options : option TOTPOptions.t) (w : World) (d : Z) :
  validateSecret secret = true ->
  num_or (field TOTPOptions.digits options) 6 = d ->
  d = 6 \/ d = 7 \/ d = 8 ->
  (exists code v,
     fst (generateTOTP (lib := OtplibModel.model) secret options w)
     = Returned code
     /\ 0 <= v < 10 ^ d
     /\ code = padStart0 d (toString v)
     /\ String.length code = Z.to_nat d
     /\ forallb_str is_digit code = true)
  /\ OtplibModel.format 6 42 = "000042".
Proof.
  intros Hs Hd Hrange. split; [|reflexivity].
  apply validateSecret_true in Hs as [cleaned Hc].
  rewrite (generateTOTP_model secret cleaned options w Hc).
  destruct (code_at_cleaned secret cleaned (totpOptions options)
              (Date_now w / 1000 / step (totpOptions options)) Hc)
    as [mac ->].
  cbn [digits totpOptions]. rewrite Hd.
  unfold OtplibModel.format.
  set (v := OtplibModel.truncate mac mod 10 ^ d).
  assert (0 <= v < 10 ^ d) as Hv.
  { apply Z.mod_pos_bound. apply Z.pow_pos_nonneg; lia. }
  exists (padStart0 d (toString v)), v.
  destruct (padStart0_width d v) as [Hl Hg]; [lia|exact Hv|].
  auto.
Qed.

Lemma generateTOTP_fixed_width_witness :
  (exists code v,
     fst (generateTOTP (lib := OtplibModel.model) "JBSWY3DPEHPK3PXP" None
            (at_time 59 (mkOptions 6 30 sha1 1)))
     = Returned code
     /\ 0 <= v < 10 ^ 6
     /\ code = padStart0 6 (toString v)
     /\ String.length code = Z.to_nat 6
     /\ forallb_str is_digit code = true)
  /\ OtplibModel.format 6 42 = "000042".
Proof.
  apply (generateTOTP_fixed_width "JBSWY3DPEHPK3PXP" None
           (at_time 59 (mkOptions 6 30 sha1 1)) 6).
  - reflexivity.
  - reflexivity.
  - left. reflexivity.
Defined.

(** ** RFC 6238 *)

Lemma rfc_seeds_decode :
  decodeSecret seed_sha1 = Returned (ascii_bytes "12345678901234567890")
  /\ decodeSecret seed_sha256
     = Returned (ascii_bytes "12345678901234567890123456789012")
  /\ decodeSecret seed_sha512
     = Returned (ascii_bytes
         "1234567890123456789012345678901234567890123456789012345678901234").
Proof. repeat apply conj; vm_compute; reflexivity. Qed.

(** C1, refuted.  For the RFC 6238 seeds in Base32, [period = 30] and
    [digits = 8], [generateTOTP] does not return the codes of Appendix B: at
    none of the six reference times, for none of SHA1, SHA256 and SHA512.
    At 59 seconds with SHA1 it returns 58372946, where the RFC has 94287082.
    The service hands the Base32 text to [totp.generate] as it is, and the
    [totp] object keys the HMAC with the characters of that text; the codes
    of the RFC are those of the bytes the text encodes, which is the
    decoding step of the specification that the service leaves out. *)
Theorem rfc6238_vectors_missed (o : Options) :
  rfc_code seed_sha1 "SHA1" 59 o = Returned "58372946"
  /\ spec_code seed_sha1 sha1 59 = Returned "94287082"
  /\ spec_code seed_sha256 sha256 59 = Returned "46119246"
  /\ spec_code seed_sha512 sha512 59 = Returned "90693936"
  /\ Forall (fun v =>
               rfc_code seed_sha1 "SHA1" (fst v) o
               <> Returned (fst (fst (snd v)))
               /\ rfc_code seed_sha256 "SHA256" (fst v) o
                  <> Returned (snd (fst (snd v)))
               /\ rfc_code seed_sha512 "SHA512" (fst v) o
                  <> Returned (snd (snd v)))
       rfc_vectors.
Proof.
  split; [vm_compute; reflexivity|].
  split; [vm_compute; reflexivity|].
  split; [vm_compute; reflexivity|].
  split; [vm_compute; reflexivity|].
  unfold rfc_vectors.
  repeat (apply Forall_cons;
          [cbn [fst snd]; repeat apply conj;
           intros H; vm_compute in H; discriminate H|]).
  apply Forall_nil.
Qed.

(** ** The validation window *)

Lemma generateTOTP_returned (secret code : string)
  (options : option TOTPOptions.t) (w : World) :
  fst (generateTOTP (lib := OtplibModel.model) secret options w)
  = Returned code ->
  exists cleaned,
    validateAndCleanSecret secret = Returned cleaned
    /\ OtplibModel.code_at cleaned (totpOptions options)
         (Date_now w / 1000 / step (totpOptions options)) = Returned code.
Proof.
  destruct (validateAndCleanSecret secret) as [cleaned|e] eqn:Hs.
  - rewrite (generateTOTP_model secret cleaned options w Hs).
    destruct (OtplibModel.code_at _ _ _) as [c|e] eqn:Hc; [|discriminate].
    intros [= <-]. exists cleaned. split; [reflexivity|exact Hc].
  - unfold generateTOTP, try_catch, bind, lift, throw. rewrite Hs.
    discriminate.
Qed.


(** C3, as amended.  With [window = 1] and [period = 30], a code generated
    when the clock shows [t] is accepted whenever the clock shows at most
    30 seconds less or more.  61 seconds earlier or later the three steps
    compared are all different from the step of [t], and the code is
    accepted exactly when it also is the code of one of these three
    steps. *)
Theorem validation_window (secret code : string) (algorithm : option string)
  (digits : option Number) (w w' : World) :
  fst (generateTOTP (lib := OtplibModel.model) secret
         (window_options algorithm digits) w) = Returned code ->
  (Date_now w - 30000 <= Date_now w' <= Date_now w + 30000 ->
   fst (validateTOTP (lib := OtplibModel.model) code secret
          (window_options algorithm digits) w') = Returned true)
  /\ (Date_now w' = Date_now w - 61000 \/ Date_now w' = Date_now w + 61000 ->
      exists cleaned,
        validateAndCleanSecret secret = Returned cleaned
        /\ (forall i, -1 <= i <= 1 ->
              Date_now w' / 1000 / 30 + i <> Date_now w / 1000 / 30)
        /\ (fst (validateTOTP (lib := OtplibModel.model) code secret
                   (window_options algorithm digits) w') = Returned true
            <-> exists i, -1 <= i <= 1
                  /\ OtplibModel.code_at cleaned
                       (totpOptions (window_options algorithm digits))
                       (Date_now w' / 1000 / 30 + i) = Returned code)).
Proof.
  intros Hg.
  destruct (generateTOTP_returned _ _ _ _ Hg) as (cleaned & Hs & Hc).
  destruct (validateTOTP_accepts_iff code secret cleaned
              (window_options algorithm digits) w' Hs) as [_ Hw].
  change (step (totpOptions (window_options algorithm digits))) with 30
    in Hc, Hw.
  change (Z.abs (window (totpOptions (window_options algorithm digits))))
    with 1 in Hw.
  rewrite Z.div_div in Hc, Hw by lia. rewrite !Z.div_div by lia.
  change (1000 * 30) with 30000 in *.
  split.
  - intros Ht. apply Hw.
    exists (Date_now w / 30000 - Date_now w' / 30000). split.
    + Z.to_euclidean_division_equations; lia.
    + replace (Date_now w' / 30000
               + (Date_now w / 30000 - Date_now w' / 30000))
        with (Date_now w / 30000) by lia.
      exact Hc.
  - intros Ht. exists cleaned. split; [exact Hs|]. split.
    + intros i Hi. Z.to_euclidean_division_equations; lia.
    + exact Hw.
Qed.

Lemma validation_window_witness :
  (Date_now (at_time 59 (mkOptions 6 30 sha1 1)) - 30000
   <= Date_now (at_time 89 (mkOptions 6 30 sha1 1))
   <= Date_now (at_time 59 (mkOptions 6 30 sha1 1)) + 30000 ->
   fst (validateTOTP (lib := OtplibModel.model) "372946" seed_sha1
          (window_options None None) (at_time 89 (mkOptions 6 30 sha1 1)))
   = Returned true)
  /\ (Date_now (at_time 89 (mkOptions 6 30 sha1 1))
      = Date_now (at_time 59 (mkOptions 6 30 sha1 1)) - 61000
      \/ Date_now (at_time 89 (mkOptions 6 30 sha1 1))
         = Date_now (at_time 59 (mkOptions 6 30 sha1 1)) + 61000 ->
      exists cleaned,
        validateAndCleanSecret seed_sha1 = Returned cleaned
        /\ (forall i, -1 <= i <= 1 ->
              Date_now (at_time 89 (mkOptions 6 30 sha1 1)) / 1000 / 30 + i
              <> Date_now (at_time 59 (mkOptions 6 30 sha1 1)) / 1000 / 30)
        /\ (fst (validateTOTP (lib := OtplibModel.model) "372946" seed_sha1
                   (window_options None None)
                   (at_time 89 (mkOptions 6 30 sha1 1))) = Returned true
            <-> exists i, -1 <= i <= 1
                  /\ OtplibModel.code_at cleaned
                       (totpOptions (window_options None None))
                       (Date_now (at_time 89 (mkOptions 6 30 sha1 1))
                        / 1000 / 30 + i) = Returned "372946")).
Proof.
  apply (validation_window seed_sha1 "372946" None None
           (at_time 59 (mkOptions 6 30 sha1 1))
           (at_time 89 (mkOptions 6 30 sha1 1))).
  vm_compute. reflexivity.
Defined.

(** The claim as stated fails: for the secret [seed_sha1] the code
    generated at 1680926850 is accepted 61 seconds later, being also the
    code of the step that begins at 1680926910; and the code generated at
    1680926939 is accepted 61 seconds earlier. *)
Lemma validation_window_counterexample :
  fst (generateTOTP (lib := OtplibModel.model) seed_sha1
         (window_options None None)
         (at_time 1680926850 (mkOptions 6 30 sha1 1)))
  = Returned "059661"
  /\ fst (validateTOTP (lib := OtplibModel.model) "059661" seed_sha1
            (window_options None None)
            (at_time (1680926850 + 61) (mkOptions 6 30 sha1 1)))
     = Returned true
  /\ fst (generateTOTP (lib := OtplibModel.model) seed_sha1
            (window_options None None)
            (at_time 1680926939 (mkOptions 6 30 sha1 1)))
     = Returned "059661"
  /\ fst (validateTOTP (lib := OtplibModel.model) "059661" seed_sha1
            (window_options None None)
            (at_time (1680926939 - 61) (mkOptions 6 30 sha1 1)))
     = Returned true.
Proof. repeat apply conj; vm_compute; reflexivity. Qed.

(** ** Parsing a provisioning URI *)

Lemma validateParsed_keeps (r : QRCodeResult.t) :
  QRCodeResult.type (validateParsed r) = QRCodeResult.type r
  /\ QRCodeResult.label (validateParsed r) = QRCodeResult.label r
  /\ QRCodeResult.secret (validateParsed r) = QRCodeResult.secret r
  /\ QRCodeResult.issuer (validateParsed r) = QRCodeResult.issuer r
  /\ QRCodeResult.counter (validateParsed r) = QRCodeResult.counter r.
Proof.
  unfold validateParsed.
  repeat match goal with
    | |- context [if ?b then _ else _] => destruct b
    end; cbn; auto.
Qed.

Lemma or_else_empty (s : string) : or_else s "" = s.
Proof. now destruct s. Qed.

(** What a successful run of the [try] block has gone through. *)
Lemma parseOTPAuthURL_body_returned (web : WebAPI) (uri : string)
  (r : QRCodeResult.t) :
  parseOTPAuthURL_body uri = Returned r ->
  exists u secret pathLabel,
    URL_new uri = Returned u
    /\ protocol u = "otpauth:"
    /\ (toLowerCase (hostname u) = "totp" \/ toLowerCase (hostname u) = "hotp")
    /\ get (searchParams u) "secret" = Some secret
    /\ validateSecret secret = true
    /\ decodeURIComponent (substring1 (pathname u)) = Returned pathLabel
    /\ QRCodeResult.label r = pathLabel
    /\ QRCodeResult.secret r = secret
    /\ QRCodeResult.type r = toLowerCase (hostname u)
    /\ QRCodeResult.issuer r
       = (let issuer :=
            fst (labelParts pathLabel
                   (str_or (get (searchParams u) "issuer") "")) in
          if truthy issuer then Some issuer else None)
    /\ exists counter,
         r = validateParsed
               (QRCodeResult.mk (toLowerCase (hostname u)) pathLabel secret
                  (QRCodeResult.issuer r)
                  (str_or (option_map toUpperCase
                             (get (searchParams u) "algorithm")) "SHA1")
                  (parseInt (str_or (get (searchParams u) "digits") "6"))
                  (parseInt (str_or (get (searchParams u) "period") "30"))
                  counter).
Proof.
  unfold parseOTPAuthURL_body.
  destruct (URL_new uri) as [u|e] eqn:Hu; cbn [bindR]; [|discriminate].
  destruct (String.eqb_spec (protocol u) "otpauth:") as [Hp|Hp];
    cbn [negb]; [|discriminate].
  assert (forall x (Y : Result QRCodeResult.t),
            (if negb (String.eqb (toLowerCase (hostname u)) "totp")
                && negb (String.eqb (toLowerCase (hostname u)) "hotp")
             then Thrown x else Y) = Returned r ->
            (toLowerCase (hostname u) = "totp"
             \/ toLowerCase (hostname u) = "hotp") /\ Y = Returned r)
    as Htype.
  { intros x Y.
    destruct (String.eqb_spec (toLowerCase (hostname u)) "totp");
      destruct (String.eqb_spec (toLowerCase (hostname u)) "hotp");
      cbn [negb andb]; intros H; try (split; [tauto|exact H]).
    discriminate. }
  intros H. apply Htype in H as [Ht H]. clear Htype.
  destruct (get (searchParams u) "secret") as [secret|] eqn:Hs;
    cbn [str_or] in H; [|discriminate].
  rewrite or_else_empty in H.
  destruct (truthy secret) eqn:Hts; cbn [negb] in H; [|discriminate].
  destruct (validateSecret secret) eqn:Hv; cbn [negb] in H; [|discriminate].
  destruct (decodeURIComponent (substring1 (pathname u)))
    as [pathLabel|e] eqn:Hd; cbn [bindR] in H; [|discriminate].
  destruct (labelParts pathLabel _) as [issuer accountName] eqn:Hl.
  cbv beta iota in H.
  set (issuer' := if truthy issuer then Some issuer else None) in H.
  match type of H with
  | Returned (validateParsed ?x) = _ =>
      assert (exists counter,
                x = QRCodeResult.mk (toLowerCase (hostname u)) pathLabel
                      secret issuer'
                      (str_or (option_map toUpperCase
                                 (get (searchParams u) "algorithm")) "SHA1")
                      (parseInt (str_or (get (searchParams u) "digits") "6"))
                      (parseInt (str_or (get (searchParams u) "period") "30"))
                      counter) as [counter Hr]
  end.
  { destruct (String.eqb (toLowerCase (hostname u)) "hotp");
      [destruct (truthy (str_or (get (searchParams u) "counter") ""))|];
      eexists; reflexivity. }
  rewrite Hr in H. injection H as <-.
  exists u, secret, pathLabel. rewrite Hl. cbn [fst].
  match goal with
  | |- context [validateParsed ?x] =>
      destruct (validateParsed_keeps x) as (-> & -> & -> & -> & _)
  end.
  cbn. repeat (apply conj; [first [reflexivity | assumption]|]).
  exists counter. reflexivity.
Qed.

Lemma parseOTPAuthURL_returned (web : WebAPI) (uri : string)
  (r : QRCodeResult.t) :
  parseOTPAuthURL uri = Returned r <-> parseOTPAuthURL_body uri = Returned r.
Proof.
  unfold parseOTPAuthURL.
  destruct (parseOTPAuthURL_body uri); split; congruence.
Qed.

Lemma parseOTPAuthURL_thrown (web : WebAPI) (uri : string) (e : Exception) :
  parseOTPAuthURL uri = Thrown e ->
  exists e0, parseOTPAuthURL_body uri = Thrown e0
    /\ e = JsError ("Invalid OTPAuth URL: " ++ message_of e0).
Proof.
  unfold parseOTPAuthURL.
  destruct (parseOTPAuthURL_body uri) as [r|e0]; [discriminate|].
  intros [= <-]. eauto.
Qed.

(** C7.  Whatever URL parser the host provides: every failure of
    [parseOTPAuthURL] is an InvalidURIFormat; it fails when the string is
    no URL, when the scheme is not [otpauth], when the host (case apart) is
    neither [totp] nor [hotp], and when the [secret] parameter is missing,
    empty or refused by the secret validation.  With scheme, host and secret
    in order it fails only if the label is no valid percent-encoding. *)
Theorem parseOTPAuthURL_failures (web : WebAPI) (uri : string) :
  (forall e, parseOTPAuthURL uri = Thrown e -> InvalidURIFormat e = true)
  /\ (forall e, URL_new uri = Thrown e ->
        exists e', parseOTPAuthURL uri = Thrown e')
  /\ (forall u, URL_new uri = Returned u ->
        (protocol u <> "otpauth:" ->
           exists e', parseOTPAuthURL uri = Thrown e')
        /\ (toLowerCase (hostname u) <> "totp" ->
            toLowerCase (hostname u) <> "hotp" ->
              exists e', parseOTPAuthURL uri = Thrown e')
        /\ (get (searchParams u) "secret" = None ->
              exists e', parseOTPAuthURL uri = Thrown e')
        /\ (forall secret,
              get (searchParams u) "secret" = Some secret ->
              validateSecret secret = false ->
              exists e', parseOTPAuthURL uri = Thrown e')
        /\ (forall secret,
              protocol u = "otpauth:" ->
              toLowerCase (hostname u) = "totp"
              \/ toLowerCase (hostname u) = "hotp" ->
              get (searchParams u) "secret" = Some secret ->
              validateSecret secret = true ->
              ((exists e', parseOTPAuthURL uri = Thrown e') <->
               (exists e0,
                  decodeURIComponent (substring1 (pathname u)) = Thrown e0)))).
Proof.
  split; [|split].
  - intros e H. apply parseOTPAuthURL_thrown in H as (e0 & _ & ->).
    reflexivity.
  - intros e H. unfold parseOTPAuthURL, parseOTPAuthURL_body. rewrite H.
    cbn. eauto.
  - intros u Hu.
    assert (forall X : Result QRCodeResult.t,
              (exists e, X = Thrown e) ->
              exists e',
                match X with
                | Returned result => Returned result
                | Thrown error =>
                    Thrown (JsError ("Invalid OTPAuth URL: "
                                     ++ message_of error))
                end = Thrown e') as Hthrow.
    { intros X [e ->]. eauto. }
    unfold parseOTPAuthURL, parseOTPAuthURL_body. rewrite Hu. cbn [bindR].
    split; [|split; [|split; [|split]]].
    + intros Hp. apply String.eqb_neq in Hp. rewrite Hp. cbn. eauto.
    + intros Ht Hh. apply String.eqb_neq in Ht, Hh.
      destruct (String.eqb (protocol u) "otpauth:"); cbn [negb]; [|eauto].
      rewrite Ht, Hh. cbn. eauto.
    + intros Hs.
      destruct (String.eqb (protocol u) "otpauth:"); cbn [negb]; [|eauto].
      destruct (negb _ && negb _); [eauto|].
      rewrite Hs. cbn. eauto.
    + intros secret Hs Hv.
      destruct (String.eqb (protocol u) "otpauth:"); cbn [negb]; [|eauto].
      destruct (negb _ && negb _); [eauto|].
      rewrite Hs. cbn [str_or]. rewrite or_else_empty.
      destruct (truthy secret); cbn [negb]; [|eauto].
      rewrite Hv. cbn. eauto.
    + intros secret Hp Ht Hs Hv.
      rewrite Hp. cbn [String.eqb Ascii.eqb Bool.eqb negb andb].
      assert (negb (String.eqb (toLowerCase (hostname u)) "totp")
              && negb (String.eqb (toLowerCase (hostname u)) "hotp") = false)
        as ->.
      { destruct Ht as [->| ->]; reflexivity. }
      rewrite Hs. cbn [str_or]. rewrite or_else_empty.
      assert (truthy secret = true) as ->.
      { destruct secret; [discriminate Hv|reflexivity]. }
      rewrite Hv. cbn [negb].
      destruct (decodeURIComponent (substring1 (pathname u)))
        as [pathLabel|e0]; cbn [bindR].
      * destruct (labelParts pathLabel _) as [issuer accountName].
        split; intros [e H]; discriminate H.
      * split; eauto.
Qed.

(** ** Normalisation of the optional fields *)

Lemma validateParsed_digits (r : QRCodeResult.t) :
  QRCodeResult.digits (validateParsed r)
  = if num_includes [6; 7; 8] (QRCodeResult.digits r)
    then QRCodeResult.digits r else Num 6.
Proof.
  unfold validateParsed.
  repeat match goal with
    | |- context [if ?b then _ else _] => destruct b eqn:?
    end; cbn in *; congruence.
Qed.

Lemma validateParsed_algorithm (r : QRCodeResult.t) :
  QRCodeResult.algorithm (validateParsed r)
  = if existsb (String.eqb (QRCodeResult.algorithm r))
         ["SHA1"; "SHA256"; "SHA512"]
    then QRCodeResult.algorithm r else "SHA1".
Proof.
  unfold validateParsed.
  destruct (negb (num_includes _ _)); cbn [QRCodeResult.algorithm
    QRCodeResult.set_digits];
  destruct (existsb _ _); cbn [negb];
  destruct (num_lt _ 1 || num_gt _ 300); reflexivity.
Qed.

Lemma validateParsed_period (r : QRCodeResult.t) :
  QRCodeResult.period (validateParsed r)
  = if num_lt (QRCodeResult.period r) 1 || num_gt (QRCodeResult.period r) 300
    then Num 30 else QRCodeResult.period r.
Proof.
  unfold validateParsed.
  destruct (negb (num_includes _ _));
  destruct (negb (existsb _ _));
  cbn [QRCodeResult.period QRCodeResult.set_digits QRCodeResult.set_algorithm];
  destruct (num_lt _ 1 || num_gt _ 300); reflexivity.
Qed.

(** What every accepted URI gets, whatever the URL parser: [digits] and
    [algorithm] are normalised; [period] is normalised when it is a number,
    and stays [NaN] when the parameter does not start with a number. *)
Lemma parseOTPAuthURL_normalised (web : WebAPI) (uri : string)
  (r : QRCodeResult.t) :
  parseOTPAuthURL uri = Returned r ->
  exists u,
    URL_new uri = Returned u
    /\ QRCodeResult.digits r
       = (let d := parseInt (str_or (get (searchParams u) "digits") "6") in
          if num_includes [6; 7; 8] d then d else Num 6)
    /\ QRCodeResult.algorithm r
       = (let a := str_or (option_map toUpperCase
                             (get (searchParams u) "algorithm")) "SHA1" in
          if existsb (String.eqb a) ["SHA1"; "SHA256"; "SHA512"]
          then a else "SHA1")
    /\ QRCodeResult.period r
       = match parseInt (str_or (get (searchParams u) "period") "30") with
         | Num z => if (1 <=? z) && (z <=? 300) then Num z else Num 30
         | NaN => NaN
         end.
Proof.
  intros H. apply parseOTPAuthURL_returned in H.
  apply parseOTPAuthURL_body_returned in H
    as (u & secret & pathLabel & Hu & _ & _ & _ & _ & _ & _ & _ & _ & _
        & counter & Hr).
  exists u. split; [exact Hu|].
  rewrite Hr at 1 2 3.
  rewrite validateParsed_digits, validateParsed_algorithm,
    validateParsed_period.
  cbn [QRCodeResult.digits QRCodeResult.algorithm QRCodeResult.period].
  repeat split.
  destruct (parseInt (str_or (get (searchParams u) "period") "30")) as [|z];
    [reflexivity|].
  unfold num_lt, num_gt.
  destruct (Z.ltb_spec z 1); destruct (Z.leb_spec 1 z); try lia;
    destruct (Z.gtb_spec z 300); destruct (Z.leb_spec z 300); try lia;
    reflexivity.
Qed.

(** C5.  The code at the failing input: a [period] parameter that is no
    number is parsed to [NaN], which is neither below 1 nor above 300, and
    the descriptor keeps [NaN] instead of 30.  The [digits] parameter [9] of
    the specification's example, and a non-numeric one, do become 6. *)
Theorem period_NaN_is_kept :
  parseOTPAuthURL (web := whatwg)
    "otpauth://totp/X?secret=JBSWY3DPEHPK3PXP&period=abc"
  = Returned
      (QRCodeResult.mk "totp" "X" "JBSWY3DPEHPK3PXP" None "SHA1" (Num 6) NaN
         None)
  /\ parseOTPAuthURL (web := whatwg)
       "otpauth://totp/X?secret=JBSWY3DPEHPK3PXP&digits=9"
     = Returned
         (QRCodeResult.mk "totp" "X" "JBSWY3DPEHPK3PXP" None "SHA1" (Num 6)
            (Num 30) None)
  /\ parseOTPAuthURL (web := whatwg)
       "otpauth://totp/X?secret=JBSWY3DPEHPK3PXP&digits=abc&period=301"
     = Returned
         (QRCodeResult.mk "totp" "X" "JBSWY3DPEHPK3PXP" None "SHA1" (Num 6)
            (Num 30) None).
Proof. repeat apply conj; vm_compute; reflexivity. Qed.

(** ** The label *)

Lemma includes_append (sep : ascii) (a b : string) :
  includes sep (a ++ b) = includes sep a || includes sep b.
Proof.
  unfold includes. induction a as [|c r IH]; simpl; [reflexivity|].
  now rewrite IH, orb_assoc.
Qed.

Lemma split_from_no_sep (sep : ascii) (cur s : string) :
  includes sep s = false -> split_from sep cur s = [cur ++ s].
Proof.
  unfold includes. revert cur.
  induction s as [|c r IH]; intros cur; simpl.
  - now rewrite append_nil_r.
  - intros H. apply orb_false_iff in H as [Hc Hr].
    rewrite Ascii.eqb_sym, Hc. rewrite IH by exact Hr.
    now rewrite append_assoc.
Qed.

Lemma split_from_first (sep : ascii) (cur before rest : string) :
  includes sep before = false ->
  split_from sep cur (before ++ String sep rest)
  = (cur ++ before) :: split_from sep EmptyString rest.
Proof.
  unfold includes. revert cur.
  induction before as [|c r IH]; intros cur; simpl.
  - intros _. now rewrite Ascii.eqb_refl, append_nil_r.
  - intros H. apply orb_false_iff in H as [Hc Hr].
    rewrite Ascii.eqb_sym, Hc. rewrite IH by exact Hr.
    now rewrite append_assoc.
Qed.

Lemma includes_colon_label (before rest : string) :
  includes ":" (before ++ String ":" rest) = true.
Proof.
  rewrite includes_append. unfold includes at 2. simpl.
  apply orb_true_r.
Qed.

(** C6, as amended.  For a decoded label [before:rest] whose [before] holds
    no colon: without a (non-empty) issuer parameter the issuer is [before],
    with one it is the parameter.  When the label has this one colon only,
    the account name is [rest]; but with an issuer parameter and an empty
    [rest] it is [before]. *)
Theorem label_parts_one_colon (before rest issuer : string) :
  includes ":" before = false ->
  fst (labelParts (before ++ String ":" rest) "") = before
  /\ (truthy issuer = true ->
      fst (labelParts (before ++ String ":" rest) issuer) = issuer)
  /\ (includes ":" rest = false ->
      snd (labelParts (before ++ String ":" rest) "") = rest
      /\ (truthy issuer = true ->
          snd (labelParts (before ++ String ":" rest) issuer)
          = if truthy rest then rest else before)).
Proof.
  intros Hb. unfold labelParts, split.
  rewrite includes_colon_label, (split_from_first _ _ _ _ Hb).
  cbn [truthy negb andb append].
  split; [|split].
  - destruct (split_from ":" "" rest); reflexivity.
  - intros ->. reflexivity.
  - intros Hr. rewrite (split_from_no_sep _ _ _ Hr). cbn.
    split; [reflexivity|]. intros ->. cbn. unfold or_else.
    reflexivity.
Qed.

Lemma label_parts_one_colon_witness :
  fst (labelParts ("Example" ++ String ":" "alice@google.com") "") = "Example"
  /\ (truthy "ACME" = true ->
      fst (labelParts ("Example" ++ String ":" "alice@google.com") "ACME")
      = "ACME")
  /\ (includes ":" "alice@google.com" = false ->
      snd (labelParts ("Example" ++ String ":" "alice@google.com") "")
      = "alice@google.com"
      /\ (truthy "ACME" = true ->
          snd (labelParts ("Example" ++ String ":" "alice@google.com") "ACME")
          = if truthy "alice@google.com" then "alice@google.com"
            else "Example")).
Proof.
  apply (label_parts_one_colon "Example" "alice@google.com" "ACME").
  reflexivity.
Defined.

(** The claim as stated fails: with an issuer parameter and nothing after
    the colon the account name is the text before the colon, not the empty
    remainder; and of a label with two colons only the middle piece is
    kept, not the whole remainder. *)
Lemma label_parts_counterexample :
  (labelParts "X:" "Y" = ("Y", "X")
   /\ snd (labelParts "X:" "Y") <> "")
  /\ (labelParts "a:b:c" "" = ("a", "b")
      /\ snd (labelParts "a:b:c" "") <> "b:c")
  /\ (labelParts "a:b:c" "Y" = ("Y", "b")
      /\ snd (labelParts "a:b:c" "Y") <> "b:c").
Proof. repeat apply conj; first [reflexivity | discriminate]. Qed.

(** ** Character classes *)

Lemma for_all_ascii (P : ascii -> bool) :
  forallb P all_ascii = true -> forall c, P c = true.
Proof.
  intros H c. rewrite forallb_forall in H. apply H.
  unfold all_ascii. rewrite <- (ascii_nat_embedding c).
  apply in_map, in_seq. pose proof (nat_ascii_bounded c). lia.
Qed.

Ltac by_cases_on_ascii P :=
  let H := fresh in
  assert (forall c, P c = true) as H
    by (apply for_all_ascii; vm_compute; reflexivity);
  intros c; specialize (H c); cbv beta in H.

Lemma byte_code (c : ascii) : byte (code c) = c.
Proof.
  revert c.
  by_cases_on_ascii (fun c => Ascii.eqb (byte (code c)) c).
  now apply Ascii.eqb_eq.
Qed.

Lemma hex_digits_value (c : ascii) :
  hex_value (hex_digit (code c / 16)) = Some (code c / 16)
  /\ hex_value (hex_digit (code c mod 16)) = Some (code c mod 16)
  /\ 16 * (code c / 16) + code c mod 16 = code c.
Proof.
  split; [|split]; [| |pose proof (Z.div_mod (code c) 16); lia]; revert c.
  - by_cases_on_ascii
      (fun c => match hex_value (hex_digit (code c / 16)) with
                | Some v => v =? code c / 16
                | None => false
                end).
    destruct (hex_value _); [|discriminate]. f_equal. now apply Z.eqb_eq.
  - by_cases_on_ascii
      (fun c => match hex_value (hex_digit (code c mod 16)) with
                | Some v => v =? code c mod 16
                | None => false
                end).
    destruct (hex_value _); [|discriminate]. f_equal. now apply Z.eqb_eq.
Qed.

Lemma hex_digit_enc (c : ascii) :
  enc_char (hex_digit (code c / 16)) = true
  /\ enc_char (hex_digit (code c mod 16)) = true
  /\ form_char (hex_digit (code c / 16)) = true
  /\ form_char (hex_digit (code c mod 16)) = true.
Proof.
  revert c.
  by_cases_on_ascii
    (fun c => enc_char (hex_digit (code c / 16))
              && enc_char (hex_digit (code c mod 16))
              && form_char (hex_digit (code c / 16))
              && form_char (hex_digit (code c mod 16))).
  repeat (apply andb_true_iff in H as [H ?]). auto.
Qed.

(** What follows from being an [enc_char]. *)
Lemma enc_char_facts (c : ascii) :
  enc_char c = true ->
  is_c0_or_space c = false /\ is_tab_or_newline c = false
  /\ path_keep c = true /\ is_path_end c = false
  /\ Ascii.eqb c "/" = false.
Proof.
  revert c.
  by_cases_on_ascii
    (fun c => implb (enc_char c)
                (negb (is_c0_or_space c) && negb (is_tab_or_newline c)
                 && path_keep c && negb (is_path_end c)
                 && negb (Ascii.eqb c "/"))).
  intros E. rewrite E in H. cbn [implb] in H.
  repeat (apply andb_true_iff in H as [H ?]).
  repeat match goal with
    | X : negb _ = true |- _ => apply negb_true_iff in X
    end.
  repeat apply conj; assumption.
Qed.

(** What follows from being a [form_char]. *)
Lemma form_char_facts (c : ascii) :
  form_char c = true ->
  is_c0_or_space c = false /\ is_tab_or_newline c = false
  /\ query_keep c = true /\ (code c =? 35) = false
  /\ Ascii.eqb c "&" = false /\ (code c =? 61) = false.
Proof.
  revert c.
  by_cases_on_ascii
    (fun c => implb (form_char c)
                (negb (is_c0_or_space c) && negb (is_tab_or_newline c)
                 && query_keep c && negb (code c =? 35)
                 && negb (Ascii.eqb c "&") && negb (code c =? 61))).
  intros E. rewrite E in H. cbn [implb] in H.
  repeat (apply andb_true_iff in H as [H ?]).
  repeat match goal with
    | X : negb _ = true |- _ => apply negb_true_iff in X
    end.
  repeat apply conj; assumption.
Qed.

Lemma unreserved_facts (c : ascii) :
  uri_unreserved c = true -> is_percent c = false /\ code c < 128.
Proof.
  revert c.
  by_cases_on_ascii
    (fun c => implb (uri_unreserved c)
                (negb (is_percent c) && (code c <? 128))).
  intros E. rewrite E in H. cbn [implb] in H.
  apply andb_true_iff in H as [H1 H2].
  apply negb_true_iff in H1. apply Z.ltb_lt in H2. auto.
Qed.

Lemma form_keep_facts (c : ascii) :
  form_keep c = true ->
  is_percent c = false /\ (code c =? 43) = false /\ (code c =? 32) = false
  /\ code c < 128.
Proof.
  revert c.
  by_cases_on_ascii
    (fun c => implb (form_keep c)
                (negb (is_percent c) && negb (code c =? 43)
                 && negb (code c =? 32) && (code c <? 128))).
  intros E. rewrite E in H. cbn [implb] in H.
  repeat (apply andb_true_iff in H as [H ?]).
  repeat match goal with
    | X : negb _ = true |- _ => apply negb_true_iff in X
    end.
  match goal with X : (_ <? _) = true |- _ => apply Z.ltb_lt in X end.
  repeat apply conj; assumption.
Qed.

Lemma plus_to_space_hex (c : ascii) :
  plus_to_space (hex_digit (code c / 16)) = hex_digit (code c / 16)
  /\ plus_to_space (hex_digit (code c mod 16)) = hex_digit (code c mod 16).
Proof.
  revert c.
  by_cases_on_ascii
    (fun c => Ascii.eqb (plus_to_space (hex_digit (code c / 16)))
                (hex_digit (code c / 16))
              && Ascii.eqb (plus_to_space (hex_digit (code c mod 16)))
                   (hex_digit (code c mod 16))).
  apply andb_true_iff in H as [H1 H2].
  apply Ascii.eqb_eq in H1, H2. auto.
Qed.

(** ** URI component coding: decoding what was encoded *)

Lemma encodeURIComponent_chars (s : string) :
  forallb_str enc_char (encodeURIComponent s) = true.
Proof.
  unfold encodeURIComponent.
  induction s as [|c r IH]; [reflexivity|]. cbn [percent_encode].
  destruct (uri_unreserved c) eqn:Hc.
  - cbn [forallb_str]. unfold enc_char at 1. now rewrite Hc, IH.
  - cbn [percent append forallb_str].
    destruct (hex_digit_enc c) as (-> & -> & _). now rewrite IH.
Qed.

Lemma pieces_of_encoded (s : string) (need : nat) (lo hi : Z) :
  need = 0%nat \/ 128 <= lo ->
  utf8_from need lo hi s = true ->
  exists ps,
    pieces_from 0 (encodeURIComponent s) = Some ps
    /\ decode_pieces need lo hi ps = Some s.
Proof.
  unfold encodeURIComponent. revert need lo hi.
  induction s as [|c r IH]; intros need lo hi Hlo Hu.
  - exists []. destruct need; [auto|discriminate].
  - cbn [percent_encode].
    destruct (hex_digits_value c) as (Hh & Hl & Hsum).
    assert (forall n l h, utf8_lead (code c) = Some (n, l, h) -> 128 <= l)
      as Hlead.
    { unfold utf8_lead. intros n l h.
      repeat match goal with
        | |- context [if ?b then _ else _] => destruct b
        end; intros [= <- <- <-]; lia. }
    destruct (uri_unreserved c) eqn:Hc.
    + destruct (unreserved_facts c Hc) as [Hp Hlt].
      cbn [pieces_from]. unfold is_percent in Hp. rewrite Hp.
      destruct need as [|k].
      * cbn [utf8_from] in Hu.
        destruct (Z.ltb_spec (code c) 128); [|lia].
        destruct (IH 0%nat 128 191 (or_introl eq_refl) Hu) as (ps & -> & Hd).
        exists (Raw c :: ps). cbn. now rewrite Hd.
      * cbn [utf8_from] in Hu. exfalso.
        apply andb_true_iff in Hu as [Hu _].
        apply andb_true_iff in Hu as [Hu _].
        apply Z.leb_le in Hu. lia.
    + cbn [percent append pieces_from].
      change (code "%" =? 37) with true. cbv iota.
      rewrite Hh, Hl, Hsum.
      destruct need as [|k]; cbn [utf8_from] in Hu.
      * destruct (code c <? 128) eqn:Hlt.
        -- destruct (IH 0%nat 128 191 (or_introl eq_refl) Hu)
             as (ps & -> & Hd).
           exists (Esc (code c) :: ps). cbn [decode_pieces].
           now rewrite Hlt, Hd, byte_code.
        -- destruct (utf8_lead (code c)) as [[[n l] h]|] eqn:Hle;
             [|discriminate].
           destruct (IH n l h (or_intror (Hlead _ _ _ eq_refl)) Hu)
             as (ps & -> & Hd).
           exists (Esc (code c) :: ps). cbn [decode_pieces].
           now rewrite Hlt, Hle, Hd, byte_code.
      * apply andb_true_iff in Hu as [Hrange Hu].
        destruct (IH k 128 191 (or_intror (Z.le_refl _)) Hu)
          as (ps & -> & Hd).
        exists (Esc (code c) :: ps). cbn [decode_pieces].
        now rewrite Hrange, Hd, byte_code.
Qed.

Lemma decode_encoded (s : string) :
  well_formed s = true ->
  decodeURIComponent (encodeURIComponent s) = Returned s.
Proof.
  intros H.
  destruct (pieces_of_encoded s 0 128 191 (or_introl eq_refl) H)
    as (ps & Hp & Hd).
  unfold decodeURIComponent. now rewrite Hp, Hd.
Qed.

(** ** The urlencoded form: decoding what was encoded *)

Lemma form_encode_chars (s : string) :
  forallb_str form_char (form_encode s) = true.
Proof.
  induction s as [|c r IH]; [reflexivity|]. cbn [form_encode].
  destruct (code c =? 32); [exact IH|].
  destruct (form_keep c) eqn:Hc.
  - cbn [forallb_str]. unfold form_char at 1. now rewrite Hc, IH.
  - cbn [percent append forallb_str].
    destruct (hex_digit_enc c) as (_ & _ & -> & ->). now rewrite IH.
Qed.

Lemma percent_decode_plain (c : ascii) (s : string) :
  (code c =? 37) = false ->
  percent_decode_from 0 (String c s)
  = String c (percent_decode_from 0 s).
Proof.
  intros H. cbn [percent_decode_from]. rewrite H.
  destruct s as [|h [|l r]]; try reflexivity.
  destruct (hex_value h), (hex_value l); reflexivity.
Qed.

Lemma percent_decode_encoded (s : string) :
  percent_decode_from 0 (map_str plus_to_space (form_encode s)) = s.
Proof.
  induction s as [|c r IH]; [reflexivity|]. cbn [form_encode].
  destruct (Z.eqb_spec (code c) 32) as [Hs|Hs].
  - cbn [map_str]. change (plus_to_space "+") with " "%char.
    rewrite percent_decode_plain by reflexivity.
    rewrite IH. f_equal. rewrite <- (byte_code c), Hs. reflexivity.
  - destruct (form_keep c) eqn:Hc.
    + destruct (form_keep_facts c Hc) as (Hp & Hplus & _).
      cbn [map_str]. unfold plus_to_space at 1. rewrite Hplus.
      unfold is_percent in Hp. rewrite percent_decode_plain by exact Hp.
      now rewrite IH.
    + cbn [percent append map_str].
      destruct (plus_to_space_hex c) as [-> ->].
      change (plus_to_space "%") with "%"%char.
      destruct (hex_digits_value c) as (Hh & Hl & Hsum).
      cbn [percent_decode_from]. rewrite Hh, Hl, Hsum, byte_code.
      change (code "%" =? 37) with true. cbv iota.
      now rewrite IH.
Qed.

Lemma utf8_lossy_well_formed (s : string) (need : nat) (lo hi : Z)
  (pending : string) :
  utf8_from need lo hi s = true ->
  utf8_lossy need lo hi pending s
  = match need with O => s | S _ => pending ++ s end.
Proof.
  revert need lo hi pending.
  induction s as [|c r IH]; intros need lo hi pending Hu.
  - destruct need; [reflexivity|discriminate].
  - cbn [utf8_lossy utf8_from] in *.
    destruct need as [|k].
    + destruct (code c <? 128).
      * now rewrite (IH _ _ _ _ Hu).
      * destruct (utf8_lead (code c)) as [[[n l] h]|] eqn:Hle;
          [|discriminate].
        rewrite (IH _ _ _ _ Hu).
        destruct n; [|reflexivity].
        unfold utf8_lead in Hle.
        repeat match type of Hle with
          | context [if ?b then _ else _] => destruct b
          end; discriminate.
    + apply andb_true_iff in Hu as [-> Hu].
      destruct k.
      * now rewrite (IH _ _ _ _ Hu).
      * rewrite (IH _ _ _ _ Hu). now rewrite append_assoc.
Qed.

Lemma form_decode_encoded (s : string) :
  well_formed s = true -> form_decode (form_encode s) = s.
Proof.
  intros H. unfold form_decode.
  rewrite percent_decode_encoded.
  now rewrite (utf8_lossy_well_formed s 0 128 191 "" H).
Qed.

(** ** Cutting strings *)

Lemma span_until_stop (stop : ascii -> bool) (a : string) (c : ascii)
  (b : string) :
  forallb_str (fun x => negb (stop x)) a = true ->
  stop c = true ->
  span_until stop (a ++ String c b) = (a, String c b).
Proof.
  intros Ha Hc. induction a as [|x r IH]; cbn [append span_until].
  - now rewrite Hc.
  - cbn [forallb_str] in Ha. apply andb_true_iff in Ha as [Hx Hr].
    apply negb_true_iff in Hx. now rewrite Hx, (IH Hr).
Qed.

Lemma span_until_none (stop : ascii -> bool) (a : string) :
  forallb_str (fun x => negb (stop x)) a = true ->
  span_until stop a = (a, EmptyString).
Proof.
  induction a as [|x r IH]; cbn [span_until forallb_str]; [reflexivity|].
  intros Ha. apply andb_true_iff in Ha as [Hx Hr].
  apply negb_true_iff in Hx. now rewrite Hx, (IH Hr).
Qed.

Lemma percent_encode_id (keep : ascii -> bool) (s : string) :
  forallb_str keep s = true -> percent_encode keep s = s.
Proof.
  induction s as [|c r IH]; cbn [percent_encode forallb_str]; [reflexivity|].
  intros H. apply andb_true_iff in H as [-> Hr]. now rewrite (IH Hr).
Qed.

Lemma includes_none (sep : ascii) (s : string) :
  forallb_str (fun c => negb (Ascii.eqb c sep)) s = true ->
  includes sep s = false.
Proof.
  unfold includes.
  induction s as [|c r IH]; cbn [existsb_str forallb_str]; [reflexivity|].
  intros H. apply andb_true_iff in H as [Hc Hr].
  apply negb_true_iff in Hc. now rewrite Ascii.eqb_sym, Hc, (IH Hr).
Qed.

Lemma strip_trailing_id (p : ascii -> bool) (s : string) :
  forallb_str (fun c => negb (p c)) s = true -> strip_trailing p s = s.
Proof.
  induction s as [|c r IH]; cbn [strip_trailing forallb_str]; [reflexivity|].
  intros H. apply andb_true_iff in H as [Hc Hr].
  apply negb_true_iff in Hc. rewrite (IH Hr), Hc. now destruct r.
Qed.

Lemma filter_str_id (p : ascii -> bool) (s : string) :
  forallb_str p s = true -> filter_str p s = s.
Proof.
  induction s as [|c r IH]; cbn [filter_str forallb_str]; [reflexivity|].
  intros H. apply andb_true_iff in H as [-> Hr]. now rewrite (IH Hr).
Qed.

Lemma visible_not_newline (c : ascii) :
  is_visible c = true -> negb (is_tab_or_newline c) = true.
Proof.
  revert c.
  by_cases_on_ascii
    (fun c => implb (is_visible c) (negb (is_tab_or_newline c))).
  intros E. now rewrite E in H.
Qed.

Lemma preprocess_id (s : string) :
  forallb_str is_visible s = true -> preprocess s = s.
Proof.
  intros H. unfold preprocess.
  assert (strip_leading is_c0_or_space s = s) as ->.
  { destruct s as [|c r]; [reflexivity|]. cbn [strip_leading forallb_str] in *.
    apply andb_true_iff in H as [Hc _]. unfold is_visible in Hc.
    apply negb_true_iff in Hc. now rewrite Hc. }
  rewrite strip_trailing_id by exact H.
  apply filter_str_id.
  revert H. apply forallb_str_impl. exact visible_not_newline.
Qed.

(** ** The urlencoded parser on a serialised list *)

Lemma query_char_facts (c : ascii) :
  query_char c = true ->
  is_visible c = true /\ query_keep c = true /\ (code c =? 35) = false.
Proof.
  revert c.
  by_cases_on_ascii
    (fun c => implb (query_char c)
                (is_visible c && query_keep c && negb (code c =? 35))).
  intros E. rewrite E in H. cbn [implb] in H.
  repeat (apply andb_true_iff in H as [H ?]).
  repeat match goal with
    | X : negb _ = true |- _ => apply negb_true_iff in X
    end.
  repeat apply conj; assumption.
Qed.

Lemma form_char_query (c : ascii) : form_char c = true -> query_char c = true.
Proof. unfold query_char. now intros ->. Qed.

Lemma serialize_form_chars (l : list (string * string)) :
  forallb_str query_char (serialize_form l) = true.
Proof.
  induction l as [|[n v] r IH]; [reflexivity|]. cbn [serialize_form].
  assert (forallb_str query_char
            (form_encode n ++ String "=" (form_encode v)) = true) as Hi.
  { rewrite forallb_str_append. cbn [forallb_str].
    rewrite !(forallb_str_impl _ _ _ form_char_query (form_encode_chars _)).
    reflexivity. }
  destruct r; [exact Hi|].
  rewrite forallb_str_append, Hi. cbn [forallb_str andb].
  exact IH.
Qed.

Lemma form_encode_no (sep : ascii) (s : string) :
  sep = "&"%char \/ sep = "="%char ->
  forallb_str (fun c => negb (Ascii.eqb c sep)) (form_encode s) = true.
Proof.
  intros Hsep. generalize (form_encode_chars s).
  apply forallb_str_impl. intros c Hc.
  destruct (form_char_facts c Hc) as (_ & _ & _ & _ & Hamp & Heq).
  destruct Hsep as [-> | ->]; [now rewrite Hamp|].
  destruct (Ascii.eqb_spec c "="); [subst c; discriminate Heq|reflexivity].
Qed.

Lemma parse_pair_item (n v : string) :
  well_formed n = true -> well_formed v = true ->
  parse_pair (form_encode n ++ String "=" (form_encode v)) = [(n, v)].
Proof.
  intros Hn Hv. unfold parse_pair.
  assert (truthy (form_encode n ++ String "=" (form_encode v)) = true) as ->
    by (destruct (form_encode n); reflexivity).
  rewrite span_until_stop; [| |reflexivity].
  - cbn [substring1]. now rewrite !form_decode_encoded.
  - generalize (form_encode_no "=" n (or_intror eq_refl)).
    apply forallb_str_impl. intros c Hc.
    destruct (Ascii.eqb_spec c "="); [discriminate|].
    destruct (Z.eqb_spec (code c) 61) as [E|]; [|reflexivity].
    exfalso. apply n0. rewrite <- (byte_code c), E. reflexivity.
Qed.

Lemma item_no_amp (n v : string) :
  includes "&" (form_encode n ++ String "=" (form_encode v)) = false.
Proof.
  apply includes_none. rewrite forallb_str_append. cbn [forallb_str].
  now rewrite !(form_encode_no "&" _ (or_introl eq_refl)).
Qed.

Lemma parse_form_serialized (l : list (string * string)) :
  Forall (fun nv => well_formed (fst nv) = true
                    /\ well_formed (snd nv) = true) l ->
  parse_form (serialize_form l) = l.
Proof.
  unfold parse_form.
  induction 1 as [|[n v] r [Hn Hv] _ IH]; [reflexivity|].
  cbn [fst snd] in *. cbn [serialize_form].
  destruct r as [|p r].
  - rewrite (split_from_no_sep _ _ _ (item_no_amp n v)).
    cbn [append flat_map]. rewrite (parse_pair_item n v Hn Hv). reflexivity.
  - rewrite (split_from_first _ _ _ _ (item_no_amp n v)).
    cbn [append flat_map]. rewrite (parse_pair_item n v Hn Hv), IH.
    reflexivity.
Qed.

(** ** The URL parser on a built URI *)

Lemma parse_url_otpauth_totp (t : string) :
  forallb_str is_visible t = true ->
  parse_url ("otpauth://totp/" ++ t)
  = let '(path, params) := parse_path t in
    Returned (mkURL "otpauth:" "totp" path params).
Proof.
  intros H. unfold parse_url.
  rewrite preprocess_id; [reflexivity|].
  rewrite forallb_str_append, H. reflexivity.
Qed.

Lemma parse_path_one_segment (enc query : string) :
  forallb_str enc_char enc = true ->
  forallb_str query_char query = true ->
  is_single_dot enc = false ->
  is_double_dot enc = false ->
  parse_path (enc ++ String "?" query)
  = (String "/" enc, parse_form query).
Proof.
  intros He Hq Hs Hd. unfold parse_path.
  rewrite span_until_stop; [| |reflexivity].
  2:{ revert He. apply forallb_str_impl. intros c Hc.
      destruct (enc_char_facts c Hc) as (_ & _ & _ & -> & _). reflexivity. }
  rewrite split_from_no_sep.
  2:{ apply includes_none. revert He. apply forallb_str_impl. intros c Hc.
      destruct (enc_char_facts c Hc) as (_ & _ & _ & _ & ->). reflexivity. }
  cbn [append path_segments].
  rewrite percent_encode_id.
  2:{ revert He. apply forallb_str_impl. intros c Hc.
      now destruct (enc_char_facts c Hc) as (_ & _ & -> & _). }
  rewrite Hs, Hd. cbn [app serialize_path fold_right].
  rewrite append_nil_r. f_equal.
  unfold parse_query. change (code "?" =? 63) with true. cbv iota.
  rewrite span_until_none.
  2:{ revert Hq. apply forallb_str_impl. intros c Hc.
      destruct (query_char_facts c Hc) as (_ & _ & ->). reflexivity. }
  cbn [fst]. rewrite percent_encode_id; [reflexivity|].
  revert Hq. apply forallb_str_impl. intros c Hc.
  now destruct (query_char_facts c Hc) as (_ & -> & _).
Qed.

Lemma enc_char_visible (c : ascii) : enc_char c = true -> is_visible c = true.
Proof.
  intros H. destruct (enc_char_facts c H) as (Hv & _).
  unfold is_visible. now rewrite Hv.
Qed.

Lemma query_char_visible (c : ascii) :
  query_char c = true -> is_visible c = true.
Proof. intros H. now destruct (query_char_facts c H). Qed.

(** A label other than [.] and [..] is not encoded as a dot segment. *)
Lemma encoded_label_no_dots (label : string) :
  well_formed label = true ->
  label <> "." -> label <> ".." ->
  is_single_dot (encodeURIComponent label) = false
  /\ is_double_dot (encodeURIComponent label) = false.
Proof.
  intros Hw H1 H2. pose proof (decode_encoded label Hw) as Hd.
  split.
  - destruct (is_single_dot _) eqn:E; [exfalso|reflexivity].
    unfold is_single_dot in E. apply existsb_exists in E as (x & Hin & Hx).
    apply String.eqb_eq in Hx. rewrite Hx in Hd. cbn [In] in Hin.
    repeat (destruct Hin as [<-|Hin];
            [vm_compute in Hd; injection Hd as <-; congruence|]).
    exact Hin.
  - destruct (is_double_dot _) eqn:E; [exfalso|reflexivity].
    unfold is_double_dot in E. apply existsb_exists in E as (x & Hin & Hx).
    apply String.eqb_eq in Hx. rewrite Hx in Hd. cbn [In] in Hin.
    repeat (destruct Hin as [<-|Hin];
            [vm_compute in Hd; injection Hd as <-; congruence|]).
    exact Hin.
Qed.

(** ** Well-formed text *)

Lemma utf8_from_append (a b : string) (need : nat) (lo hi : Z) :
  utf8_from need lo hi a = true ->
  utf8_from need lo hi (a ++ b) = well_formed b.
Proof.
  revert need lo hi. induction a as [|c r IH]; intros need lo hi H.
  - destruct need; [|discriminate]. now destruct b.
  - cbn [append utf8_from] in *. destruct need as [|k].
    + destruct (code c <? 128); [now apply IH|].
      destruct (utf8_lead (code c)) as [[[n l] h]|]; [now apply IH|].
      discriminate.
    + apply andb_true_iff in H as [-> H]. cbn [andb]. now apply IH.
Qed.

Lemma well_formed_append (a b : string) :
  well_formed a = true -> well_formed b = true ->
  well_formed (a ++ b) = true.
Proof.
  intros Ha Hb. unfold well_formed. now rewrite (utf8_from_append a b _ _ _ Ha).
Qed.

Lemma ascii_well_formed (s : string) :
  forallb_str (fun c => code c <? 128) s = true -> well_formed s = true.
Proof.
  unfold well_formed.
  induction s as [|c r IH]; cbn [forallb_str utf8_from]; [reflexivity|].
  intros H. apply andb_true_iff in H as [-> Hr]. exact (IH Hr).
Qed.

Lemma cleaned_well_formed (secret cleaned : string) :
  validateAndCleanSecret secret = Returned cleaned ->
  well_formed cleaned = true.
Proof.
  intros H. apply validateAndCleanSecret_returned in H as (_ & Ht & _).
  apply ascii_well_formed.
  generalize (test_base32_chars _ Ht). apply forallb_str_impl.
  intros c Hc. apply secret_char_code in Hc. apply Z.ltb_lt. lia.
Qed.

(** ** Numbers in the query *)

Lemma period_text (p : Z) :
  1 <= p <= 300 ->
  well_formed (toString p) = true /\ parseInt (toString p) = Num p.
Proof.
  intros H.
  assert (forallb
            (fun k => let p := Z.of_nat k in
               well_formed (toString p)
               && match parseInt (toString p) with
                  | Num z => z =? p
                  | NaN => false
                  end) (seq 1 300) = true) as Hall
    by (vm_compute; reflexivity).
  rewrite forallb_forall in Hall.
  assert (In (Z.to_nat p) (seq 1 300)) as Hin by (apply in_seq; lia).
  specialize (Hall _ Hin). cbv zeta in Hall.
  rewrite Z2Nat.id in Hall by lia.
  apply andb_true_iff in Hall as [Hw Hp].
  split; [exact Hw|].
  destruct (parseInt (toString p)); [discriminate|].
  apply Z.eqb_eq in Hp. now subst.
Qed.

(** ** From a built URI back to its parts *)

Lemma validateParsed_valid (r : QRCodeResult.t) :
  num_includes [6; 7; 8] (QRCodeResult.digits r) = true ->
  existsb (String.eqb (QRCodeResult.algorithm r))
    ["SHA1"; "SHA256"; "SHA512"] = true ->
  num_lt (QRCodeResult.period r) 1 || num_gt (QRCodeResult.period r) 300
  = false ->
  validateParsed r = r.
Proof.
  intros Hd Ha Hp. unfold validateParsed. cbv zeta.
  rewrite Hd. cbn [negb]. rewrite Ha. cbn [negb]. rewrite Hp. reflexivity.
Qed.

Lemma parseOTPAuthURL_of_totp_url (web : WebAPI) (uri : string) (u : URL)
  (secret pathLabel : string) :
  URL_new uri = Returned u ->
  protocol u = "otpauth:" ->
  hostname u = "totp" ->
  get (searchParams u) "secret" = Some secret ->
  validateSecret secret = true ->
  decodeURIComponent (substring1 (pathname u)) = Returned pathLabel ->
  parseOTPAuthURL uri
  = Returned
      (validateParsed
         (QRCodeResult.mk "totp" pathLabel secret
            (if truthy (fst (labelParts pathLabel
                               (str_or (get (searchParams u) "issuer") "")))
             then Some (fst (labelParts pathLabel
                               (str_or (get (searchParams u) "issuer") "")))
             else None)
            (str_or (option_map toUpperCase
                       (get (searchParams u) "algorithm")) "SHA1")
            (parseInt (str_or (get (searchParams u) "digits") "6"))
            (parseInt (str_or (get (searchParams u) "period") "30"))
            None)).
Proof.
  intros Hu Hp Hh Hs Hv Hd.
  unfold parseOTPAuthURL, parseOTPAuthURL_body.
  rewrite Hu. cbn [bindR]. rewrite Hp, Hh, Hs.
  change (toLowerCase "totp") with "totp".
  rewrite !String.eqb_refl. cbn [negb andb str_or].
  rewrite or_else_empty.
  assert (truthy secret = true) as ->
    by (destruct secret; [discriminate Hv|reflexivity]).
  rewrite Hv, Hd. cbn [negb bindR].
  destruct (labelParts pathLabel _) as [issuer accountName].
  reflexivity.
Qed.

Lemma labelParts_of_built (issuer accountName : string) :
  truthy issuer = true \/ includes ":" accountName = false ->
  fst (labelParts (label_of issuer accountName) issuer) = issuer.
Proof.
  unfold labelParts, label_of. intros H.
  destruct (truthy issuer) eqn:Ht.
  - change (":" ++ accountName) with (String ":" accountName).
    rewrite includes_colon_label. reflexivity.
  - destruct H as [H|H]; [discriminate|]. rewrite H. reflexivity.
Qed.

Lemma label_of_well_formed (issuer accountName : string) :
  well_formed issuer = true -> well_formed accountName = true ->
  well_formed (label_of issuer accountName) = true.
Proof.
  intros Hi Ha. unfold label_of. destruct (truthy issuer); [|exact Ha].
  apply well_formed_append; [exact Hi|].
  change (":" ++ accountName) with (String ":" accountName). exact Ha.
Qed.

Lemma label_of_no_dots (issuer accountName : string) :
  truthy issuer = true \/ (accountName <> "." /\ accountName <> "..") ->
  label_of issuer accountName <> "." /\ label_of issuer accountName <> "..".
Proof.
  unfold label_of. intros H. destruct (truthy issuer) eqn:Ht.
  - change (":" ++ accountName) with (String ":" accountName).
    pose proof (includes_colon_label issuer accountName) as Hc.
    split; intros E; rewrite E in Hc; discriminate Hc.
  - destruct H as [H|H]; [discriminate|exact H].
Qed.

(** C4, as amended.  For a valid secret, well-formed issuer and account
    name (with an empty issuer the account name holds no colon and is
    neither [.] nor [..]), an algorithm among SHA1, SHA256, SHA512, digits
    among 6, 7, 8 and a period within 1..300 (each given or defaulted),
    [createOTPAuthURL] returns a URI that [parseOTPAuthURL] accepts, and the
    descriptor holds: the secret cleaned (white space removed, upper case),
    the same algorithm, digits and period, the label [issuer:accountName]
    (the account name alone for an empty issuer) and the issuer. *)
Theorem provisioning_uri_round_trip (issuer accountName secret : string)
  (options : option TOTPOptions.t) (alg : string) (d p : Z) :
  validateSecret secret = true ->
  well_formed issuer = true ->
  well_formed accountName = true ->
  truthy issuer = true
  \/ (includes ":" accountName = false
      /\ accountName <> "." /\ accountName <> "..") ->
  str_or (field TOTPOptions.algorithm options) "SHA1" = alg ->
  In alg ["SHA1"; "SHA256"; "SHA512"] ->
  num_or (field TOTPOptions.digits options) 6 = d ->
  In d [6; 7; 8] ->
  num_or (field TOTPOptions.period options) 30 = p ->
  1 <= p <= 300 ->
  exists uri,
    createOTPAuthURL (web := whatwg) issuer accountName secret options
    = Returned uri
    /\ parseOTPAuthURL (web := whatwg) uri
       = Returned
           (QRCodeResult.mk "totp" (label_of issuer accountName)
              (toUpperCase (removeWhitespace secret))
              (if truthy issuer then Some issuer else None)
              alg (Num d) (Num p) None).
Proof.
  intros Hs Hwi Hwa Hnames Halg Hin_alg Hd Hin_d Hp Hrange.
  apply validateSecret_true in Hs as [cleaned Hc].
  pose proof (validateAndCleanSecret_returned _ _ Hc) as (Hcl & _ & _).
  pose proof (validateSecret_of_returned _ _
                (validateAndCleanSecret_idempotent _ _ Hc)) as Hvalid.
  pose proof (cleaned_well_formed _ _ Hc) as Hwc.
  destruct (period_text p Hrange) as [Hwp Hpp].
  unfold createOTPAuthURL. rewrite Hc. cbn [bindR].
  rewrite Halg, Hd, Hp. fold (label_of issuer accountName).
  cbn [URLSearchParams_toString whatwg].
  set (label := label_of issuer accountName).
  set (params := [("secret", cleaned); ("issuer", issuer);
                  ("algorithm", alg); ("digits", toString d);
                  ("period", toString p)]).
  eexists. split; [reflexivity|].
  change ("?" ++ serialize_form params)
    with (String "?" (serialize_form params)).
  destruct (encoded_label_no_dots label) as [Hsd Hdd].
  { now apply label_of_well_formed. }
  { apply label_of_no_dots. tauto. }
  { apply label_of_no_dots. tauto. }
  assert (parse_url ("otpauth://totp/" ++ encodeURIComponent label
                     ++ String "?" (serialize_form params))
          = Returned (mkURL "otpauth:" "totp"
                        (String "/" (encodeURIComponent label)) params))
    as Hurl.
  { rewrite parse_url_otpauth_totp.
    - rewrite parse_path_one_segment;
        [ | apply encodeURIComponent_chars | apply serialize_form_chars
          | exact Hsd | exact Hdd ].
      rewrite parse_form_serialized; [reflexivity|].
      assert (well_formed alg = true) as Hwalg.
      { cbn [In] in Hin_alg.
        destruct Hin_alg as [<-|[<-|[<-|[]]]]; reflexivity. }
      assert (well_formed (toString d) = true) as Hwd.
      { cbn [In] in Hin_d.
        destruct Hin_d as [<-|[<-|[<-|[]]]]; reflexivity. }
      repeat constructor; cbn [fst snd]; assumption.
    - rewrite forallb_str_append. cbn [forallb_str].
      rewrite (forallb_str_impl _ _ _ enc_char_visible
                 (encodeURIComponent_chars label)).
      rewrite (forallb_str_impl _ _ _ query_char_visible
                 (serialize_form_chars params)).
      reflexivity. }
  rewrite (parseOTPAuthURL_of_totp_url whatwg _ _ cleaned label Hurl);
    [ | reflexivity | reflexivity | reflexivity | exact Hvalid
      | cbn [pathname substring1]; apply decode_encoded;
        now apply label_of_well_formed ].
  cbn [searchParams].
  change (get params "issuer") with (Some issuer).
  change (get params "algorithm") with (Some alg).
  change (get params "digits") with (Some (toString d)).
  change (get params "period") with (Some (toString p)).
  cbn [str_or option_map]. rewrite or_else_empty.
  unfold label. rewrite labelParts_of_built by tauto.
  assert (or_else (toString p) "30" = toString p) as ->.
  { unfold or_else. destruct (toString p); [discriminate Hpp|reflexivity]. }
  rewrite Hpp.
  assert (or_else (toUpperCase alg) "SHA1" = alg
          /\ existsb (String.eqb alg) ["SHA1"; "SHA256"; "SHA512"] = true)
    as [-> Halg_ok].
  { cbn [In] in Hin_alg.
    destruct Hin_alg as [<-|[<-|[<-|[]]]]; split; reflexivity. }
  assert (parseInt (or_else (toString d) "6") = Num d
          /\ num_includes [6; 7; 8] (Num d) = true) as [-> Hd_ok].
  { cbn [In] in Hin_d.
    destruct Hin_d as [<-|[<-|[<-|[]]]]; split; reflexivity. }
  rewrite validateParsed_valid; cbn [QRCodeResult.digits
    QRCodeResult.algorithm QRCodeResult.period];
    [ now rewrite <- Hcl | exact Hd_ok | exact Halg_ok | ].
  unfold num_lt, num_gt.
  destruct (Z.ltb_spec p 1); [lia|]. destruct (Z.gtb_spec p 300); [lia|].
  reflexivity.
Qed.

Lemma provisioning_uri_round_trip_witness :
  exists uri,
    createOTPAuthURL (web := whatwg) "Example" "alice@google.com"
      "jbsw y3dp ehpk 3pxp"
      (Some (TOTPOptions.mk (Some "SHA256") (Some (Num 8)) (Some (Num 60))
               None))
    = Returned uri
    /\ parseOTPAuthURL (web := whatwg) uri
       = Returned
           (QRCodeResult.mk "totp" (label_of "Example" "alice@google.com")
              (toUpperCase (removeWhitespace "jbsw y3dp ehpk 3pxp"))
              (if truthy "Example" then Some "Example" else None)
              "SHA256" (Num 8) (Num 60) None).
Proof.
  apply (provisioning_uri_round_trip "Example" "alice@google.com"
           "jbsw y3dp ehpk 3pxp"
           (Some (TOTPOptions.mk (Some "SHA256") (Some (Num 8))
                    (Some (Num 60)) None))
           "SHA256" 8 60).
  - reflexivity.
  - reflexivity.
  - reflexivity.
  - left. reflexivity.
  - reflexivity.
  - simpl. tauto.
  - reflexivity.
  - simpl. lia.
  - reflexivity.
  - lia.
Defined.

(** The claim as stated fails: a secret given in lower case is valid, and
    comes back in upper case, not identical to the one given. *)
Lemma provisioning_uri_counterexample :
  validateSecret "jbswy3dpehpk3pxp" = true
  /\ createOTPAuthURL (web := whatwg) "Example" "alice" "jbswy3dpehpk3pxp"
       None
     = Returned
         "otpauth://totp/Example%3Aalice?secret=JBSWY3DPEHPK3PXP&issuer=Example&algorithm=SHA1&digits=6&period=30"
  /\ parseOTPAuthURL (web := whatwg)
       "otpauth://totp/Example%3Aalice?secret=JBSWY3DPEHPK3PXP&issuer=Example&algorithm=SHA1&digits=6&period=30"
     = Returned
         (QRCodeResult.mk "totp" "Example:alice" "JBSWY3DPEHPK3PXP"
            (Some "Example") "SHA1" (Num 6) (Num 30) None)
  /\ "JBSWY3DPEHPK3PXP" <> "jbswy3dpehpk3pxp".
Proof. repeat apply conj; first [vm_compute; reflexivity | discriminate]. Qed.

(* ================================================================== *)
(** * Properties of the rest of the service and of its callers *)
(* ================================================================== *)

(** ** Decimal numerals *)

Lemma decimal_rev_value (fuel : nat) :
  forall n, 0 <= n < 2 ^ Z.of_nat fuel ->
  fold_right (fun d acc => 10 * acc + d) 0 (decimal_rev fuel n) = n.
Proof.
  induction fuel as [|f IH]; intros n Hn.
  - cbn in Hn |- *. lia.
  - cbn [decimal_rev]. destruct (Z.ltb_spec n 10) as [Hlt|Hge].
    + cbn [fold_right]. lia.
    + cbn [fold_right]. rewrite IH.
      * pose proof (Z.div_mod n 10 ltac:(lia)). lia.
      * split; [apply Z.div_pos; lia|].
        apply Z.div_lt_upper_bound; [lia|].
        rewrite Nat2Z.inj_succ, Z.pow_succ_r in Hn by lia. lia.
Qed.

Lemma decimal_rev_nonempty (fuel : nat) (n : Z) :
  decimal_rev (S fuel) n <> [].
Proof. cbn [decimal_rev]. destruct (n <? 10); discriminate. Qed.

Lemma decimal_fuel (n : Z) :
  0 <= n -> n < 2 ^ Z.of_nat (S (Z.to_nat (Z.log2 n))).
Proof.
  intros Hn. rewrite Nat2Z.inj_succ, Z2Nat.id by apply Z.log2_nonneg.
  destruct (Z.eq_dec n 0) as [->|Hne]; [reflexivity|].
  apply Z.log2_spec. lia.
Qed.

Lemma digit_char_code (d : Z) :
  0 <= d <= 9 -> code (digit_char d) = 48 + d.
Proof.
  intros H.
  assert (d = 0 \/ d = 1 \/ d = 2 \/ d = 3 \/ d = 4 \/ d = 5 \/ d = 6
          \/ d = 7 \/ d = 8 \/ d = 9) as Hd by lia.
  repeat (destruct Hd as [->|Hd]; [reflexivity|]). subst. reflexivity.
Qed.

Lemma digits_value_digits (l : list Z) :
  Forall (fun d => 0 <= d <= 9) l ->
  forall acc,
    digits_value acc (string_of_digits l)
    = match l with
      | [] => acc
      | _ => Some (fold_left (fun a d => 10 * a + d) l
                     match acc with Some a => a | None => 0 end)
      end.
Proof.
  induction 1 as [|d l Hd Hl IH]; intros acc; [reflexivity|].
  cbn [string_of_digits fold_right digits_value].
  rewrite (digit_char_is_digit d Hd), digit_char_code by exact Hd.
  fold (string_of_digits l). rewrite IH. cbn [fold_left].
  replace (48 + d - 48) with d by lia.
  destruct l; reflexivity.
Qed.

Lemma decimal_first (n : Z) :
  0 <= n ->
  exists c r, decimal n = String c r /\ is_digit c = true
    /\ forallb_str is_digit (decimal n) = true.
Proof.
  intros Hn. pose proof (decimal_is_digit n Hn) as Hall.
  unfold decimal in *.
  pose proof (decimal_rev_nonempty (Z.to_nat (Z.log2 n)) n) as Hne.
  destruct (rev (decimal_rev (S (Z.to_nat (Z.log2 n))) n)) as [|d l] eqn:Hr.
  - apply (f_equal (@rev Z)) in Hr. rewrite rev_involutive in Hr.
    exfalso. exact (Hne Hr).
  - cbn [string_of_digits fold_right] in *.
    do 2 eexists. split; [reflexivity|]. split; [|exact Hall].
    cbn [forallb_str] in Hall. now apply andb_true_iff in Hall.
Qed.

Lemma digits_value_decimal (n : Z) :
  0 <= n -> digits_value None (decimal n) = Some n.
Proof.
  intros Hn. unfold decimal.
  set (l := decimal_rev (S (Z.to_nat (Z.log2 n))) n).
  assert (Forall (fun d => 0 <= d <= 9) (rev l)) as Hd.
  { apply Forall_rev. apply decimal_rev_digits. exact Hn. }
  rewrite (digits_value_digits _ Hd None).
  destruct (rev l) eqn:Hr.
  - apply (f_equal (@rev Z)) in Hr. rewrite rev_involutive in Hr.
    exfalso. exact (decimal_rev_nonempty _ _ Hr).
  - rewrite <- Hr. f_equal.
    rewrite <- fold_left_rev_right, rev_involutive.
    apply decimal_rev_value. split; [exact Hn | apply decimal_fuel, Hn].
Qed.

Lemma digit_not_ws (c : ascii) (r : string) :
  is_digit c = true ->
  trim_start_from 0 (String c r) = String c r
  /\ (code c =? 45) = false /\ (code c =? 43) = false /\ code c < 128.
Proof.
  intros H. unfold is_digit, between in H.
  apply andb_true_iff in H as [H1 H2].
  apply Z.leb_le in H1. apply Z.leb_le in H2.
  cbn [trim_start_from]. rewrite ws_len_plain by lia.
  repeat apply conj; [reflexivity | lia | lia | lia].
Qed.

(** [parseInt] reads back what [toString] prints. *)
Lemma parseInt_toString (n : Z) : parseInt (toString n) = Num n.
Proof.
  unfold toString. destruct (Z.ltb_spec n 0) as [Hneg|Hpos].
  - unfold parseInt. cbn [trim_start_from].
    rewrite ws_len_plain by (cbn; lia).
    change (code "-" =? 45) with true. cbv iota.
    rewrite digits_value_decimal by lia. f_equal. lia.
  - destruct (decimal_first n Hpos) as (c & r & Heq & Hc & _).
    pose proof (digits_value_decimal n Hpos) as Hv.
    rewrite Heq in *. unfold parseInt.
    destruct (digit_not_ws c r Hc) as (-> & -> & -> & _).
    rewrite Hv. f_equal. lia.
Qed.

Lemma toString_inj (a b : Z) : toString a = toString b -> a = b.
Proof.
  intros H. pose proof (parseInt_toString a) as Ha.
  rewrite H, parseInt_toString in Ha. now injection Ha.
Qed.

Lemma toString_ascii (n : Z) :
  forallb_str (fun c => code c <? 128) (toString n) = true
  /\ truthy (toString n) = true.
Proof.
  assert (forall m, 0 <= m ->
            forallb_str (fun c => code c <? 128) (decimal m) = true) as Hd.
  { intros m Hm.
    apply (forallb_str_impl is_digit); [|now apply decimal_is_digit].
    intros c Hc. unfold is_digit, between in Hc.
    apply andb_true_iff in Hc as [_ Hc]. apply Z.leb_le in Hc.
    apply Z.ltb_lt. lia. }
  unfold toString. destruct (Z.ltb_spec n 0).
  - cbn [forallb_str truthy]. rewrite Hd by lia. split; reflexivity.
  - split; [apply Hd; lia|].
    destruct (decimal_first n) as (c & r & -> & _); [lia|reflexivity].
Qed.

Lemma toString_well_formed (n : Z) : well_formed (toString n) = true.
Proof. apply ascii_well_formed, toString_ascii. Qed.

(** ** The time slot and the time left in it *)

Lemma seconds_slot (ms period : Z) :
  0 < period -> ms / (1000 * period) = ms / 1000 / period.
Proof. intros H. rewrite Z.div_div by lia. reflexivity. Qed.

Lemma slot_after (period n k : Z) :
  0 < period -> 0 <= k ->
  ((n + k) / period = n / period <-> k < (n / period + 1) * period - n)
  /\ (k = (n / period + 1) * period - n ->
      (n + k) / period = n / period + 1).
Proof.
  intros Hp Hk.
  pose proof (Z.div_mod n period ltac:(lia)) as Hdm.
  pose proof (Z.mod_pos_bound n period Hp) as Hb.
  split; [split|].
  - intros H.
    pose proof (Z.div_mod (n + k) period ltac:(lia)) as Hdm'.
    pose proof (Z.mod_pos_bound (n + k) period Hp) as Hb'.
    rewrite H in Hdm'. lia.
  - intros H. symmetry.
    apply (Z.div_unique (n + k) period (n / period) (n mod period + k)); lia.
  - intros ->. symmetry.
    apply (Z.div_unique _ period (n / period + 1) 0); lia.
Qed.

Lemma seconds_after (ms k : Z) : (ms + 1000 * k) / 1000 = ms / 1000 + k.
Proof. rewrite Z.mul_comm, Z.div_add by lia. reflexivity. Qed.

(** X3.  [getTimeRemaining], for a positive period: the result lies between 1
    and the period (a full period, never 0, on a boundary), it is the period
    less the seconds gone in the slot, and that many seconds from now a slot
    starts. *)
Theorem getTimeRemaining_range (period : Z) (w : World) :
  0 < period ->
  exists r,
    getTimeRemaining period w = (Returned r, w)
    /\ 1 <= r <= period
    /\ r = period - (Date_now w / 1000) mod period
    /\ (Date_now w / 1000 + r) mod period = 0
    /\ ((Date_now w / 1000) mod period = 0 -> r = period).
Proof.
  intros Hp. unfold getTimeRemaining. cbv zeta.
  set (n := Date_now w / 1000).
  eexists. split; [reflexivity|].
  pose proof (Z.div_mod n period ltac:(lia)) as Hdm.
  pose proof (Z.mod_pos_bound n period Hp) as Hb.
  assert ((n / period + 1) * period - n = period - n mod period) as Heq by lia.
  rewrite Heq.
  repeat apply conj; try lia.
  replace (n + (period - n mod period)) with ((n / period + 1) * period)
    by lia.
  apply Z.mod_mul. lia.
Qed.

Lemma getTimeRemaining_range_witness :
  exists r,
    getTimeRemaining 30 (at_time 59 (mkOptions 6 30 sha1 1))
    = (Returned r, at_time 59 (mkOptions 6 30 sha1 1))
    /\ 1 <= r <= 30
    /\ r = 30 - (Date_now (at_time 59 (mkOptions 6 30 sha1 1)) / 1000) mod 30
    /\ (Date_now (at_time 59 (mkOptions 6 30 sha1 1)) / 1000 + r) mod 30 = 0
    /\ ((Date_now (at_time 59 (mkOptions 6 30 sha1 1)) / 1000) mod 30 = 0
        -> r = 30).
Proof. apply (getTimeRemaining_range 30); lia. Defined.

(** X4.  [getCurrentTimeSlot] and [getTimeRemaining] agree: for a positive
    period, [k >= 0] seconds later the slot is still the current one exactly
    when [k] is less than the time remaining, and after exactly the time
    remaining it is the next one. *)
Theorem slot_lasts_time_remaining (period k : Z) (w w' : World) :
  0 < period -> 0 <= k ->
  Date_now w' = Date_now w + 1000 * k ->
  exists slot r,
    fst (getCurrentTimeSlot period w) = Returned slot
    /\ fst (getTimeRemaining period w) = Returned r
    /\ slot = Date_now w / 1000 / period
    /\ (fst (getCurrentTimeSlot period w') = Returned slot <-> k < r)
    /\ (k = r -> fst (getCurrentTimeSlot period w') = Returned (slot + 1)).
Proof.
  intros Hp Hk Hw'.
  unfold getCurrentTimeSlot, getTimeRemaining. cbn [fst]. cbv zeta.
  rewrite Hw', !seconds_slot, seconds_after by exact Hp.
  set (n := Date_now w / 1000).
  do 2 eexists. split; [reflexivity|]. split; [reflexivity|].
  split; [reflexivity|].
  destruct (slot_after period n k Hp Hk) as [Hiff Hnext].
  split; [split|].
  - intros H. injection H as H. now apply Hiff.
  - intros H. f_equal. now apply Hiff.
  - intros H. f_equal. now apply Hnext.
Qed.

Lemma slot_lasts_time_remaining_witness :
  exists slot r,
    fst (getCurrentTimeSlot 30 (at_time 59 (mkOptions 6 30 sha1 1)))
    = Returned slot
    /\ fst (getTimeRemaining 30 (at_time 59 (mkOptions 6 30 sha1 1)))
       = Returned r
    /\ slot = Date_now (at_time 59 (mkOptions 6 30 sha1 1)) / 1000 / 30
    /\ (fst (getCurrentTimeSlot 30 (at_time 60 (mkOptions 6 30 sha1 1)))
        = Returned slot <-> 1 < r)
    /\ (1 = r ->
        fst (getCurrentTimeSlot 30 (at_time 60 (mkOptions 6 30 sha1 1)))
        = Returned (slot + 1)).
Proof.
  apply (slot_lasts_time_remaining 30 1); [lia | lia | reflexivity].
Defined.

(** ** [validateSecret] *)

(** X1.  [validateSecret] answers [true] exactly when the cleaned text matches
    the Base32 pattern and keeps 8 characters without its padding: the tests
    for an empty secret and for [cleaned.length > 0] never decide.  A secret
    that is accepted is accepted in its cleaned form too, which cleaning
    leaves as it is. *)
Theorem validateSecret_decides (secret : string) :
  validateSecret secret
  = test_base32 (toUpperCase (removeWhitespace secret))
    && (8 <=? len (strip_padding (toUpperCase (removeWhitespace secret))))
  /\ (validateSecret secret = true ->
      validateAndCleanSecret secret
      = Returned (toUpperCase (removeWhitespace secret))
      /\ validateSecret (toUpperCase (removeWhitespace secret)) = true
      /\ validateAndCleanSecret (toUpperCase (removeWhitespace secret))
         = Returned (toUpperCase (removeWhitespace secret))).
Proof.
  split.
  - unfold validateSecret, validateAndCleanSecret.
    destruct secret as [|c r]; [reflexivity|].
    cbn [truthy negb].
    set (cleaned := toUpperCase (removeWhitespace (String c r))).
    destruct (test_base32 cleaned) eqn:Ht; cbn [negb andb]; [|reflexivity].
    rewrite Z.ltb_antisym.
    destruct (8 <=? len (strip_padding cleaned)); cbn [negb]; [|reflexivity].
    apply test_base32_nonempty in Ht.
    destruct cleaned; [congruence|]. unfold len. cbn [String.length].
    apply Z.gtb_lt. lia.
  - intros H. apply validateSecret_true in H as [cleaned Hc].
    pose proof (validateAndCleanSecret_returned _ _ Hc) as (-> & _ & _).
    pose proof (validateAndCleanSecret_idempotent _ _ Hc) as Hi.
    repeat apply conj; [exact Hc | | exact Hi].
    exact (validateSecret_of_returned _ _ Hi).
Qed.

(** ** [generateTOTP] with any library behind [totp] *)

Lemma generateTOTP_refused (lib : Totp) (secret : string)
  (options : option TOTPOptions.t) (w : World) (e : Exception) :
  validateAndCleanSecret secret = Thrown e ->
  generateTOTP secret options w
  = (Thrown (JsError ("Failed to generate TOTP: " ++ message_of e)), w).
Proof.
  intros H. unfold generateTOTP, try_catch, bind, lift, throw.
  rewrite H. reflexivity.
Qed.

Lemma generateTOTP_cleaned (lib : Totp) (secret cleaned : string)
  (options : option TOTPOptions.t) (w : World) :
  validateAndCleanSecret secret = Returned cleaned ->
  generateTOTP secret options w
  = match generate cleaned (mkWorld (Date_now w) (totpOptions options)) with
    | (Returned code, w') => (Returned code, w')
    | (Thrown e, w') =>
        (Thrown (JsError ("Failed to generate TOTP: " ++ message_of e)), w')
    end.
Proof.
  intros H.
  unfold generateTOTP, try_catch, bind, lift, throw, set_options, ret.
  rewrite H.
  destruct (generate cleaned _) as [[code|e] w']; reflexivity.
Qed.

(** X2.  [generateTOTP], whatever the library does: a refused secret makes it
    throw before the library or its options are touched; otherwise the library
    is called once, on the cleaned secret, with the options of this call;
    every failure is an [Error] whose message starts with 'Failed to generate
    TOTP: '; and the options a previous call left in [totp.options] have no
    part in the result. *)
Theorem generateTOTP_outcomes (lib : Totp) (secret : string)
  (options : option TOTPOptions.t) (w : World) :
  (forall e, validateAndCleanSecret secret = Thrown e ->
     generateTOTP secret options w
     = (Thrown (JsError ("Failed to generate TOTP: " ++ message_of e)), w))
  /\ (forall cleaned, validateAndCleanSecret secret = Returned cleaned ->
        generateTOTP secret options w
        = match generate cleaned
                  (mkWorld (Date_now w) (totpOptions options)) with
          | (Returned code, w') => (Returned code, w')
          | (Thrown e, w') =>
              (Thrown
                 (JsError ("Failed to generate TOTP: " ++ message_of e)), w')
          end)
  /\ (forall e w', generateTOTP secret options w = (Thrown e, w') ->
        exists m, e = JsError ("Failed to generate TOTP: " ++ m))
  /\ (forall o,
        fst (generateTOTP secret options (mkWorld (Date_now w) o))
        = fst (generateTOTP secret options w)).
Proof.
  repeat apply conj.
  - intros e H. exact (generateTOTP_refused lib _ _ _ _ H).
  - intros cleaned H. exact (generateTOTP_cleaned lib _ _ _ _ H).
  - intros e w' H.
    destruct (validateAndCleanSecret secret) as [cleaned|e0] eqn:Hs.
    + rewrite (generateTOTP_cleaned lib _ _ _ _ Hs) in H.
      destruct (generate cleaned _) as [[code|e1] w1]; [discriminate|].
      injection H as <- _. eexists. reflexivity.
    + rewrite (generateTOTP_refused lib _ _ _ _ Hs) in H.
      injection H as <- _. eexists. reflexivity.
  - intros o.
    destruct (validateAndCleanSecret secret) as [cleaned|e0] eqn:Hs.
    + rewrite !(generateTOTP_cleaned lib _ _ _ _ Hs). reflexivity.
    + rewrite !(generateTOTP_refused lib _ _ _ _ Hs). reflexivity.
Qed.

(** ** [generateTOTPRange] *)

Lemma generateTOTPRange_body_eq (lib : Totp) (secret : string)
  (options : option TOTPOptions.t) (period current : Z)
  (results : list TOTPRange.t) (i : Z) (w : World) :
  generateTOTPRange_body secret options period current results i w
  = match generateTOTP secret options
            (mkWorld ((current + i) * period * 1000) (totp_options w)) with
    | (Returned code, w') =>
        (Returned (results ++ [range_item period (current + i) code])%list,
         mkWorld (Date_now w) (totp_options w'))
    | (Thrown e, w') => (Thrown e, mkWorld (Date_now w) (totp_options w'))
    end.
Proof.
  unfold generateTOTPRange_body, bind, now, set_Date_now, try_finally, ret.
  cbn [Date_now totp_options].
  destruct (generateTOTP secret options _) as [[code|e] w']; reflexivity.
Qed.

Lemma generateTOTPRange_loop_clock (lib : Totp) (secret : string)
  (options : option TOTPOptions.t) (period current : Z) (indices : list Z) :
  forall results w,
    Date_now (snd (generateTOTPRange_loop secret options period current
                     indices results w)) = Date_now w.
Proof.
  induction indices as [|i rest IH]; intros results w; [reflexivity|].
  cbn [generateTOTPRange_loop]. unfold bind.
  rewrite generateTOTPRange_body_eq.
  destruct (generateTOTP secret options _) as [[code|e] w'];
    [rewrite IH|]; reflexivity.
Qed.

Lemma generateTOTPRange_loop_items (lib : Totp) (secret : string)
  (options : option TOTPOptions.t) (period current : Z) (indices : list Z) :
  forall results w rs w',
    generateTOTPRange_loop secret options period current indices results w
    = (Returned rs, w') ->
    exists codes,
      List.length codes = List.length indices
      /\ rs = (results
               ++ map (fun ic => range_item period (current + fst ic) (snd ic))
                    (combine indices codes))%list.
Proof.
  induction indices as [|i rest IH]; intros results w rs w' H.
  - injection H as <- _. exists []. split; [reflexivity|].
    cbn [combine map]. now rewrite app_nil_r.
  - cbn [generateTOTPRange_loop] in H. unfold bind in H.
    rewrite generateTOTPRange_body_eq in H.
    destruct (generateTOTP secret options _) as [[code|e] w1];
      [|discriminate].
    apply IH in H as (codes & Hlen & ->).
    exists (code :: codes). split; [cbn [List.length]; now rewrite Hlen|].
    cbn [combine map fst snd]. now rewrite <- app_assoc.
Qed.

Lemma range_indices_length (periods : Z) :
  List.length (range_indices periods) = Z.to_nat (2 * (periods / 2) + 1).
Proof.
  unfold range_indices. cbv zeta. rewrite length_map, length_seq.
  f_equal. lia.
Qed.

Lemma range_indices_nth (periods : Z) (k : nat) :
  (k < Z.to_nat (2 * (periods / 2) + 1))%nat ->
  nth_error (range_indices periods) k = Some (Z.of_nat k - periods / 2).
Proof.
  intros H. unfold range_indices. cbv zeta.
  rewrite nth_error_map, nth_error_seq.
  replace (periods / 2 - - (periods / 2) + 1) with (2 * (periods / 2) + 1)
    by lia.
  destruct (Nat.ltb_spec k (Z.to_nat (2 * (periods / 2) + 1))); [|lia].
  cbn [option_map]. f_equal. lia.
Qed.

(** X7.  [generateTOTPRange] leaves the clock as it found it, whatever the
    library does and whether a code could be generated or not: the replacement
    of [Date.now] is undone on every path. *)
Theorem generateTOTPRange_restores_clock (lib : Totp) (secret : string)
  (periods : Z) (options : option TOTPOptions.t) (w : World) :
  Date_now (snd (generateTOTPRange secret periods options w)) = Date_now w.
Proof.
  unfold generateTOTPRange, bind, getCurrentTimeSlot. cbv zeta.
  apply generateTOTPRange_loop_clock.
Qed.

Lemma combine_nth_error_fst {A B} (l : list A) (l' : list B) (k : nat)
  (a : A) (b : B) :
  nth_error (combine l l') k = Some (a, b) -> nth_error l k = Some a.
Proof.
  revert k l'. induction l as [|x l IH]; intros k l' H.
  - destruct k; discriminate.
  - destruct l' as [|c cs]; [destruct k; discriminate|].
    destruct k as [|k]; cbn in H |- *.
    + now injection H as -> _.
    + exact (IH _ _ H).
Qed.

Lemma generateTOTPRange_returned (lib : Totp) (secret : string)
  (periods : Z) (options : option TOTPOptions.t) (w w' : World)
  (results : list TOTPRange.t) :
  generateTOTPRange secret periods options w = (Returned results, w') ->
  List.length results = Z.to_nat (2 * (periods / 2) + 1)
  /\ (forall k item, nth_error results k = Some item ->
        exists code,
          item = range_item (num_or (field TOTPOptions.period options) 30)
                   (Date_now w
                    / (1000 * num_or (field TOTPOptions.period options) 30)
                    - periods / 2 + Z.of_nat k) code).
Proof.
  intros H.
  unfold generateTOTPRange, bind, getCurrentTimeSlot in H. cbv zeta in H.
  set (period := num_or (field TOTPOptions.period options) 30) in *.
  set (current := Date_now w / (1000 * period)) in *.
  apply generateTOTPRange_loop_items in H as (codes & Hlen & ->).
  cbn [app]. split.
  - rewrite length_map, length_combine, Hlen, Nat.min_id.
    apply range_indices_length.
  - intros k item Hk. rewrite nth_error_map in Hk.
    destruct (nth_error (combine _ _) k) as [[i code]|] eqn:Hc;
      [|discriminate].
    injection Hk as <-. exists code. cbn [fst snd].
    pose proof (nth_error_Some (combine (range_indices periods) codes) k)
      as Hsome.
    rewrite Hc in Hsome.
    assert (k < List.length (combine (range_indices periods) codes))%nat
      as Hlt by (apply Hsome; discriminate).
    rewrite length_combine, Hlen, Nat.min_id, range_indices_length in Hlt.
    pose proof (range_indices_nth periods k Hlt) as Hi.
    rewrite (combine_nth_error_fst _ _ _ _ _ Hc) in Hi.
    injection Hi as ->. f_equal. lia.
Qed.

(** X8.  What [generateTOTPRange] returns, whatever the library: with
    [h = floor(periods / 2)], the [2h + 1] consecutive slots from [h] before
    the current one to [h] after it, in order (an even [periods] gives one
    item more than asked, [periods = 0] gives the current slot, a negative one
    gives nothing); each item is valid from the start of its slot for one
    period, so that it ends where the next begins. *)
Theorem generateTOTPRange_slots (lib : Totp) (secret : string)
  (periods : Z) (options : option TOTPOptions.t) (w w' : World)
  (results : list TOTPRange.t) :
  generateTOTPRange secret periods options w = (Returned results, w') ->
  let period := num_or (field TOTPOptions.period options) 30 in
  let current := Date_now w / (1000 * period) in
  List.length results = Z.to_nat (2 * (periods / 2) + 1)
  /\ (forall k item, nth_error results k = Some item ->
        TOTPRange.timeSlot item = current - periods / 2 + Z.of_nat k
        /\ TOTPRange.validFrom item = TOTPRange.timeSlot item * period * 1000
        /\ TOTPRange.validTo item = TOTPRange.validFrom item + period * 1000
        /\ (forall next, nth_error results (S k) = Some next ->
              TOTPRange.timeSlot next = TOTPRange.timeSlot item + 1
              /\ TOTPRange.validFrom next = TOTPRange.validTo item)).
Proof.
  intros H period current.
  apply generateTOTPRange_returned in H as [Hlen Hnth].
  fold period in Hnth. fold current in Hnth.
  split; [exact Hlen|].
  intros k item Hk. destruct (Hnth _ _ Hk) as [code ->].
  unfold range_item. cbn [TOTPRange.timeSlot TOTPRange.validFrom
                            TOTPRange.validTo].
  repeat apply conj; [reflexivity | reflexivity | lia |].
  intros next Hn. destruct (Hnth _ _ Hn) as [code' ->].
  unfold range_item. cbn [TOTPRange.timeSlot TOTPRange.validFrom].
  split; lia.
Qed.

Lemma generateTOTPRange_slots_witness :
  let period := num_or (field TOTPOptions.period None) 30 in
  let current :=
    Date_now (at_time 59 (mkOptions 8 60 sha512 0)) / (1000 * period) in
  List.length
    [TOTPRange.mk "312805" 0 0 30000; TOTPRange.mk "372946" 1 30000 60000;
     TOTPRange.mk "368021" 2 60000 90000]
  = Z.to_nat (2 * (3 / 2) + 1)
  /\ (forall k item,
        nth_error
          [TOTPRange.mk "312805" 0 0 30000;
           TOTPRange.mk "372946" 1 30000 60000;
           TOTPRange.mk "368021" 2 60000 90000] k = Some item ->
        TOTPRange.timeSlot item = current - 3 / 2 + Z.of_nat k
        /\ TOTPRange.validFrom item = TOTPRange.timeSlot item * period * 1000
        /\ TOTPRange.validTo item = TOTPRange.validFrom item + period * 1000
        /\ (forall next,
              nth_error
                [TOTPRange.mk "312805" 0 0 30000;
                 TOTPRange.mk "372946" 1 30000 60000;
                 TOTPRange.mk "368021" 2 60000 90000] (S k) = Some next ->
              TOTPRange.timeSlot next = TOTPRange.timeSlot item + 1
              /\ TOTPRange.validFrom next = TOTPRange.validTo item)).
Proof.
  apply (generateTOTPRange_slots OtplibModel.model seed_sha1 3 None
           (at_time 59 (mkOptions 8 60 sha512 0))
           (at_time 59 (mkOptions 6 30 sha1 1))).
  vm_compute. reflexivity.
Defined.

(** X9.  A refused secret: [generateTOTPRange] throws the error of the first
    [generateTOTP], with the clock back in place and the options of [totp]
    untouched, when [periods] is not negative; for a negative [periods] the
    loop is not entered and the empty array is returned, the secret unseen. *)
Theorem generateTOTPRange_refused (lib : Totp) (secret : string)
  (periods : Z) (options : option TOTPOptions.t) (w : World)
  (e : Exception) :
  validateAndCleanSecret secret = Thrown e ->
  (0 <= periods ->
   generateTOTPRange secret periods options w
   = (Thrown (JsError ("Failed to generate TOTP: " ++ message_of e)), w))
  /\ (periods < 0 ->
      generateTOTPRange secret periods options w = (Returned [], w)).
Proof.
  intros He.
  unfold generateTOTPRange, bind, getCurrentTimeSlot. cbv zeta.
  unfold range_indices. cbv zeta.
  split; intros Hp.
  - assert (0 <= periods / 2) as Hh by (apply Z.div_pos; lia).
    destruct (Z.to_nat (periods / 2 - - (periods / 2) + 1)) as [|n] eqn:Hn;
      [lia|].
    cbn [seq map generateTOTPRange_loop]. unfold bind.
    rewrite generateTOTPRange_body_eq.
    rewrite (generateTOTP_refused lib _ _ _ _ He).
    cbn [totp_options]. now destruct w.
  - assert (periods / 2 < 0) as Hh by (apply Z.div_lt_upper_bound; lia).
    replace (Z.to_nat (periods / 2 - - (periods / 2) + 1)) with 0%nat by lia.
    reflexivity.
Qed.

Lemma generateTOTPRange_refused_witness :
  (0 <= 3 ->
   generateTOTPRange (lib := OtplibModel.model) "AAAA" 3 None
     (at_time 59 (mkOptions 6 30 sha1 1))
   = (Thrown (JsError ("Failed to generate TOTP: "
                       ++ message_of
                            (JsError "Secret is too short (minimum 8 characters without padding)"))),
      at_time 59 (mkOptions 6 30 sha1 1)))
  /\ (3 < 0 ->
      generateTOTPRange (lib := OtplibModel.model) "AAAA" 3 None
        (at_time 59 (mkOptions 6 30 sha1 1))
      = (Returned [], at_time 59 (mkOptions 6 30 sha1 1))).
Proof.
  apply (generateTOTPRange_refused OtplibModel.model "AAAA" 3 None).
  reflexivity.
Defined.

Lemma num_or_nonzero (o : option Number) (d : Z) :
  d <> 0 -> num_or o d <> 0.
Proof.
  intros Hd. unfold num_or. destruct o as [[|z]|]; try exact Hd.
  destruct (Z.eqb_spec z 0); assumption.
Qed.

Lemma generateTOTP_model_at (secret cleaned : string)
  (options : option TOTPOptions.t) (w : World) :
  validateAndCleanSecret secret = Returned cleaned ->
  exists code,
    OtplibModel.code_at cleaned (totpOptions options)
      (Date_now w / 1000 / step (totpOptions options)) = Returned code
    /\ generateTOTP (lib := OtplibModel.model) secret options w
       = (Returned code, mkWorld (Date_now w) (totpOptions options)).
Proof.
  intros Hc.
  destruct (code_at_cleaned _ _ (totpOptions options)
              (Date_now w / 1000 / step (totpOptions options)) Hc)
    as [mac Hmac].
  eexists. split; [exact Hmac|].
  rewrite (generateTOTP_cleaned OtplibModel.model _ _ _ _ Hc).
  cbn [generate OtplibModel.model]. unfold OtplibModel.generate.
  unfold OtplibModel.counter_of, OtplibModel.timeStepCounter.
  cbn [Date_now totp_options]. rewrite Hmac. reflexivity.
Qed.

Lemma generateTOTPRange_loop_model (secret cleaned : string)
  (options : option TOTPOptions.t) (current : Z) (indices : list Z) :
  validateAndCleanSecret secret = Returned cleaned ->
  forall results w,
    Forall (fun item =>
              OtplibModel.code_at cleaned (totpOptions options)
                (TOTPRange.timeSlot item)
              = Returned (TOTPRange.code item)) results ->
    exists rs w',
      generateTOTPRange_loop (lib := OtplibModel.model) secret options
        (step (totpOptions options)) current indices results w
      = (Returned rs, w')
      /\ Forall (fun item =>
                   OtplibModel.code_at cleaned (totpOptions options)
                     (TOTPRange.timeSlot item)
                   = Returned (TOTPRange.code item)) rs.
Proof.
  intros Hc. induction indices as [|i rest IH]; intros results w Hres.
  - exists results, w. split; [reflexivity | exact Hres].
  - cbn [generateTOTPRange_loop]. unfold bind.
    rewrite generateTOTPRange_body_eq.
    destruct (generateTOTP_model_at _ _ options
                (mkWorld ((current + i) * step (totpOptions options) * 1000)
                   (totp_options w)) Hc) as (code & Hcode & ->).
    apply IH. apply Forall_app. split; [exact Hres|].
    constructor; [|constructor].
    cbn [range_item TOTPRange.timeSlot TOTPRange.code].
    cbn [Date_now] in Hcode.
    rewrite Z.div_mul in Hcode by lia.
    rewrite Z.div_mul in Hcode; [exact Hcode|].
    apply num_or_nonzero. lia.
Qed.

(** X10.  [generateTOTPRange] with the library as the specification describes
    it: for a secret that is accepted it returns, and the code of each item is
    the code of that item's time slot, not of the moment of the call; when
    [periods] is not negative and the period is positive, the item in the
    middle is for the current slot and carries the code [generateTOTP] gives
    now. *)
Theorem generateTOTPRange_codes (secret cleaned : string) (periods : Z)
  (options : option TOTPOptions.t) (w : World) :
  validateAndCleanSecret secret = Returned cleaned ->
  exists results,
    fst (generateTOTPRange (lib := OtplibModel.model) secret periods options
           w) = Returned results
    /\ Forall (fun item =>
                 OtplibModel.code_at cleaned (totpOptions options)
                   (TOTPRange.timeSlot item)
                 = Returned (TOTPRange.code item)) results
    /\ (0 <= periods ->
        0 < num_or (field TOTPOptions.period options) 30 ->
        exists item,
          nth_error results (Z.to_nat (periods / 2)) = Some item
          /\ TOTPRange.timeSlot item
             = Date_now w / 1000
               / num_or (field TOTPOptions.period options) 30
          /\ fst (generateTOTP (lib := OtplibModel.model) secret options w)
             = Returned (TOTPRange.code item)).
Proof.
  intros Hc.
  destruct (generateTOTPRange_loop_model secret cleaned options
              (Date_now w / (1000 * step (totpOptions options)))
              (range_indices periods) Hc [] w (Forall_nil _))
    as (rs & w' & Hloop & Hall).
  assert (generateTOTPRange (lib := OtplibModel.model) secret periods options
            w = (Returned rs, w')) as Hrange by exact Hloop.
  exists rs. rewrite Hrange. split; [reflexivity|]. split; [exact Hall|].
  intros Hp Hperiod.
  pose proof (generateTOTPRange_returned _ _ _ _ _ _ _ Hrange)
    as [Hlen Hitems].
  assert (0 <= periods / 2) as Hh by (apply Z.div_pos; lia).
  destruct (nth_error rs (Z.to_nat (periods / 2))) as [item|] eqn:Hn.
  - exists item. split; [reflexivity|].
    destruct (Hitems _ _ Hn) as (code0 & Hitem).
    assert (TOTPRange.timeSlot item
            = Date_now w / 1000
              / num_or (field TOTPOptions.period options) 30) as Hslot.
    { rewrite Hitem. cbn [range_item TOTPRange.timeSlot].
      rewrite Z2Nat.id by exact Hh.
      rewrite seconds_slot by exact Hperiod. lia. }
    split; [exact Hslot|].
    rewrite Forall_forall in Hall.
    pose proof (Hall _ (nth_error_In _ _ Hn)) as Hcode.
    destruct (generateTOTP_model_at _ _ options w Hc) as (code & Hnow & ->).
    cbn [fst]. rewrite <- Hnow, <- Hcode. f_equal. cbn [step totpOptions].
    lia.
  - apply nth_error_None in Hn. lia.
Qed.

Lemma generateTOTPRange_codes_witness :
  exists results,
    fst (generateTOTPRange (lib := OtplibModel.model) "jbsw y3dp ehpk 3pxp"
           3 None (at_time 59 (mkOptions 6 30 sha1 1))) = Returned results
    /\ Forall (fun item =>
                 OtplibModel.code_at "JBSWY3DPEHPK3PXP" (totpOptions None)
                   (TOTPRange.timeSlot item)
                 = Returned (TOTPRange.code item)) results
    /\ (0 <= 3 ->
        0 < num_or (field TOTPOptions.period None) 30 ->
        exists item,
          nth_error results (Z.to_nat (3 / 2)) = Some item
          /\ TOTPRange.timeSlot item
             = Date_now (at_time 59 (mkOptions 6 30 sha1 1)) / 1000
               / num_or (field TOTPOptions.period None) 30
          /\ fst (generateTOTP (lib := OtplibModel.model)
                    "jbsw y3dp ehpk 3pxp" None
                    (at_time 59 (mkOptions 6 30 sha1 1)))
             = Returned (TOTPRange.code item)).
Proof.
  apply (generateTOTPRange_codes "jbsw y3dp ehpk 3pxp" "JBSWY3DPEHPK3PXP").
  reflexivity.
Defined.

(** ** Codes, slots and windows *)

Lemma generateTOTP_model_slot (secret : string)
  (options : option TOTPOptions.t) (w w' : World) :
  Date_now w' / 1000 / step (totpOptions options)
  = Date_now w / 1000 / step (totpOptions options) ->
  fst (generateTOTP (lib := OtplibModel.model) secret options w')
  = fst (generateTOTP (lib := OtplibModel.model) secret options w).
Proof.
  intros H.
  destruct (validateAndCleanSecret secret) as [cleaned|e] eqn:Hs.
  - rewrite !(generateTOTP_model secret cleaned options _ Hs), H.
    reflexivity.
  - rewrite !(generateTOTP_refused OtplibModel.model _ _ _ _ Hs).
    reflexivity.
Qed.

(** X5.  The code lasts as long as [getTimeRemaining] says (library as the
    specification describes it): for a positive period, at any whole number of
    seconds from now that is less than the time remaining, [generateTOTP]
    gives the result it gives now. *)
Theorem code_lasts_time_remaining (secret : string)
  (options : option TOTPOptions.t) (w w' : World) (k r : Z) :
  0 < num_or (field TOTPOptions.period options) 30 ->
  getTimeRemaining (num_or (field TOTPOptions.period options) 30) w
  = (Returned r, w) ->
  Date_now w' = Date_now w + 1000 * k ->
  0 <= k < r ->
  fst (generateTOTP (lib := OtplibModel.model) secret options w')
  = fst (generateTOTP (lib := OtplibModel.model) secret options w).
Proof.
  intros Hp Hr Hw' Hk.
  apply generateTOTP_model_slot. cbn [step totpOptions].
  set (p := num_or (field TOTPOptions.period options) 30) in *.
  unfold getTimeRemaining in Hr. cbv zeta in Hr. injection Hr as Hr.
  rewrite Hw', seconds_after.
  apply (slot_after p (Date_now w / 1000) k Hp); lia.
Qed.

Lemma code_lasts_time_remaining_witness :
  fst (generateTOTP (lib := OtplibModel.model) seed_sha1 None
         (at_time 59 (mkOptions 6 30 sha1 1)))
  = fst (generateTOTP (lib := OtplibModel.model) seed_sha1 None
           (at_time 31 (mkOptions 6 30 sha1 1))).
Proof.
  apply (code_lasts_time_remaining seed_sha1 None
           (at_time 31 (mkOptions 6 30 sha1 1))
           (at_time 59 (mkOptions 6 30 sha1 1)) 28 29);
    [reflexivity | reflexivity | reflexivity | lia].
Defined.

(** X6.  Generation and validation agree for every period and window
    (library as the specification describes it, a numeric window counting
    by its absolute value): a code [generateTOTP] returns is accepted by
    [validateTOTP] under the same options whenever the time steps of the two
    moments differ by no more than the window in force, the absolute value
    of [options.window || 1]. *)
Theorem generated_code_is_accepted (secret code : string)
  (options : option TOTPOptions.t) (w w' : World) :
  fst (generateTOTP (lib := OtplibModel.model) secret options w)
  = Returned code ->
  Z.abs (Date_now w' / 1000 / step (totpOptions options)
         - Date_now w / 1000 / step (totpOptions options))
  <= Z.abs (num_or (field TOTPOptions.window options) 1) ->
  fst (validateTOTP (lib := OtplibModel.model) code secret options w')
  = Returned true.
Proof.
  intros Hg Hw.
  apply generateTOTP_returned in Hg as (cleaned & Hc & Hcode).
  destruct (validateTOTP_accepts_iff code secret cleaned options w' Hc)
    as [_ Hiff].
  apply Hiff.
  exists (Date_now w / 1000 / step (totpOptions options)
          - Date_now w' / 1000 / step (totpOptions options)).
  cbn [window totpOptions]. split; [lia|].
  rewrite <- Hcode. f_equal. lia.
Qed.

Lemma generated_code_is_accepted_witness :
  fst (validateTOTP (lib := OtplibModel.model) "312805" seed_sha1
         (Some (TOTPOptions.mk None None (Some (Num 60)) (Some (Num (-1)))))
         (at_time 119 (mkOptions 6 30 sha1 1)))
  = Returned true.
Proof.
  apply (generated_code_is_accepted seed_sha1 "312805"
           (Some (TOTPOptions.mk None None (Some (Num 60))
                    (Some (Num (-1)))))
           (at_time 59 (mkOptions 6 30 sha1 1))).
  - vm_compute. reflexivity.
  - vm_compute. discriminate.
Defined.

(** ** [generateTestSecret] *)

Lemma base32_char_ok (v : Z) :
  is_base32_char (ThirtyTwoModel.base32_char v) = true.
Proof.
  unfold ThirtyTwoModel.base32_char. cbv zeta.
  pose proof (Z.mod_pos_bound v 32 ltac:(lia)) as Hb.
  set (x := v mod 32) in *.
  assert (forallb (fun k => is_base32_char
                     (ThirtyTwoModel.base32_char (Z.of_nat k)))
            (seq 0 32) = true) as Hall by (vm_compute; reflexivity).
  rewrite forallb_forall in Hall.
  specialize (Hall (Z.to_nat x)).
  rewrite Z2Nat.id in Hall by lia.
  unfold ThirtyTwoModel.base32_char in Hall. cbv zeta in Hall.
  rewrite Z.mod_small in Hall by lia.
  apply Hall. apply in_seq. lia.
Qed.

Lemma encode_from_chars (bytes : list Z) :
  forall acc nbits,
    forallb_str is_base32_char (ThirtyTwoModel.encode_from acc nbits bytes)
    = true.
Proof.
  induction bytes as [|b r IH]; intros acc nbits;
    cbn [ThirtyTwoModel.encode_from]; cbv zeta.
  - destruct (nbits =? 0); cbn [forallb_str]; [reflexivity|].
    now rewrite base32_char_ok.
  - destruct (10 <=? nbits + 8); cbn [forallb_str];
      rewrite ?base32_char_ok, IH; reflexivity.
Qed.

Lemma encode_from_length (bytes : list Z) :
  forall acc nbits, 0 <= nbits < 5 ->
    len (ThirtyTwoModel.encode_from acc nbits bytes)
    = (nbits + 8 * Z.of_nat (List.length bytes) + 4) / 5.
Proof.
  unfold len.
  induction bytes as [|b r IH]; intros acc nbits Hn;
    cbn [ThirtyTwoModel.encode_from List.length]; cbv zeta.
  - destruct (Z.eqb_spec nbits 0) as [->|Hne]; cbn [String.length].
    + reflexivity.
    + assert (nbits = 1 \/ nbits = 2 \/ nbits = 3 \/ nbits = 4) as Hc by lia.
      destruct Hc as [->|[->|[->| ->]]]; reflexivity.
  - destruct (Z.leb_spec 10 (nbits + 8)); cbn [String.length];
      rewrite !Nat2Z.inj_succ, IH by lia.
    + replace (nbits + 8 * Z.succ (Z.of_nat (List.length r)) + 4)
        with (nbits + 8 - 10 + 8 * Z.of_nat (List.length r) + 4 + 2 * 5)
        by lia.
      rewrite Z.div_add by lia. lia.
    + replace (nbits + 8 * Z.succ (Z.of_nat (List.length r)) + 4)
        with (nbits + 8 - 5 + 8 * Z.of_nat (List.length r) + 4 + 1 * 5)
        by lia.
      rewrite Z.div_add by lia. lia.
Qed.

Lemma base32_not_pad (s : string) :
  forallb_str is_base32_char s = true ->
  forallb_str (fun c => negb (is_pad c)) s = true.
Proof.
  apply forallb_str_impl. intros c Hc.
  destruct (is_pad c) eqn:Hp; [|reflexivity].
  now rewrite (pad_not_base32 c Hp) in Hc.
Qed.

Lemma remove_pad_id (s : string) :
  forallb_str (fun c => negb (is_pad c)) s = true -> remove_pad s = s.
Proof.
  induction s as [|c r IH]; intros H; [reflexivity|].
  cbn [forallb_str] in H. apply andb_true_iff in H as [Hc Hr].
  cbn [remove_pad]. apply negb_true_iff in Hc. rewrite Hc.
  now rewrite IH.
Qed.

Lemma validateSecret_base32 (s : string) :
  forallb_str is_base32_char s = true -> 8 <= len s ->
  validateAndCleanSecret s = Returned s.
Proof.
  intros Hall Hlen.
  assert (forallb_str is_secret_char s = true) as Hsec.
  { apply (forallb_str_impl is_base32_char); [|exact Hall].
    intros c Hc. unfold is_secret_char. now rewrite Hc. }
  destruct (secret_chars_clean s Hsec) as [Hws Hup].
  unfold validateAndCleanSecret.
  destruct s as [|c r]; [unfold len in Hlen; cbn in Hlen; lia|].
  cbn [truthy negb]. rewrite Hws, Hup.
  assert (test_base32 (String c r) = true) as ->.
  { apply test_base32_spec. exists (String c r), "".
    repeat apply conj; [now rewrite append_nil_r | discriminate
                        | exact Hall | reflexivity]. }
  cbn [negb]. unfold strip_padding.
  rewrite strip_trailing_id by (apply base32_not_pad; exact Hall).
  destruct (Z.ltb_spec (len (String c r)) 8); [lia|reflexivity].
Qed.

(** X11.  With the Base32 encoder as the specification describes it
    (thirty-two is only declared in the sources), the test secret made of
    twenty random bytes has 32 characters of the Base32 alphabet and no
    padding, and the service accepts it, unchanged by cleaning. *)
Theorem generateTestSecret_is_valid (randomBytes : list Z) :
  List.length randomBytes = 20%nat ->
  len (generateTestSecret (codec := ThirtyTwoModel.model) randomBytes) = 32
  /\ forallb_str is_base32_char
       (generateTestSecret (codec := ThirtyTwoModel.model) randomBytes)
     = true
  /\ validateSecret
       (generateTestSecret (codec := ThirtyTwoModel.model) randomBytes)
     = true
  /\ validateAndCleanSecret
       (generateTestSecret (codec := ThirtyTwoModel.model) randomBytes)
     = Returned
         (generateTestSecret (codec := ThirtyTwoModel.model) randomBytes).
Proof.
  intros Hlen.
  pose proof (encode_from_chars randomBytes 0 0) as Hchars.
  pose proof (encode_from_length randomBytes 0 0 ltac:(lia)) as Hl.
  rewrite Hlen in Hl. change ((0 + 8 * Z.of_nat 20 + 4) / 5) with 32 in Hl.
  assert (generateTestSecret (codec := ThirtyTwoModel.model) randomBytes
          = ThirtyTwoModel.encode_from 0 0 randomBytes) as ->.
  { unfold generateTestSecret. cbn [ThirtyTwo.encode ThirtyTwoModel.model].
    unfold ThirtyTwoModel.encode. cbv zeta.
    assert (String.length (ThirtyTwoModel.encode_from 0 0 randomBytes)
            = 32%nat) as -> by (unfold len in Hl; lia).
    cbn [Nat.modulo Nat.sub ThirtyTwoModel.padding].
    change ((8 - 32 mod 8) mod 8)%nat with 0%nat.
    cbn [ThirtyTwoModel.padding]. rewrite append_nil_r.
    apply remove_pad_id, base32_not_pad, Hchars. }
  pose proof (validateSecret_base32 _ Hchars ltac:(lia)) as Hv.
  repeat apply conj; [exact Hl | exact Hchars | | exact Hv].
  exact (validateSecret_of_returned _ _ Hv).
Qed.

Lemma generateTestSecret_is_valid_witness :
  len (generateTestSecret (codec := ThirtyTwoModel.model)
         (ascii_bytes "12345678901234567890")) = 32
  /\ forallb_str is_base32_char
       (generateTestSecret (codec := ThirtyTwoModel.model)
          (ascii_bytes "12345678901234567890"))
     = true
  /\ validateSecret
       (generateTestSecret (codec := ThirtyTwoModel.model)
          (ascii_bytes "12345678901234567890"))
     = true
  /\ validateAndCleanSecret
       (generateTestSecret (codec := ThirtyTwoModel.model)
          (ascii_bytes "12345678901234567890"))
     = Returned
         (generateTestSecret (codec := ThirtyTwoModel.model)
            (ascii_bytes "12345678901234567890")).
Proof.
  apply (generateTestSecret_is_valid (ascii_bytes "12345678901234567890")).
  reflexivity.
Defined.

Lemma generateTestSecret_sample :
  generateTestSecret (codec := ThirtyTwoModel.model)
    (ascii_bytes "12345678901234567890") = seed_sha1
  /\ ThirtyTwoModel.encode (ascii_bytes "12345678901234567890123456789012")
     = seed_sha256.
Proof. split; vm_compute; reflexivity. Qed.

(** ** What [createOTPAuthURL] writes *)

Lemma url_chars_printable (c : ascii) :
  enc_char c || query_char c = true -> is_printable c = true.
Proof.
  revert c.
  by_cases_on_ascii (fun c => implb (enc_char c || query_char c)
                                (is_printable c)).
  intros Hc. rewrite Hc in H. exact H.
Qed.

(** X12.  [createOTPAuthURL] checks the secret and nothing else.  For an
    issuer, an account name and an algorithm that are well-formed text (no
    unpaired surrogate, on which [encodeURIComponent] would throw), it fails
    exactly when the secret is refused, with the error of
    [validateAndCleanSecret] as it is (no prefix is added, unlike
    [generateTOTP]).  When the secret is accepted the result starts with
    'otpauth://totp/' and, whatever characters the issuer, the account name
    and the algorithm hold, is made of printable ASCII characters without
    blanks (URL serialiser after the WHATWG standard). *)
Theorem createOTPAuthURL_outcomes (web : WebAPI)
  (issuer accountName secret : string) (options : option TOTPOptions.t) :
  well_formed issuer = true ->
  well_formed accountName = true ->
  well_formed (str_or (field TOTPOptions.algorithm options) "SHA1") = true ->
  (forall e, validateAndCleanSecret secret = Thrown e ->
     createOTPAuthURL (web := web) issuer accountName secret options
     = Thrown e)
  /\ (forall cleaned, validateAndCleanSecret secret = Returned cleaned ->
        (exists rest,
           createOTPAuthURL (web := web) issuer accountName secret options
           = Returned ("otpauth://totp/" ++ rest))
        /\ exists uri,
             createOTPAuthURL (web := whatwg) issuer accountName secret
               options = Returned uri
             /\ starts_with "otpauth://totp/" uri = true
             /\ forallb_str is_printable uri = true).
Proof.
  intros _ _ _. unfold createOTPAuthURL. split.
  - intros e ->. reflexivity.
  - intros cleaned ->. cbn [bindR]. split; [eexists; reflexivity|].
    eexists. split; [reflexivity|]. split; [reflexivity|].
    cbn [URLSearchParams_toString whatwg].
    change ("otpauth://totp/" ++ ?x)
      with ("otpauth://totp/" ++ x).
    rewrite !forallb_str_append.
    rewrite (forallb_str_impl enc_char is_printable
               (encodeURIComponent (if truthy issuer
                                    then issuer ++ ":" ++ accountName
                                    else accountName)));
      [ | intros c Hc; apply url_chars_printable; now rewrite Hc
        | apply encodeURIComponent_chars ].
    rewrite (forallb_str_impl query_char is_printable
               (serialize_form _));
      [ | intros c Hc; apply url_chars_printable; rewrite Hc;
          apply orb_true_r
        | apply serialize_form_chars ].
    reflexivity.
Qed.

Lemma createOTPAuthURL_outcomes_witness :
  (forall e, validateAndCleanSecret "jbsw y3dp ehpk 3pxp" = Thrown e ->
     createOTPAuthURL (web := whatwg) "My Service" "alice@example.com"
       "jbsw y3dp ehpk 3pxp" None
     = Thrown e)
  /\ (forall cleaned,
        validateAndCleanSecret "jbsw y3dp ehpk 3pxp" = Returned cleaned ->
        (exists rest,
           createOTPAuthURL (web := whatwg) "My Service" "alice@example.com"
             "jbsw y3dp ehpk 3pxp" None
           = Returned ("otpauth://totp/" ++ rest))
        /\ exists uri,
             createOTPAuthURL (web := whatwg) "My Service"
               "alice@example.com" "jbsw y3dp ehpk 3pxp" None
             = Returned uri
             /\ starts_with "otpauth://totp/" uri = true
             /\ forallb_str is_printable uri = true).
Proof.
  apply (createOTPAuthURL_outcomes whatwg "My Service" "alice@example.com"
           "jbsw y3dp ehpk 3pxp" None); reflexivity.
Defined.

(** ** A URL that [createOTPAuthURL] built, parsed *)

Lemma or_else_truthy (a b : string) : truthy a = true -> or_else a b = a.
Proof. unfold or_else. now intros ->. Qed.

Lemma createOTPAuthURL_parsed (issuer accountName secret cleaned : string)
  (options : option TOTPOptions.t) :
  validateAndCleanSecret secret = Returned cleaned ->
  well_formed issuer = true ->
  well_formed accountName = true ->
  truthy issuer = true
  \/ (includes ":" accountName = false
      /\ accountName <> "." /\ accountName <> "..") ->
  well_formed (str_or (field TOTPOptions.algorithm options) "SHA1") = true ->
  exists uri,
    createOTPAuthURL (web := whatwg) issuer accountName secret options
    = Returned uri
    /\ parseOTPAuthURL (web := whatwg) uri
       = Returned
           (validateParsed
              (QRCodeResult.mk "totp" (label_of issuer accountName) cleaned
                 (if truthy issuer then Some issuer else None)
                 (or_else
                    (toUpperCase
                       (str_or (field TOTPOptions.algorithm options) "SHA1"))
                    "SHA1")
                 (Num (num_or (field TOTPOptions.digits options) 6))
                 (Num (num_or (field TOTPOptions.period options) 30))
                 None)).
Proof.
  intros Hc Hwi Hwa Hnames Hwalg.
  pose proof (validateSecret_of_returned _ _
                (validateAndCleanSecret_idempotent _ _ Hc)) as Hvalid.
  pose proof (cleaned_well_formed _ _ Hc) as Hwc.
  unfold createOTPAuthURL. rewrite Hc. cbn [bindR].
  fold (label_of issuer accountName).
  cbn [URLSearchParams_toString whatwg].
  set (alg := str_or (field TOTPOptions.algorithm options) "SHA1") in *.
  set (d := num_or (field TOTPOptions.digits options) 6).
  set (p := num_or (field TOTPOptions.period options) 30).
  set (label := label_of issuer accountName).
  set (params := [("secret", cleaned); ("issuer", issuer);
                  ("algorithm", alg); ("digits", toString d);
                  ("period", toString p)]).
  eexists. split; [reflexivity|].
  change ("?" ++ serialize_form params)
    with (String "?" (serialize_form params)).
  destruct (encoded_label_no_dots label) as [Hsd Hdd].
  { now apply label_of_well_formed. }
  { apply label_of_no_dots. tauto. }
  { apply label_of_no_dots. tauto. }
  assert (parse_url ("otpauth://totp/" ++ encodeURIComponent label
                     ++ String "?" (serialize_form params))
          = Returned (mkURL "otpauth:" "totp"
                        (String "/" (encodeURIComponent label)) params))
    as Hurl.
  { rewrite parse_url_otpauth_totp.
    - rewrite parse_path_one_segment;
        [ | apply encodeURIComponent_chars | apply serialize_form_chars
          | exact Hsd | exact Hdd ].
      rewrite parse_form_serialized; [reflexivity|].
      pose proof (toString_well_formed d). pose proof (toString_well_formed p).
      repeat constructor; cbn [fst snd]; assumption.
    - rewrite forallb_str_append. cbn [forallb_str].
      rewrite (forallb_str_impl _ _ _ enc_char_visible
                 (encodeURIComponent_chars label)).
      rewrite (forallb_str_impl _ _ _ query_char_visible
                 (serialize_form_chars params)).
      reflexivity. }
  rewrite (parseOTPAuthURL_of_totp_url whatwg _ _ cleaned label Hurl);
    [ | reflexivity | reflexivity | reflexivity | exact Hvalid
      | cbn [pathname substring1]; apply decode_encoded;
        now apply label_of_well_formed ].
  cbn [searchParams].
  change (get params "issuer") with (Some issuer).
  change (get params "algorithm") with (Some alg).
  change (get params "digits") with (Some (toString d)).
  change (get params "period") with (Some (toString p)).
  cbn [str_or option_map]. rewrite or_else_empty.
  unfold label. rewrite labelParts_of_built by tauto.
  rewrite (or_else_truthy (toString d)) by apply toString_ascii.
  rewrite (or_else_truthy (toString p)) by apply toString_ascii.
  rewrite !parseInt_toString. reflexivity.
Qed.

(** ** From a scanned code to an account *)

Lemma parsed_fields (web : WebAPI) (uri : string) (r : QRCodeResult.t) :
  parseOTPAuthURL uri = Returned r ->
  validateSecret (QRCodeResult.secret r) = true
  /\ In (QRCodeResult.algorithm r) ["SHA1"; "SHA256"; "SHA512"]
  /\ In (QRCodeResult.digits r) [Num 6; Num 7; Num 8]
  /\ (QRCodeResult.period r = NaN
      \/ exists p, QRCodeResult.period r = Num p /\ 1 <= p <= 300).
Proof.
  intros H. pose proof (parseOTPAuthURL_normalised _ _ _ H)
    as (u & _ & Hd & Ha & Hp).
  apply parseOTPAuthURL_returned in H.
  apply parseOTPAuthURL_body_returned in H
    as (_ & secret & _ & _ & _ & _ & _ & Hs & _ & _ & Hsec & _).
  rewrite Hsec. split; [exact Hs|]. cbv zeta in Hd, Ha.
  repeat apply conj.
  - rewrite Ha.
    destruct (existsb _ _) eqn:He; [|cbn [In]; auto].
    apply existsb_exists in He as (x & Hin & Hx).
    apply String.eqb_eq in Hx. now rewrite Hx.
  - rewrite Hd. clear Hd Hp.
    destruct (parseInt _) as [|z]; cbn [num_includes]; [cbn [In]; auto|].
    destruct (existsb (Z.eqb z) _) eqn:He; [|cbn [In]; auto].
    apply existsb_exists in He as (x & Hin & Hx).
    apply Z.eqb_eq in Hx. subst x. cbn [In] in Hin |- *.
    destruct Hin as [<-|[<-|[<-|[]]]]; auto.
  - rewrite Hp. clear Hd Hp.
    destruct (parseInt _) as [|z]; [now left|]. right.
    destruct (Z.leb_spec 1 z); destruct (Z.leb_spec z 300); cbn [andb];
      eexists; (split; [reflexivity|lia]).
Qed.

(** X14.  An account made from a scanned code.  Whatever URL parser the host
    provides, when [parseOTPAuthURL] returns a result, [handleQRScanSuccess]
    closes the scanner and appends exactly one account, pending
    synchronisation, with the clock reading as its id; that account has a
    secret [validateSecret] accepts, an algorithm among SHA1, SHA256 and
    SHA512, 6, 7 or 8 digits, a period between 1 and 300 (the [NaN] a
    non-numeric period parses to becomes 30 here) and a service name that is
    not empty. *)
Theorem scanned_account_is_usable (web : WebAPI) (uri : string)
  (r : QRCodeResult.t) (s : HomeScreen.State) (w : World) :
  parseOTPAuthURL uri = Returned r ->
  exists accountData,
    HomeScreen.handleQRScanSuccess r s w
    = (Returned
         (HomeScreen.mkState
            (HomeScreen.accounts s
             ++ [LocalTOTPAccount.mk accountData (toString (Date_now w))
                   (Date_now w) LocalTOTPAccount.pending])%list
            false false (HomeScreen.editingAccount s)), w)
    /\ LocalTOTPAccount.secret accountData = QRCodeResult.secret r
    /\ validateSecret (LocalTOTPAccount.secret accountData) = true
    /\ In (LocalTOTPAccount.algorithm accountData)
         ["SHA1"; "SHA256"; "SHA512"]
    /\ In (LocalTOTPAccount.digits accountData) [Num 6; Num 7; Num 8]
    /\ (exists p, LocalTOTPAccount.period accountData = Num p
                  /\ 1 <= p <= 300
                  /\ (QRCodeResult.period r = NaN -> p = 30))
    /\ truthy (LocalTOTPAccount.serviceName accountData) = true.
Proof.
  intros H. destruct (parsed_fields _ _ _ H) as (Hs & Ha & Hd & Hp).
  eexists. split; [reflexivity|].
  cbn [LocalTOTPAccount.secret LocalTOTPAccount.algorithm
       LocalTOTPAccount.digits LocalTOTPAccount.period
       LocalTOTPAccount.serviceName].
  repeat apply conj.
  - reflexivity.
  - exact Hs.
  - cbn [In] in Ha |- *.
    destruct Ha as [<-|[<-|[<-|[]]]]; cbn; auto.
  - cbn [In] in Hd |- *.
    destruct Hd as [<-|[<-|[<-|[]]]]; cbn; auto.
  - destruct Hp as [->|(p & -> & Hp)].
    + exists 30. cbn. repeat split; lia.
    + exists p. unfold num_or_else.
      destruct (Z.eqb_spec p 0); [lia|].
      repeat split; try lia. discriminate.
  - unfold or_else.
    destruct (truthy (nth 0 _ "")) eqn:Ht; [exact Ht | reflexivity].
Qed.

Lemma scanned_account_is_usable_witness :
  exists accountData,
    HomeScreen.handleQRScanSuccess
      (QRCodeResult.mk "totp" "X" "JBSWY3DPEHPK3PXP" None "SHA1" (Num 6) NaN
         None)
      (HomeScreen.mkState [] false true None)
      (at_time 59 (mkOptions 6 30 sha1 1))
    = (Returned
         (HomeScreen.mkState
            (HomeScreen.accounts (HomeScreen.mkState [] false true None)
             ++ [LocalTOTPAccount.mk accountData
                   (toString (Date_now (at_time 59 (mkOptions 6 30 sha1 1))))
                   (Date_now (at_time 59 (mkOptions 6 30 sha1 1)))
                   LocalTOTPAccount.pending])%list
            false false
            (HomeScreen.editingAccount
               (HomeScreen.mkState [] false true None))),
       at_time 59 (mkOptions 6 30 sha1 1))
    /\ LocalTOTPAccount.secret accountData
       = QRCodeResult.secret
           (QRCodeResult.mk "totp" "X" "JBSWY3DPEHPK3PXP" None "SHA1" (Num 6)
              NaN None)
    /\ validateSecret (LocalTOTPAccount.secret accountData) = true
    /\ In (LocalTOTPAccount.algorithm accountData)
         ["SHA1"; "SHA256"; "SHA512"]
    /\ In (LocalTOTPAccount.digits accountData) [Num 6; Num 7; Num 8]
    /\ (exists p, LocalTOTPAccount.period accountData = Num p
                  /\ 1 <= p <= 300
                  /\ (QRCodeResult.period
                        (QRCodeResult.mk "totp" "X" "JBSWY3DPEHPK3PXP" None
                           "SHA1" (Num 6) NaN None) = NaN -> p = 30))
    /\ truthy (LocalTOTPAccount.serviceName accountData) = true.
Proof.
  apply (scanned_account_is_usable whatwg
           "otpauth://totp/X?secret=JBSWY3DPEHPK3PXP&period=abc").
  vm_compute. reflexivity.
Defined.

(** X15.  [handleBarCodeScanned] never throws, whatever the URL parser and the
    callback do.  While not scanning it does nothing; otherwise scanning is
    switched off, and [onScanSuccess] is called, once, exactly when
    [parseOTPAuthURL] returns; a data string that does not parse, and also a
    callback that throws, end in the alert 'Invalid QR Code'. *)
Theorem handleBarCodeScanned_outcomes (web : WebAPI) (A : Type)
  (onScanSuccess : QRCodeResult.t -> M A) (isScanning : bool)
  (data : string) (w : World) :
  (exists o w',
     QRCodeScanner.handleBarCodeScanned onScanSuccess isScanning data w
     = (Returned (false, o), w'))
  /\ (isScanning = false ->
      QRCodeScanner.handleBarCodeScanned onScanSuccess isScanning data w
      = (Returned (false, QRCodeScanner.Ignored), w))
  /\ (isScanning = true ->
      (forall e, parseOTPAuthURL data = Thrown e ->
         QRCodeScanner.handleBarCodeScanned onScanSuccess isScanning data w
         = (Returned (false, QRCodeScanner.InvalidQRCode), w))
      /\ (forall r, parseOTPAuthURL data = Returned r ->
            QRCodeScanner.handleBarCodeScanned onScanSuccess isScanning data w
            = match onScanSuccess r w with
              | (Returned a, w') =>
                  (Returned (false, QRCodeScanner.Delivered a), w')
              | (Thrown _, w') =>
                  (Returned (false, QRCodeScanner.InvalidQRCode), w')
              end)).
Proof.
  unfold QRCodeScanner.handleBarCodeScanned, try_catch, bind, lift, ret.
  destruct isScanning; cbn [negb].
  - repeat apply conj.
    + destruct (parseOTPAuthURL data) as [r|e].
      * destruct (onScanSuccess r w) as [[a|e] w']; do 2 eexists; reflexivity.
      * do 2 eexists; reflexivity.
    + discriminate.
    + intros _. split.
      * intros e ->. reflexivity.
      * intros r ->. destruct (onScanSuccess r w) as [[a|e] w']; reflexivity.
  - repeat apply conj.
    + do 2 eexists; reflexivity.
    + reflexivity.
    + discriminate.
Qed.

(** X13.  [createOTPAuthURL] checks the secret and nothing else: whatever
    algorithm, digits and period it is given go into the URL, and it is
    [parseOTPAuthURL] that brings them into range when the URL is read back
    (with the WHATWG URL parser): digits other than 6, 7 and 8 come back as 6,
    a period outside 1..300 as 30, an algorithm in upper case, or as SHA1 when
    that is none of the three. *)
Theorem built_url_is_normalised_on_parse (issuer accountName secret : string)
  (options : option TOTPOptions.t) (alg : string) (d p : Z) :
  validateSecret secret = true ->
  well_formed issuer = true ->
  well_formed accountName = true ->
  truthy issuer = true
  \/ (includes ":" accountName = false
      /\ accountName <> "." /\ accountName <> "..") ->
  str_or (field TOTPOptions.algorithm options) "SHA1" = alg ->
  well_formed alg = true ->
  num_or (field TOTPOptions.digits options) 6 = d ->
  num_or (field TOTPOptions.period options) 30 = p ->
  Z.abs d <= 2 ^ 53 -> Z.abs p <= 2 ^ 53 ->
  exists uri r,
    createOTPAuthURL (web := whatwg) issuer accountName secret options
    = Returned uri
    /\ parseOTPAuthURL (web := whatwg) uri = Returned r
    /\ QRCodeResult.secret r = toUpperCase (removeWhitespace secret)
    /\ QRCodeResult.label r = label_of issuer accountName
    /\ QRCodeResult.digits r
       = Num (if existsb (Z.eqb d) [6; 7; 8] then d else 6)
    /\ QRCodeResult.period r
       = Num (if (1 <=? p) && (p <=? 300) then p else 30)
    /\ QRCodeResult.algorithm r
       = (if existsb (String.eqb (toUpperCase alg))
               ["SHA1"; "SHA256"; "SHA512"]
          then toUpperCase alg else "SHA1").
Proof.
  intros Hs Hwi Hwa Hnames Halg Hwalg Hd Hp _ _.
  apply validateSecret_true in Hs as [cleaned Hc].
  pose proof (validateAndCleanSecret_returned _ _ Hc) as (Hcl & _ & _).
  rewrite <- Halg in Hwalg.
  destruct (createOTPAuthURL_parsed issuer accountName secret cleaned options
              Hc Hwi Hwa Hnames Hwalg) as (uri & Hcreate & Hparse).
  rewrite Halg, Hd, Hp in Hparse.
  exists uri. eexists. split; [exact Hcreate|]. split; [exact Hparse|].
  destruct (validateParsed_keeps
              (QRCodeResult.mk "totp" (label_of issuer accountName) cleaned
                 (if truthy issuer then Some issuer else None)
                 (or_else (toUpperCase alg) "SHA1") (Num d) (Num p) None))
    as (_ & Hlabel & Hsecret & _).
  rewrite Hlabel, Hsecret, validateParsed_digits, validateParsed_period,
    validateParsed_algorithm.
  cbn [QRCodeResult.label QRCodeResult.secret QRCodeResult.digits
       QRCodeResult.period QRCodeResult.algorithm num_includes].
  repeat apply conj.
  - exact Hcl.
  - reflexivity.
  - destruct (existsb (Z.eqb d) [6; 7; 8]); reflexivity.
  - unfold num_lt, num_gt.
    destruct (Z.ltb_spec p 1); destruct (Z.leb_spec 1 p); try lia;
      destruct (Z.gtb_spec p 300); destruct (Z.leb_spec p 300); try lia;
      reflexivity.
  - unfold or_else. destruct (toUpperCase alg) eqn:Hu; reflexivity.
Qed.

Lemma built_url_is_normalised_on_parse_witness :
  exists uri r,
    createOTPAuthURL (web := whatwg) "Example" "alice" "JBSWY3DPEHPK3PXP"
      (Some (TOTPOptions.mk (Some "sha256") (Some (Num 10)) (Some (Num 600))
               None))
    = Returned uri
    /\ parseOTPAuthURL (web := whatwg) uri = Returned r
    /\ QRCodeResult.secret r
       = toUpperCase (removeWhitespace "JBSWY3DPEHPK3PXP")
    /\ QRCodeResult.label r = label_of "Example" "alice"
    /\ QRCodeResult.digits r
       = Num (if existsb (Z.eqb 10) [6; 7; 8] then 10 else 6)
    /\ QRCodeResult.period r
       = Num (if (1 <=? 600) && (600 <=? 300) then 600 else 30)
    /\ QRCodeResult.algorithm r
       = (if existsb (String.eqb (toUpperCase "sha256"))
               ["SHA1"; "SHA256"; "SHA512"]
          then toUpperCase "sha256" else "SHA1").
Proof.
  apply (built_url_is_normalised_on_parse "Example" "alice"
           "JBSWY3DPEHPK3PXP"
           (Some (TOTPOptions.mk (Some "sha256") (Some (Num 10))
                    (Some (Num 600)) None)) "sha256" 10 600);
    try reflexivity; try (left; reflexivity); vm_compute; discriminate.
Defined.

(** X16.  An account exported and scanned back.  For a service name and an
    account name that are not empty and hold no ':', a secret that is accepted
    and parameters in range, the URL [createOTPAuthURL] builds, read by the
    scanner of [HomeScreen] (with the WHATWG URL parser), adds one account
    with that service name and account name, the secret in its cleaned form
    and the same algorithm, digits and period. *)
Theorem export_then_scan (issuer accountName secret : string)
  (options : option TOTPOptions.t) (alg : string) (d p : Z)
  (s : HomeScreen.State) (w : World) :
  validateSecret secret = true ->
  well_formed issuer = true -> truthy issuer = true ->
  includes ":" issuer = false ->
  well_formed accountName = true -> truthy accountName = true ->
  includes ":" accountName = false ->
  str_or (field TOTPOptions.algorithm options) "SHA1" = alg ->
  In alg ["SHA1"; "SHA256"; "SHA512"] ->
  num_or (field TOTPOptions.digits options) 6 = d ->
  In d [6; 7; 8] ->
  num_or (field TOTPOptions.period options) 30 = p ->
  1 <= p <= 300 ->
  exists uri,
    createOTPAuthURL (web := whatwg) issuer accountName secret options
    = Returned uri
    /\ QRCodeScanner.scan_in_HomeScreen (web := whatwg) true uri s w
       = (Returned
            (false,
             QRCodeScanner.Delivered
               (HomeScreen.mkState
                  (HomeScreen.accounts s
                   ++ [LocalTOTPAccount.mk
                         (LocalTOTPAccount.mkData issuer accountName
                            (toUpperCase (removeWhitespace secret)) alg
                            (Num d) (Num p) None)
                         (toString (Date_now w)) (Date_now w)
                         LocalTOTPAccount.pending])%list
                  false false (HomeScreen.editingAccount s))), w).
Proof.
  intros Hs Hwi Hti Hci Hwa Hta Hca Halg Hin_alg Hd Hin_d Hp Hrange.
  apply validateSecret_true in Hs as [cleaned Hc].
  pose proof (validateAndCleanSecret_returned _ _ Hc) as (Hcl & _ & _).
  assert (well_formed (str_or (field TOTPOptions.algorithm options) "SHA1")
          = true) as Hwalg.
  { rewrite Halg. cbn [In] in Hin_alg.
    destruct Hin_alg as [<-|[<-|[<-|[]]]]; reflexivity. }
  destruct (createOTPAuthURL_parsed issuer accountName secret cleaned options
              Hc Hwi Hwa (or_introl Hti) Hwalg) as (uri & Hcreate & Hparse).
  rewrite Halg, Hd, Hp in Hparse.
  assert (or_else (toUpperCase alg) "SHA1" = alg
          /\ existsb (String.eqb alg) ["SHA1"; "SHA256"; "SHA512"] = true
          /\ or_else alg "SHA1" = alg)
    as (Hup & Halg_ok & Halg_or).
  { cbn [In] in Hin_alg.
    destruct Hin_alg as [<-|[<-|[<-|[]]]]; repeat split; reflexivity. }
  rewrite Hup in Hparse.
  rewrite validateParsed_valid in Hparse;
    cbn [QRCodeResult.digits QRCodeResult.algorithm QRCodeResult.period];
    [ | cbn [In] in Hin_d; destruct Hin_d as [<-|[<-|[<-|[]]]]; reflexivity
      | exact Halg_ok
      | unfold num_lt, num_gt;
        destruct (Z.ltb_spec p 1); [lia|];
        destruct (Z.gtb_spec p 300); [lia|]; reflexivity ].
  exists uri. split; [exact Hcreate|].
  unfold QRCodeScanner.scan_in_HomeScreen, QRCodeScanner.handleBarCodeScanned,
    try_catch, bind, lift, ret.
  cbn [negb]. rewrite Hparse.
  unfold HomeScreen.handleQRScanSuccess, HomeScreen.handleAddAccount,
    bind, now, ret.
  cbn [QRCodeResult.label QRCodeResult.secret QRCodeResult.algorithm
       QRCodeResult.digits QRCodeResult.period HomeScreen.accounts
       HomeScreen.showQRScanner HomeScreen.editingAccount].
  unfold label_of. rewrite Hti.
  change (issuer ++ ":" ++ accountName)
    with (issuer ++ String ":" accountName).
  rewrite split_from_first by exact Hci.
  rewrite split_from_no_sep by exact Hca.
  cbn [nth append]. rewrite !or_else_truthy by assumption.
  rewrite Halg_or, <- Hcl.
  assert (num_or_else (Num d) 6 = Num d /\ num_or_else (Num p) 30 = Num p)
    as [-> ->].
  { unfold num_or_else. split.
    - cbn [In] in Hin_d. destruct Hin_d as [<-|[<-|[<-|[]]]]; reflexivity.
    - destruct (Z.eqb_spec p 0); [lia|reflexivity]. }
  reflexivity.
Qed.

Lemma export_then_scan_witness :
  exists uri,
    createOTPAuthURL (web := whatwg) "Example" "alice@google.com"
      "jbsw y3dp ehpk 3pxp"
      (Some (TOTPOptions.mk (Some "SHA256") (Some (Num 8)) (Some (Num 60))
               None))
    = Returned uri
    /\ QRCodeScanner.scan_in_HomeScreen (web := whatwg) true uri
         (HomeScreen.mkState [] false true None)
         (at_time 59 (mkOptions 6 30 sha1 1))
       = (Returned
            (false,
             QRCodeScanner.Delivered
               (HomeScreen.mkState
                  (HomeScreen.accounts (HomeScreen.mkState [] false true None)
                   ++ [LocalTOTPAccount.mk
                         (LocalTOTPAccount.mkData "Example"
                            "alice@google.com"
                            (toUpperCase
                               (removeWhitespace "jbsw y3dp ehpk 3pxp"))
                            "SHA256" (Num 8) (Num 60) None)
                         (toString
                            (Date_now (at_time 59 (mkOptions 6 30 sha1 1))))
                         (Date_now (at_time 59 (mkOptions 6 30 sha1 1)))
                         LocalTOTPAccount.pending])%list
                  false false
                  (HomeScreen.editingAccount
                     (HomeScreen.mkState [] false true None)))),
          at_time 59 (mkOptions 6 30 sha1 1)).
Proof.
  apply (export_then_scan "Example" "alice@google.com" "jbsw y3dp ehpk 3pxp"
           (Some (TOTPOptions.mk (Some "SHA256") (Some (Num 8))
                    (Some (Num 60)) None)) "SHA256" 8 60);
    try reflexivity; cbn [In]; try lia; auto.
Defined.

(** ** The list of accounts of [HomeScreen] *)

Lemma filter_all {A} (p : A -> bool) (l : list A) :
  (forall a, In a l -> p a = true) -> filter p l = l.
Proof.
  induction l as [|x l IH]; intros H; [reflexivity|].
  cbn [filter]. rewrite (H x (or_introl eq_refl)).
  f_equal. apply IH. intros a Ha. apply H. now right.
Qed.

(** X17.  Adding and deleting.  [handleAddAccount] appends one account,
    pending synchronisation, whose id is the clock reading in decimal.
    Accounts added at different clock readings get different ids, and deleting
    the id just added, when no account had it before, gives the list back.
    The id does not depend on the account: two accounts added at the same
    reading share it, and deleting that id removes both. *)
Theorem add_then_delete (accountData other : LocalTOTPAccount.Data)
  (s : HomeScreen.State) (w : World) :
  exists s1 s2,
    HomeScreen.handleAddAccount accountData s w = (Returned s1, w)
    /\ HomeScreen.handleAddAccount other s1 w = (Returned s2, w)
    /\ HomeScreen.accounts s1
       = (HomeScreen.accounts s
          ++ [LocalTOTPAccount.mk accountData (toString (Date_now w))
                (Date_now w) LocalTOTPAccount.pending])%list
    /\ (forall w', Date_now w' <> Date_now w ->
          toString (Date_now w') <> toString (Date_now w))
    /\ ((forall a, In a (HomeScreen.accounts s) ->
           LocalTOTPAccount.id a <> toString (Date_now w)) ->
        HomeScreen.accounts
          (HomeScreen.handleDeleteAccount_onPress (toString (Date_now w)) s1)
        = HomeScreen.accounts s)
    /\ HomeScreen.accounts
         (HomeScreen.handleDeleteAccount_onPress (toString (Date_now w)) s2)
       = HomeScreen.accounts
           (HomeScreen.handleDeleteAccount_onPress (toString (Date_now w)) s).
Proof.
  do 2 eexists. split; [reflexivity|]. split; [reflexivity|].
  split; [reflexivity|].
  cbn [HomeScreen.accounts HomeScreen.handleDeleteAccount_onPress].
  repeat apply conj.
  - intros w' Hne Heq. apply Hne. exact (toString_inj _ _ Heq).
  - intros Hfresh. rewrite filter_app. cbn [filter LocalTOTPAccount.id].
    rewrite String.eqb_refl. cbn [negb]. rewrite app_nil_r.
    apply filter_all. intros a Ha. apply negb_true_iff.
    apply String.eqb_neq. exact (Hfresh a Ha).
  - rewrite !filter_app. cbn [filter LocalTOTPAccount.id].
    rewrite String.eqb_refl. cbn [negb]. now rewrite !app_nil_r.
Qed.

(** X18.  [handleEditAccount] changes no id and no position: the list keeps
    its length and its ids in order; every account that carries the id of the
    account being edited is replaced by the new data under that id, pending
    synchronisation and stamped with the clock reading, and the others are
    kept as they are.  With no account being edited nothing changes. *)
Theorem edit_keeps_ids (accountData : LocalTOTPAccount.Data)
  (s : HomeScreen.State) (w : World) :
  exists s',
    HomeScreen.handleEditAccount accountData s w = (Returned s', w)
    /\ map LocalTOTPAccount.id (HomeScreen.accounts s')
       = map LocalTOTPAccount.id (HomeScreen.accounts s)
    /\ (HomeScreen.editingAccount s = None -> s' = s)
    /\ (forall editing, HomeScreen.editingAccount s = Some editing ->
          HomeScreen.editingAccount s' = None
          /\ forall k a, nth_error (HomeScreen.accounts s) k = Some a ->
               nth_error (HomeScreen.accounts s') k
               = Some (if String.eqb (LocalTOTPAccount.id a)
                            (LocalTOTPAccount.id editing)
                       then LocalTOTPAccount.mk accountData
                              (LocalTOTPAccount.id editing) (Date_now w)
                              LocalTOTPAccount.pending
                       else a)).
Proof.
  unfold HomeScreen.handleEditAccount.
  destruct (HomeScreen.editingAccount s) as [editing|] eqn:He.
  - eexists. split; [reflexivity|].
    cbn [HomeScreen.accounts HomeScreen.editingAccount].
    repeat apply conj.
    + rewrite map_map. apply map_ext_in. intros a _.
      destruct (String.eqb_spec (LocalTOTPAccount.id a)
                  (LocalTOTPAccount.id editing)) as [Heq|Hne];
        [symmetry; exact Heq | reflexivity].
    + discriminate.
    + intros editing' H. injection H as <-. split; [reflexivity|].
      intros k a Hk. rewrite nth_error_map, Hk. reflexivity.
  - exists s. split; [reflexivity|]. split; [reflexivity|].
    split; [reflexivity|]. discriminate.
Qed.

(** ** [AddAccountForm] *)

Lemma validateForm_passed (f : AddAccountForm.Form) :
  AddAccountForm.validateForm f = None ->
  truthy (trim (AddAccountForm.serviceName f)) = true
  /\ truthy (trim (AddAccountForm.accountName f)) = true
  /\ validateSecret (trim (AddAccountForm.secret f)) = true
  /\ exists p, parseInt_auto (AddAccountForm.period f) = Num p
               /\ 1 <= p <= 300.
Proof.
  unfold AddAccountForm.validateForm. cbv zeta.
  destruct (truthy (trim (AddAccountForm.serviceName f))); [|discriminate].
  destruct (truthy (trim (AddAccountForm.accountName f))); [|discriminate].
  destruct (truthy (trim (AddAccountForm.secret f))); [|discriminate].
  destruct (validateSecret (trim (AddAccountForm.secret f))); [|discriminate].
  cbn [negb].
  destruct (parseInt_auto (AddAccountForm.period f)) as [|p];
    [discriminate|].
  unfold num_lt, num_gt. cbn [orb].
  destruct (Z.ltb_spec p 1); [discriminate|].
  destruct (Z.gtb_spec p 300); [discriminate|].
  intros _. repeat split. exists p. split; [reflexivity|lia].
Qed.

(** X19.  [handleSave] never throws, whatever the library and [onSave] do, and
    it calls [onSave] only with data that passed every check: names that are
    not blank, a secret [validateSecret] accepts, a period that [parseInt]
    reads as a number from 1 to 300, and after [generateTOTP] returned a code
    that is not empty for them.  A form that fails [validateForm] is answered
    by its alert, the library unused. *)
Theorem handleSave_outcomes (lib : Totp) (A : Type)
  (onSave : LocalTOTPAccount.Data -> M A) (f : AddAccountForm.Form)
  (w : World) :
  (exists o w', AddAccountForm.handleSave onSave f w = (Returned o, w'))
  /\ (forall message, AddAccountForm.validateForm f = Some message ->
        AddAccountForm.handleSave onSave f w
        = (Returned (AddAccountForm.Alerted message), w))
  /\ (forall a w',
        AddAccountForm.handleSave onSave f w
        = (Returned (AddAccountForm.Saved a), w') ->
        exists code w1 p,
          generateTOTP (trim (AddAccountForm.secret f)) (form_options f) w
          = (Returned code, w1)
          /\ truthy code = true
          /\ onSave (form_data f) w1 = (Returned a, w')
          /\ LocalTOTPAccount.period (form_data f) = Num p
          /\ 1 <= p <= 300
          /\ validateSecret (LocalTOTPAccount.secret (form_data f)) = true
          /\ truthy (LocalTOTPAccount.serviceName (form_data f)) = true
          /\ truthy (LocalTOTPAccount.accountName (form_data f)) = true).
Proof.
  unfold AddAccountForm.handleSave.
  destruct (AddAccountForm.validateForm f) as [message|] eqn:Hv.
  - repeat apply conj.
    + do 2 eexists. reflexivity.
    + intros m H. injection H as <-. reflexivity.
    + intros a w' H. discriminate.
  - destruct (validateForm_passed f Hv) as (Hsn & Han & Hs & p & Hp & Hr).
    fold (form_options f). fold (form_data f).
    unfold try_catch, bind, throw, ret.
    destruct (generateTOTP (trim (AddAccountForm.secret f)) (form_options f)
                w) as [[code|e] w1] eqn:Hg.
    + destruct (truthy code) eqn:Ht; cbn [negb].
      * destruct (onSave (form_data f) w1) as [[a|e] w2] eqn:Ho.
        -- repeat apply conj; [do 2 eexists; reflexivity | discriminate |].
           intros a' w' H. injection H as <- <-.
           exists code, w1, p. rewrite Ho.
           unfold form_data.
           cbn [LocalTOTPAccount.period LocalTOTPAccount.secret
                LocalTOTPAccount.serviceName LocalTOTPAccount.accountName].
           repeat apply conj; try reflexivity; try assumption; lia.
        -- repeat apply conj; [do 2 eexists; reflexivity | discriminate |].
           discriminate.
      * repeat apply conj; [do 2 eexists; reflexivity | discriminate |].
        discriminate.
    + repeat apply conj; [do 2 eexists; reflexivity | discriminate |].
      discriminate.
Qed.

Lemma padStart0_truthy (width : Z) (s : string) :
  truthy s = true -> truthy (padStart0 width s) = true.
Proof.
  unfold padStart0. intros H.
  destruct (repeat 0 (Z.to_nat width - String.length s)); cbn; [exact H|].
  reflexivity.
Qed.

(** X20.  With the library as the specification describes it, the trial
    generation of [handleSave] cannot fail: every form that passes
    [validateForm] reaches [onSave], with the trimmed fields and the period as
    a number, and ends in the alert only if [onSave] throws.  The period is
    read by [parseInt] without a radix, so text such as '0x1e' or '45s' passes
    as 30 or 45. *)
Theorem valid_form_is_saved (A : Type)
  (onSave : LocalTOTPAccount.Data -> M A) (f : AddAccountForm.Form)
  (w : World) :
  AddAccountForm.validateForm f = None ->
  AddAccountForm.handleSave (lib := OtplibModel.model) onSave f w
  = (match onSave (form_data f)
             (mkWorld (Date_now w) (totpOptions (form_options f))) with
     | (Returned a, w') => (Returned (AddAccountForm.Saved a), w')
     | (Thrown _, w') =>
         (Returned
            (AddAccountForm.Alerted
               "Failed to validate TOTP settings. Please check your inputs."),
          w')
     end)
  /\ (exists p, LocalTOTPAccount.period (form_data f) = Num p
                /\ 1 <= p <= 300)
  /\ parseInt_auto "0x1e" = Num 30
  /\ parseInt_auto "45s" = Num 45
  /\ parseInt_auto " 30 " = Num 30.
Proof.
  intros Hv.
  destruct (validateForm_passed f Hv) as (Hsn & Han & Hs & p & Hp & Hr).
  split; [|split; [exists p; split; [exact Hp|exact Hr] |
                   repeat apply conj; reflexivity]].
  unfold AddAccountForm.handleSave. rewrite Hv.
  fold (form_options f). fold (form_data f).
  apply validateSecret_true in Hs as [cleaned Hc].
  destruct (generateTOTP_model_at _ _ (form_options f) w Hc)
    as (code & Hcode & Hg).
  destruct (code_at_cleaned _ _ (totpOptions (form_options f))
              (Date_now w / 1000 / step (totpOptions (form_options f))) Hc)
    as [mac Hmac].
  rewrite Hmac in Hcode. injection Hcode as Hcode.
  assert (truthy code = true) as Ht.
  { rewrite <- Hcode. unfold OtplibModel.format. apply padStart0_truthy.
    apply toString_ascii. }
  unfold try_catch, bind, throw, ret. rewrite Hg, Ht. cbn [negb].
  destruct (onSave (form_data f) _) as [[a|e] w']; reflexivity.
Qed.

Lemma valid_form_is_saved_witness :
  AddAccountForm.handleSave (lib := OtplibModel.model)
    (fun accountData =>
       HomeScreen.handleAddAccount accountData
         (HomeScreen.mkState [] true false None))
    (AddAccountForm.mkForm " Example " "alice" " jbsw y3dp ehpk 3pxp "
       "SHA1" (Num 6) "0x1e")
    (at_time 59 (mkOptions 8 60 sha512 0))
  = (match (fun accountData =>
              HomeScreen.handleAddAccount accountData
                (HomeScreen.mkState [] true false None))
             (form_data
                (AddAccountForm.mkForm " Example " "alice"
                   " jbsw y3dp ehpk 3pxp " "SHA1" (Num 6) "0x1e"))
             (mkWorld (Date_now (at_time 59 (mkOptions 8 60 sha512 0)))
                (totpOptions
                   (form_options
                      (AddAccountForm.mkForm " Example " "alice"
                         " jbsw y3dp ehpk 3pxp " "SHA1" (Num 6) "0x1e"))))
     with
     | (Returned a, w') => (Returned (AddAccountForm.Saved a), w')
     | (Thrown _, w') =>
         (Returned
            (AddAccountForm.Alerted
               "Failed to validate TOTP settings. Please check your inputs."),
          w')
     end)
  /\ (exists p,
        LocalTOTPAccount.period
          (form_data
             (AddAccountForm.mkForm " Example " "alice"
                " jbsw y3dp ehpk 3pxp " "SHA1" (Num 6) "0x1e")) = Num p
        /\ 1 <= p <= 300)
  /\ parseInt_auto "0x1e" = Num 30
  /\ parseInt_auto "45s" = Num 45
  /\ parseInt_auto " 30 " = Num 30.
Proof.
  apply (valid_form_is_saved HomeScreen.State). reflexivity.
Defined.

(** ** [TOTPItem] *)

(** X21.  [updateTOTP] never throws, whatever the library does: when
    [generateTOTP] fails (a refused secret, or the library) the item shows
    'ERROR' and 0 seconds; when it returns, the item shows that code and, for
    a positive period and a clock not before 1970, the very number of seconds
    [getTimeRemaining] gives for that period, between 1 and the period. *)
Theorem updateTOTP_shows (lib : Totp) (account : LocalTOTPAccount.t)
  (w : World) :
  (exists state w', TOTPItem.updateTOTP account w = (Returned state, w'))
  /\ (forall e w',
        generateTOTP (LocalTOTPAccount.secret (LocalTOTPAccount.data account))
          (account_options account) w = (Thrown e, w') ->
        TOTPItem.updateTOTP account w
        = (Returned (TOTPItem.mkState "ERROR" (Num 0)), w'))
  /\ (forall e,
        validateAndCleanSecret
          (LocalTOTPAccount.secret (LocalTOTPAccount.data account))
        = Thrown e ->
        TOTPItem.updateTOTP account w
        = (Returned (TOTPItem.mkState "ERROR" (Num 0)), w))
  /\ (forall code w' p,
        generateTOTP (LocalTOTPAccount.secret (LocalTOTPAccount.data account))
          (account_options account) w = (Returned code, w') ->
        LocalTOTPAccount.period (LocalTOTPAccount.data account) = Num p ->
        0 < p -> 0 <= Date_now w' ->
        exists r,
          TOTPItem.updateTOTP account w
          = (Returned (TOTPItem.mkState code (Num r)), w')
          /\ getTimeRemaining p w' = (Returned r, w')
          /\ 1 <= r <= p).
Proof.
  unfold TOTPItem.updateTOTP. cbv zeta. fold (account_options account).
  unfold try_catch, bind, now, ret.
  repeat apply conj.
  - destruct (generateTOTP _ _ w) as [[code|e] w']; do 2 eexists; reflexivity.
  - intros e w' ->. reflexivity.
  - intros e He. rewrite (generateTOTP_refused lib _ _ _ _ He). reflexivity.
  - intros code w' p -> Hp Hpos Hclock. rewrite Hp.
    unfold num_rem, num_sub, getTimeRemaining. cbv zeta.
    destruct (Z.eqb_spec p 0) as [|_]; [lia|].
    set (n := Date_now w' / 1000).
    assert (0 <= n) as Hn by (apply Z.div_pos; lia).
    rewrite Z.rem_mod_nonneg by lia.
    pose proof (Z.div_mod n p ltac:(lia)) as Hdm.
    pose proof (Z.mod_pos_bound n p Hpos) as Hb.
    exists (p - n mod p). repeat apply conj; try lia; try reflexivity.
    do 2 f_equal. lia.
Qed.

Lemma updateTOTP_sample :
  TOTPItem.updateTOTP (lib := OtplibModel.model)
    (LocalTOTPAccount.mk
       (LocalTOTPAccount.mkData "Google" "user@gmail.com" "JBSWY3DPEHPK3PXP"
          "SHA1" (Num 6) (Num 30) None)
       "1" 0 LocalTOTPAccount.synced)
    (at_time 1682324250 (mkOptions 8 60 sha512 0))
  = (Returned (TOTPItem.mkState "799677" (Num 30)),
     at_time 1682324250 (mkOptions 6 30 sha1 1)).
Proof. vm_compute. reflexivity. Qed.

Lemma remove_ws_plain (s : string) :
  forallb_str is_printable s = true ->
  removeWhitespace s = s.
Proof.
  unfold removeWhitespace. induction s as [|c r IH]; intros H; [reflexivity|].
  cbn [forallb_str] in H. apply andb_true_iff in H as [Hc Hr].
  apply andb_true_iff in Hc as [H1 H2].
  apply Z.leb_le in H1. apply Z.leb_le in H2.
  cbn [remove_ws_from]. rewrite ws_len_plain by lia.
  now rewrite IH.
Qed.

(** X22.  [formatTOTPCode] only inserts a blank: for a code of visible ASCII
    characters (the digits of a code, or 'ERROR'), removing white space from
    the formatted text gives the code back; a code of six characters is shown
    as three, a blank, and three; any other code is shown as it is. *)
Theorem formatTOTPCode_blank (code : string) :
  forallb_str is_printable code = true ->
  removeWhitespace (TOTPItem.formatTOTPCode code) = code
  /\ (len code = 6 ->
      exists a b,
        code = a ++ b /\ len a = 3 /\ len b = 3
        /\ TOTPItem.formatTOTPCode code = a ++ " " ++ b)
  /\ (len code <> 6 -> TOTPItem.formatTOTPCode code = code).
Proof.
  intros H. unfold TOTPItem.formatTOTPCode.
  destruct (Z.eqb_spec (len code) 6) as [Hl|Hl].
  - unfold len in Hl.
    destruct code as [|c1 [|c2 [|c3 [|c4 [|c5 [|c6 [|c7 r]]]]]]];
      cbn [String.length] in Hl; try lia.
    split; [|split; [|intros Hne; now elim Hne]].
    + pose proof (remove_ws_plain _ H) as Hplain.
      unfold removeWhitespace in *.
      cbn [forallb_str] in H.
      repeat (apply andb_true_iff in H as [?Hc H];
              apply andb_true_iff in Hc as [?H1 ?H2]).
      repeat match goal with
        | Hx : (_ <=? _) = true |- _ => apply Z.leb_le in Hx
        end.
      cbn [JS.substring JS.substring_from String.substring String.length
           Nat.sub append].
      cbn [remove_ws_from].
      repeat (rewrite ws_len_plain by lia; cbn [remove_ws_from]).
      change (ws_len (String " " (String c4 (String c5 (String c6 "")))))
        with 1%nat.
      cbn [remove_ws_from].
      repeat (rewrite ws_len_plain by lia; cbn [remove_ws_from]).
      reflexivity.
    + intros _.
      exists (String c1 (String c2 (String c3 ""))),
        (String c4 (String c5 (String c6 ""))).
      repeat apply conj; reflexivity.
  - split; [exact (remove_ws_plain _ H)|]. split; [intros; lia|reflexivity].
Qed.

Lemma formatTOTPCode_blank_witness :
  removeWhitespace (TOTPItem.formatTOTPCode "194241") = "194241"
  /\ (len "194241" = 6 ->
      exists a b,
        "194241" = a ++ b /\ len a = 3 /\ len b = 3
        /\ TOTPItem.formatTOTPCode "194241" = a ++ " " ++ b)
  /\ (len "194241" <> 6 -> TOTPItem.formatTOTPCode "194241" = "194241").
Proof. apply (formatTOTPCode_blank "194241"). reflexivity. Defined.
